(** * picoclaw: system-prompt cache, message composer and history sanitizer

    A shallow embedding of the Go package [agent] (context builder) and of
    the parts of package [skills] it relies on, together with the proofs of
    the properties stated for them.

    Conventions.
    - Go strings are byte strings: [string] of the Standard Library, whose
      [String.length] is Go's [len].
    - A Go [map[string]bool] that may be [nil] is an [option (gmap string bool)];
      reading a missing key gives [false], as in Go.
    - Code that touches the file system, the clock or the logger runs in the
      writer monad [W], which records every such operation in program order;
      the mutable fields of [ContextBuilder] are passed explicitly.
    - The reader/writer lock is not modelled: every function is given its
      sequential meaning. *)

From Stdlib Require Import ZArith List String Ascii Bool Lia.
From stdpp Require Import base option gmap strings list.
Import ListNotations.

Local Open Scope string_scope.
Local Open Scope list_scope.
Local Open Scope Z_scope.

(* ================================================================== *)
(** ** Go's [time.Time], as far as the cache uses it *)
(* ================================================================== *)

Module GoTime.

(** An instant: seconds since January 1, year 1 00:00:00 UTC and the
    nanoseconds within the second.  Location and monotonic reading play
    no role in [After] and [IsZero]. *)
Record Time : Type := mkTime { sec : Z; nsec : Z }.

(** [time.Time{}] *)
Definition zero : Time := mkTime 0 0.

(** [t.IsZero()] *)
Definition IsZero (t : Time) : bool := (sec t =? 0) && (nsec t =? 0).

(** [t.After(u)] *)
Definition After (t u : Time) : bool :=
  (sec t >? sec u) || ((sec t =? sec u) && (nsec t >? nsec u)).

(** Seconds from year 1 to 1970. *)
Definition unixToInternal : Z := (1969 * 365 + 1969 / 4 - 1969 / 100 + 1969 / 400) * 86400.

(** [time.Unix(sec, nsec)]; Go's [/] on integers truncates ([Z.quot]). *)
Definition Unix (s ns : Z) : Time :=
  let '(s, ns) :=
    if (ns <? 0) || (ns >=? 1000000000) then
      let n := Z.quot ns 1000000000 in
      let s := s + n in
      let ns := ns - n * 1000000000 in
      if ns <? 0 then (s - 1, ns + 1000000000) else (s, ns)
    else (s, ns) in
  mkTime (s + unixToInternal) ns.

End GoTime.

Import GoTime.

(* ================================================================== *)
(** ** Observable operations and the writer monad *)
(* ================================================================== *)

(** What the code does to the outside world. *)
Inductive Event : Type :=
| EvStat (path : string)                 (* os.Stat(path) *)
| EvReadFile (path : string)             (* os.ReadFile(path) *)
| EvReadDir (path : string)              (* os.ReadDir(path) *)
| EvWalkDir (root : string)              (* filepath.WalkDir(root, fn) is entered *)
| EvVisit (path : string)                (* WalkDir invokes fn on path *)
| EvMemory                               (* MemoryStore.GetMemoryContext() *)
| EvClock                                (* time.Now() *)
| EvLog (level component msg : string).  (* logger / slog output *)

Definition W (A : Type) : Type := (A * list Event)%type.

Definition ret {A} (a : A) : W A := (a, []).

Definition bind {A B} (m : W A) (f : A -> W B) : W B :=
  let '(a, t1) := m in
  let '(b, t2) := f a in
  (b, t1 ++ t2).

Definition tell (e : Event) : W unit := (tt, [e]).

Definition value {A} (m : W A) : A := fst m.
Definition trace {A} (m : W A) : list Event := snd m.

Declare Scope w_scope.
Delimit Scope w_scope with W.
Notation "'let!' x ':=' m 'in' k" := (bind m (fun x => k))
  (at level 10, x pattern, m at level 100, k at level 200, only parsing) : w_scope.
Notation "m >>> k" := (bind m (fun _ => k))
  (at level 100, k at level 200, right associativity, only parsing) : w_scope.
Local Open Scope w_scope.

(** Events that read the file system. *)
Definition isFileAccess (e : Event) : bool :=
  match e with
  | EvStat _ | EvReadFile _ | EvReadDir _ | EvWalkDir _ | EvVisit _ | EvMemory => true
  | EvClock | EvLog _ _ _ => false
  end.

(* ================================================================== *)
(** ** The world outside the process *)
(* ================================================================== *)

(** The two ways [filepath.WalkDir] calls its callback [fn(path, d, err)]. *)
Inductive WalkArg : Type :=
| Visit (path : string) (isDir : bool)   (* err == nil, d.IsDir() = isDir *)
| VisitErr (path : string).              (* err != nil (root missing, unreadable directory) *)

Definition walkPath (a : WalkArg) : string :=
  match a with Visit p _ => p | VisitErr p => p end.

(** [fs.DirEntry] as returned by [os.ReadDir]. *)
Record DirEntry : Type := mkDirEntry { de_Name : string; de_IsDir : bool }.

(** A snapshot of everything the code reads from outside.  [os_Stat p] is
    [Some mtime] when [os.Stat(p)] succeeds.  [walk root] lists, in order,
    the callback invocations [filepath.WalkDir(root, fn)] makes as long as
    [fn] keeps returning [nil]. *)
Record World : Type := mkWorld {
  os_Stat : string -> option Time;
  os_ReadFile : string -> option string;
  os_ReadDir : string -> option (list DirEntry);
  walk : string -> list WalkArg;
  filepath_Abs : string -> string;
  os_Getwd : string;
  os_UserHomeDir : option string;
  (* what MemoryStore.GetMemoryContext() returns *)
  memoryContext : string;
  (* time.Now().Format("2006-01-02 15:04 (Monday)") *)
  nowFormatted : string;
}.

Definition Stat (w : World) (p : string) : W (option Time) :=
  tell (EvStat p) >>> ret (os_Stat w p).

Definition ReadFile (w : World) (p : string) : W (option string) :=
  tell (EvReadFile p) >>> ret (os_ReadFile w p).

Definition ReadDir (w : World) (p : string) : W (option (list DirEntry)) :=
  tell (EvReadDir p) >>> ret (os_ReadDir w p).

(** Go errors that occur in this package. *)
Inductive error : Type :=
| errWalkStop                    (* errors.New("walk stop") *)
| errOther (notExist : bool).    (* any other error; os.IsNotExist(err) = notExist *)

Definition isErrWalkStop (e : error) : bool :=
  match e with errWalkStop => true | _ => false end.

Definition os_IsNotExist (e : error) : bool :=
  match e with errOther b => b | errWalkStop => false end.

(** [filepath.WalkDir] for callbacks that return [nil] or an error other
    than [SkipDir]/[SkipAll]: the callback is invoked on the entries in
    order, and the walk ends with the first error a callback returns.  [S]
    is the state of the variables the closure captures. *)
Fixpoint walkLoop {S : Type} (fn : WalkArg -> S -> W (option error * S))
    (visits : list WalkArg) (s : S) : W (option error * S) :=
  match visits with
  | [] => ret (None, s)
  | a :: rest =>
      tell (EvVisit (walkPath a)) >>>
      let! (err, s') := fn a s in
      match err with
      | Some e => ret (Some e, s')
      | None => walkLoop fn rest s'
      end
  end.

Definition WalkDir {S : Type} (w : World) (root : string)
    (fn : WalkArg -> S -> W (option error * S)) (s : S) : W (option error * S) :=
  tell (EvWalkDir root) >>> walkLoop fn (walk w root) s.

(* ================================================================== *)
(** ** Library functions taken as given *)
(* ================================================================== *)

(** Pure functions of Go's standard library whose results the properties
    below do not depend on. *)
Record GoLib : Type := mkGoLib {
  filepath_Join : list string -> string;
  filepath_Base : string -> string;
  filepath_Dir : string -> string;
  strings_TrimSpace : string -> string;
  (* reFrontmatter.FindStringSubmatch(content) *)
  reFrontmatter_FindStringSubmatch : string -> list string;
  (* json.Unmarshal into a struct with fields name and description;
     None when it returns an error *)
  json_Unmarshal : string -> option (string * string);
  (* runtime.GOOS, runtime.GOARCH, runtime.Version() *)
  runtime_GOOS : string;
  runtime_GOARCH : string;
  runtime_Version : string;
}.

(* ================================================================== *)
(** ** Strings *)
(* ================================================================== *)

Definition nl : string := String "010"%char "".
Definition cr : string := String "013"%char "".
Definition dquote : ascii := "034"%char.

(** [len(s)] *)
Definition len (s : string) : Z := Z.of_nat (String.length s).

(** [strings.Join(parts, sep)] *)
Definition strings_Join (parts : list string) (sep : string) : string :=
  String.concat sep parts.

(** [strings.HasPrefix(s, prefix)] *)
Definition strings_HasPrefix (s pre : string) : bool := String.prefix pre s.

(** [strings.Contains(s, substr)] *)
Fixpoint strings_Contains (s substr : string) : bool :=
  String.prefix substr s ||
  match s with
  | EmptyString => false
  | String _ s' => strings_Contains s' substr
  end.

(** [strings.ReplaceAll(s, old, new)] for a non-empty [old]: matches are
    found left to right and do not overlap.  [skip] counts the bytes of a
    match that are still to be passed over. *)
Fixpoint replaceFrom (old new s : string) (skip : nat) : string :=
  match s with
  | EmptyString => EmptyString
  | String c s' =>
      match skip with
      | S k => replaceFrom old new s' k
      | O =>
          if String.prefix old s
          then new +:+ replaceFrom old new s' (String.length old - 1)
          else String c (replaceFrom old new s' 0)
      end
  end.

Definition strings_ReplaceAll (s old new : string) : string :=
  replaceFrom old new s 0.

(** [strings.Split(s, sep)] for a one-byte separator. *)
Fixpoint strings_Split (s : string) (sep : ascii) : list string :=
  match s with
  | EmptyString => [EmptyString]
  | String c s' =>
      if Ascii.eqb c sep then EmptyString :: strings_Split s' sep
      else match strings_Split s' sep with
           | h :: t => String c h :: t
           | [] => [String c EmptyString]
           end
  end.

(** [strings.SplitN(s, sep, 2)] for a one-byte separator. *)
Fixpoint strings_SplitN2 (s : string) (sep : ascii) : list string :=
  match s with
  | EmptyString => [EmptyString]
  | String c s' =>
      if Ascii.eqb c sep then [EmptyString; s']
      else match strings_SplitN2 s' sep with
           | h :: t => String c h :: t
           | [] => [String c EmptyString]
           end
  end.

Definition inCutset (cutset : list ascii) (c : ascii) : bool :=
  existsb (Ascii.eqb c) cutset.

Fixpoint trimLeft (cutset : list ascii) (s : string) : string :=
  match s with
  | EmptyString => EmptyString
  | String c s' => if inCutset cutset c then trimLeft cutset s' else s
  end.

Fixpoint trimRight (cutset : list ascii) (s : string) : string :=
  match s with
  | EmptyString => EmptyString
  | String c s' =>
      match trimRight cutset s' with
      | EmptyString => if inCutset cutset c then EmptyString else String c EmptyString
      | r => String c r
      end
  end.

(** [strings.Trim(s, cutset)] for a cutset of ASCII bytes. *)
Definition strings_Trim (s : string) (cutset : list ascii) : string :=
  trimRight cutset (trimLeft cutset s).

(* ================================================================== *)
(** ** Regular expressions, for [namePattern] *)
(* ================================================================== *)

Module Regexp.

Inductive regex : Type :=
| Void                                  (* matches nothing *)
| Eps                                   (* the empty string *)
| Class (f : ascii -> bool)             (* one byte of a class *)
| Cat (r1 r2 : regex)
| Alt (r1 r2 : regex)
| Star (r : regex).

Definition Plus (r : regex) : regex := Cat r (Star r).

(** The strings a regular expression denotes. *)
Inductive denotes : regex -> string -> Prop :=
| d_eps : denotes Eps EmptyString
| d_class f c : f c = true -> denotes (Class f) (String c EmptyString)
| d_cat r1 r2 s1 s2 : denotes r1 s1 -> denotes r2 s2 -> denotes (Cat r1 r2) (s1 +:+ s2)
| d_alt_l r1 r2 s : denotes r1 s -> denotes (Alt r1 r2) s
| d_alt_r r1 r2 s : denotes r2 s -> denotes (Alt r1 r2) s
| d_star_nil r : denotes (Star r) EmptyString
| d_star_cons r s1 s2 : denotes r s1 -> denotes (Star r) s2 -> denotes (Star r) (s1 +:+ s2).

Fixpoint nullable (r : regex) : bool :=
  match r with
  | Void => false
  | Eps => true
  | Class _ => false
  | Cat r1 r2 => nullable r1 && nullable r2
  | Alt r1 r2 => nullable r1 || nullable r2
  | Star _ => true
  end.

(** Brzozowski derivative. *)
Fixpoint deriv (c : ascii) (r : regex) : regex :=
  match r with
  | Void => Void
  | Eps => Void
  | Class f => if f c then Eps else Void
  | Cat r1 r2 =>
      if nullable r1 then Alt (Cat (deriv c r1) r2) (deriv c r2)
      else Cat (deriv c r1) r2
  | Alt r1 r2 => Alt (deriv c r1) (deriv c r2)
  | Star r0 => Cat (deriv c r0) (Star r0)
  end.

(** A match of the whole string, as for a pattern between [^] and [$]. *)
Fixpoint fullMatch (r : regex) (s : string) : bool :=
  match s with
  | EmptyString => nullable r
  | String c s' => fullMatch (deriv c r) s'
  end.

End Regexp.

(* ================================================================== *)
(** ** Package [skills]: the loader *)
(* ================================================================== *)

Definition MaxNameLength : Z := 64.
Definition MaxDescriptionLength : Z := 1024.

Definition inRange (lo hi : ascii) (c : ascii) : bool :=
  (nat_of_ascii lo <=? nat_of_ascii c)%nat && (nat_of_ascii c <=? nat_of_ascii hi)%nat.

(** [[a-zA-Z0-9]] *)
Definition isAlnum (c : ascii) : bool :=
  inRange "a" "z" c || inRange "A" "Z" c || inRange "0" "9" c.

(** [regexp.MustCompile(`^[a-zA-Z0-9]+(-[a-zA-Z0-9]+)*$`)] *)
Definition namePattern : Regexp.regex :=
  Regexp.Cat (Regexp.Plus (Regexp.Class isAlnum))
    (Regexp.Star (Regexp.Cat (Regexp.Class (Ascii.eqb "-")) (Regexp.Plus (Regexp.Class isAlnum)))).

(** [namePattern.MatchString(s)] *)
Definition namePattern_MatchString (s : string) : bool :=
  Regexp.fullMatch namePattern s.

Record SkillMetadata : Type := mkSkillMetadata {
  md_Name : string;
  md_Description : string;
}.

Record SkillInfo : Type := mkSkillInfo {
  Name : string;
  Path : string;
  Source : string;
  Description : string;
}.

(** [SkillInfo.validate]: the errors that [errors.Join] collects, in
    order; the Go result is [nil] exactly when the list is empty. *)
Definition validate (info : SkillInfo) : list string :=
  let errs : list string := [] in
  let errs :=
    if String.eqb (Name info) "" then errs ++ ["name is required"]
    else
      let errs :=
        if len (Name info) >? MaxNameLength
        then errs ++ ["name exceeds 64 characters"] else errs in
      if negb (namePattern_MatchString (Name info))
      then errs ++ ["name must be alphanumeric with hyphens"] else errs in
  if String.eqb (Description info) "" then errs ++ ["description is required"]
  else if len (Description info) >? MaxDescriptionLength
  then errs ++ ["description exceeds 1024 character"]
  else errs.

(** [skills.SkillsLoader] *)
Record SkillsLoader : Type := mkSkillsLoader {
  sl_workspace : string;
  workspaceSkills : string;
  globalSkills : string;
  builtinSkills : string;
}.

(** [escapeXML] *)
Definition escapeXML (s : string) : string :=
  let s := strings_ReplaceAll s "&" "&amp;" in
  let s := strings_ReplaceAll s "<" "&lt;" in
  let s := strings_ReplaceAll s ">" "&gt;" in
  s.

(** [logger.WarnCF] and [slog.Warn]; the attributes are dropped. *)
Definition WarnCF (component msg : string) : W unit :=
  tell (EvLog "WARN" component msg).
Definition slog_Warn (msg : string) : W unit :=
  tell (EvLog "WARN" "slog" msg).

Section Loader.

Variable lib : GoLib.
Variable w : World.

Definition NewSkillsLoader (workspace globalSkills builtinSkills : string) : SkillsLoader :=
  mkSkillsLoader workspace (filepath_Join lib [workspace; "skills"]) globalSkills builtinSkills.

Definition extractFrontmatter (content : string) : string :=
  match reFrontmatter_FindStringSubmatch lib content with
  | _ :: m1 :: _ => m1
  | _ => ""
  end.

(** The loop body of [parseSimpleYAML], folded over the lines. *)
Fixpoint parseYAMLLines (lines : list string) (result : gmap string string)
    : gmap string string :=
  match lines with
  | [] => result
  | line :: rest =>
      let line := strings_TrimSpace lib line in
      if String.eqb line "" || strings_HasPrefix line "#" then parseYAMLLines rest result
      else
        match strings_SplitN2 line ":" with
        | [k; v] =>
            let key := strings_TrimSpace lib k in
            let value := strings_TrimSpace lib v in
            let value := strings_Trim value [dquote; "'"%char] in
            parseYAMLLines rest (<[key := value]> result)
        | _ => parseYAMLLines rest result
        end
  end.

Definition parseSimpleYAML (content : string) : gmap string string :=
  let normalized := strings_ReplaceAll content (cr +:+ nl) nl in
  let normalized := strings_ReplaceAll normalized cr nl in
  parseYAMLLines (strings_Split normalized "010"%char) ∅.

(** [getSkillMetadata]; [None] is the [nil] result. *)
Definition getSkillMetadata (skillPath : string) : W (option SkillMetadata) :=
  let! content := ReadFile w skillPath in
  match content with
  | None => WarnCF "skills" "Failed to read skill metadata" >>> ret None
  | Some content =>
      let frontmatter := extractFrontmatter content in
      if String.eqb frontmatter "" then
        ret (Some (mkSkillMetadata (filepath_Base lib (filepath_Dir lib skillPath)) ""))
      else
        match json_Unmarshal lib frontmatter with
        | Some (n, d) => ret (Some (mkSkillMetadata n d))
        | None =>
            let yamlMeta := parseSimpleYAML frontmatter in
            ret (Some (mkSkillMetadata (default "" (yamlMeta !! "name"))
                                       (default "" (yamlMeta !! "description"))))
        end
  end.

(** What the closure [addSkills] of [ListSkills] captures. *)
Definition ListState : Type := (list SkillInfo * gmap string bool)%type.

(** The [for _, d := range dirs] loop of [addSkills]. *)
Fixpoint addSkillsLoop (dir source : string) (dirs : list DirEntry) (st : ListState)
    : W ListState :=
  match dirs with
  | [] => ret st
  | d :: rest =>
      if negb (de_IsDir d) then addSkillsLoop dir source rest st
      else
        let skillFile := filepath_Join lib [dir; de_Name d; "SKILL.md"] in
        let! fi := Stat w skillFile in
        match fi with
        | None => addSkillsLoop dir source rest st
        | Some _ =>
            let info := mkSkillInfo (de_Name d) skillFile source "" in
            let! metadata := getSkillMetadata skillFile in
            let info :=
              match metadata with
              | Some md => mkSkillInfo (md_Name md) (Path info) (Source info) (md_Description md)
              | None => info
              end in
            match validate info with
            | _ :: _ =>
                slog_Warn ("invalid skill from " +:+ source) >>>
                addSkillsLoop dir source rest st
            | [] =>
                let '(skills, seen) := st in
                if default false (seen !! Name info) then addSkillsLoop dir source rest st
                else addSkillsLoop dir source rest
                       (skills ++ [info], <[Name info := true]> seen)
            end
        end
  end.

Definition addSkills (dir source : string) (st : ListState) : W ListState :=
  if String.eqb dir "" then ret st
  else
    let! dirs := ReadDir w dir in
    match dirs with
    | None => ret st
    | Some dirs => addSkillsLoop dir source dirs st
    end.

Definition ListSkills (sl : SkillsLoader) : W (list SkillInfo) :=
  let st : ListState := ([], ∅) in
  let! st := addSkills (workspaceSkills sl) "workspace" st in
  let! st := addSkills (globalSkills sl) "global" st in
  let! st := addSkills (builtinSkills sl) "builtin" st in
  ret (fst st).

(** The lines [BuildSkillsSummary] appends for one skill. *)
Definition skillLines (s : SkillInfo) : list string :=
  let escapedName := escapeXML (Name s) in
  let escapedDesc := escapeXML (Description s) in
  let escapedPath := escapeXML (Path s) in
  [ "  <skill>";
    "    <name>" +:+ escapedName +:+ "</name>";
    "    <description>" +:+ escapedDesc +:+ "</description>";
    "    <location>" +:+ escapedPath +:+ "</location>";
    "    <source>" +:+ Source s +:+ "</source>";
    "  </skill>" ].

(** The rendering part of [BuildSkillsSummary], after [ListSkills]. *)
Definition renderSkills (allSkills : list SkillInfo) : string :=
  match allSkills with
  | [] => ""
  | _ =>
      let lines := ["<skills>"] in
      let lines := lines ++ concat (map skillLines allSkills) in
      let lines := lines ++ ["</skills>"] in
      strings_Join lines nl
  end.

Definition BuildSkillsSummary (sl : SkillsLoader) : W string :=
  let! allSkills := ListSkills sl in
  ret (renderSkills allSkills).

End Loader.

(* ================================================================== *)
(** ** Messages *)
(* ================================================================== *)

(** Modelled from the spec: the declarations of package [protocoltypes]
    ([Message], [ContentBlock], [CacheControl], [ToolCall]) are not among
    the sources.  A message is "{role, textContent, structuredContentParts:
    ordered sequence of content blocks (each with a caching hint),
    toolCalls: ordered sequence, toolCallID: optional string}"; the fields
    are named as the code and its tests use them. *)
Record CacheControl : Type := mkCacheControl { cc_Type : string }.

Record ContentBlock : Type := mkContentBlock {
  block_Type : string;
  Text : string;
  CacheControl_ : option CacheControl;   (* *CacheControl, nil = None *)
}.

Record ToolCall : Type := mkToolCall { tc_ID : string; tc_Type : string }.

Record Message : Type := mkMessage {
  Role : string;
  Content : string;
  SystemParts : list ContentBlock;
  ToolCalls : list ToolCall;
  ToolCallID : string;
}.

(** Composite literals with the remaining fields at their zero value. *)
Definition plainMessage (role content : string) : Message :=
  mkMessage role content [] [] "".

(* ================================================================== *)
(** ** The context builder and its prompt cache *)
(* ================================================================== *)


(** [ContextBuilder]; [systemPromptMutex] is not modelled and [memory] is
    represented by the [memoryContext] of the world. *)
Record ContextBuilder : Type := mkContextBuilder {
  workspace : string;
  skillsLoader : SkillsLoader;
  cachedSystemPrompt : string;
  cachedAt : Time;
  existedAtCache : option (gmap string bool);
}.

(** [cacheBaseline] *)
Record cacheBaseline : Type := mkCacheBaseline {
  existed : option (gmap string bool);
  maxMtime : Time;
}.

(** Assignment to the three cache fields of [cb]. *)
Definition setCache (cb : ContextBuilder) (prompt : string) (at_ : Time)
    (ex : option (gmap string bool)) : ContextBuilder :=
  mkContextBuilder (workspace cb) (skillsLoader cb) prompt at_ ex.

Definition isSome {A} (o : option A) : bool :=
  match o with Some _ => true | None => false end.

(** [logger.DebugCF(component, message, fields)]; the fields are dropped. *)
Definition DebugCF (component msg : string) : W unit :=
  tell (EvLog "DEBUG" component msg).

Section Cache.

Variable lib : GoLib.
Variable w : World.

Definition skillsDirOf (cb : ContextBuilder) : string :=
  filepath_Join lib [workspace cb; "skills"].

Definition sourcePaths (cb : ContextBuilder) : list string :=
  [ filepath_Join lib [workspace cb; "AGENTS.md"];
    filepath_Join lib [workspace cb; "SOUL.md"];
    filepath_Join lib [workspace cb; "USER.md"];
    filepath_Join lib [workspace cb; "IDENTITY.md"];
    filepath_Join lib [workspace cb; "memory"; "MEMORY.md"] ].

(** The [for _, p := range allPaths] loop of [buildCacheBaseline]. *)
Fixpoint baselineStatLoop (paths : list string) (existed : gmap string bool)
    (maxMtime : Time) : W (gmap string bool * Time) :=
  match paths with
  | [] => ret (existed, maxMtime)
  | p :: rest =>
      let! info := Stat w p in
      let existed := <[p := isSome info]> existed in
      let maxMtime :=
        match info with
        | Some mt => if After mt maxMtime then mt else maxMtime
        | None => maxMtime
        end in
      baselineStatLoop rest existed maxMtime
  end.

(** The callback [buildCacheBaseline] passes to [WalkDir]; the captured
    variable is [maxMtime]. *)
Definition baselineWalkFn (a : WalkArg) (maxMtime : Time) : W (option error * Time) :=
  match a with
  | Visit path false =>
      let! info := Stat w path in
      match info with
      | Some mt => if After mt maxMtime then ret (None, mt) else ret (None, maxMtime)
      | None => ret (None, maxMtime)
      end
  | _ => ret (None, maxMtime)
  end.

Definition buildCacheBaseline (cb : ContextBuilder) : W cacheBaseline :=
  let skillsDir := filepath_Join lib [workspace cb; "skills"] in
  let allPaths := sourcePaths cb ++ [skillsDir] in
  let existed : gmap string bool := ∅ in
  let maxMtime := zero in
  let! (existed, maxMtime) := baselineStatLoop allPaths existed maxMtime in
  let! (_, maxMtime) := WalkDir w skillsDir baselineWalkFn maxMtime in
  let maxMtime := if IsZero maxMtime then Unix 1 0 else maxMtime in
  ret (mkCacheBaseline (Some existed) maxMtime).

Definition fileChangedSince (cb : ContextBuilder) (path : string) : W bool :=
  match existedAtCache cb with
  | None => ret true
  | Some m =>
      let existedBefore := default false (m !! path) in
      let! info := Stat w path in
      let existsNow := isSome info in
      if negb (Bool.eqb existedBefore existsNow) then ret true
      else if negb existsNow then ret false
      else match info with
           | Some mt => ret (After mt (cachedAt cb))
           | None => ret false
           end
  end.

(** The callback of [skillFilesModifiedSince]; the captured variable is
    [changed]. *)
Definition modifiedWalkFn (t : Time) (a : WalkArg) (changed : bool) : W (option error * bool) :=
  match a with
  | Visit path false =>
      let! info := Stat w path in
      match info with
      | Some mt => if After mt t then ret (Some errWalkStop, true) else ret (None, changed)
      | None => ret (None, changed)
      end
  | _ => ret (None, changed)
  end.

Definition skillFilesModifiedSince (skillsDir : string) (t : Time) : W bool :=
  let changed := false in
  let! (err, changed) := WalkDir w skillsDir (modifiedWalkFn t) changed in
  match err with
  | Some e =>
      if negb (isErrWalkStop e) && negb (os_IsNotExist e)
      then DebugCF "agent" "skills walk error" >>> ret changed
      else ret changed
  | None => ret changed
  end.

(** The [for _, p := range cb.sourcePaths()] loop of
    [sourceFilesChangedLocked], with its early [return true]. *)
Fixpoint anyFileChangedSince (cb : ContextBuilder) (paths : list string) : W bool :=
  match paths with
  | [] => ret false
  | p :: rest =>
      let! c := fileChangedSince cb p in
      if c then ret true else anyFileChangedSince cb rest
  end.

Definition sourceFilesChangedLocked (cb : ContextBuilder) : W bool :=
  if IsZero (cachedAt cb) then ret true
  else
    let! c := anyFileChangedSince cb (sourcePaths cb) in
    if c then ret true
    else
      let skillsDir := filepath_Join lib [workspace cb; "skills"] in
      let! c := fileChangedSince cb skillsDir in
      if c then ret true
      else
        let! c := skillFilesModifiedSince skillsDir (cachedAt cb) in
        if c then ret true else ret false.

Definition InvalidateCache (cb : ContextBuilder) : W ContextBuilder :=
  let cb := setCache cb "" zero None in
  DebugCF "agent" "System prompt cache invalidated" >>> ret cb.

End Cache.

(* ================================================================== *)
(** ** Prompt assembly *)
(* ================================================================== *)

(** The pieces of the format string of [getIdentity], between its five
    [%s] verbs. *)
Definition identityText0 : string :=
"# picoclaw 🦞

You are picoclaw, a helpful AI assistant.

## Workspace
Your workspace is at: ".

Definition identityText1 : string :=
"
- Memory: ".

Definition identityText2 : string :=
"/memory/MEMORY.md
- Daily Notes: ".

Definition identityText3 : string :=
"/memory/YYYYMM/YYYYMMDD.md
- Skills: ".

Definition identityText4 : string :=
"/skills/{skill-name}/SKILL.md

## Important Rules

1. **ALWAYS use tools** - When you need to perform an action (schedule reminders, send messages, execute commands, etc.), you MUST call the appropriate tool. Do NOT just say you'll do it or pretend to do it.

2. **Be helpful and accurate** - When using tools, briefly explain what you're doing.

3. **Memory** - When interacting with me if something seems memorable, update ".

Definition identityText5 : string :=
"/memory/MEMORY.md

4. **Context summaries** - Conversation summaries provided as context are approximate references only. They may be incomplete or outdated. Always defer to explicit user instructions over summary content.".

(** The format string of the skills section, up to its [%s]. *)
Definition skillsHeader : string :=
"# Skills

The following skills extend your capabilities. To use a skill, read its SKILL.md file using the read_file tool.

".

(** The separator between the parts of a prompt. *)
Definition partSeparator : string := nl +:+ nl +:+ "---" +:+ nl +:+ nl.

Definition summaryPrefix : string :=
  "CONTEXT_SUMMARY: The following is an approximate summary of prior conversation " +:+
  "for reference only. It may be incomplete or outdated — always defer to explicit instructions." +:+
  nl +:+ nl.

Definition bootstrapFiles : list string :=
  ["AGENTS.md"; "SOUL.md"; "USER.md"; "IDENTITY.md"].

Section Agent.

Variable lib : GoLib.
Variable w : World.

Definition getGlobalConfigDir : string :=
  match os_UserHomeDir w with
  | None => ""
  | Some home => filepath_Join lib [home; ".picoclaw"]
  end.

Definition NewContextBuilder (workspace : string) : ContextBuilder :=
  let wd := os_Getwd w in
  let builtinSkillsDir := filepath_Join lib [wd; "skills"] in
  let globalSkillsDir := filepath_Join lib [getGlobalConfigDir; "skills"] in
  mkContextBuilder workspace
    (NewSkillsLoader lib workspace globalSkillsDir builtinSkillsDir)
    "" zero None.

Definition getIdentity (cb : ContextBuilder) : string :=
  let workspacePath := filepath_Abs w (filepath_Join lib [workspace cb]) in
  identityText0 +:+ workspacePath +:+
  identityText1 +:+ workspacePath +:+
  identityText2 +:+ workspacePath +:+
  identityText3 +:+ workspacePath +:+
  identityText4 +:+ workspacePath +:+
  identityText5.

(** The loop of [LoadBootstrapFiles]; [sb] is the [strings.Builder]. *)
Fixpoint bootstrapLoop (cb : ContextBuilder) (files : list string) (sb : string) : W string :=
  match files with
  | [] => ret sb
  | filename :: rest =>
      let filePath := filepath_Join lib [workspace cb; filename] in
      let! data := ReadFile w filePath in
      match data with
      | Some data =>
          bootstrapLoop cb rest (sb +:+ "## " +:+ filename +:+ nl +:+ nl +:+ data +:+ nl +:+ nl)
      | None => bootstrapLoop cb rest sb
      end
  end.

Definition LoadBootstrapFiles (cb : ContextBuilder) : W string :=
  bootstrapLoop cb bootstrapFiles "".

(** Modelled from the spec: [MemoryStore] is not among the sources; it
    is "a memory-context provider returning freeform text or empty string
    when no memory exists", so its answer is a text the world gives. *)
Definition GetMemoryContext : W string :=
  tell EvMemory >>> ret (memoryContext w).

Definition BuildSystemPrompt (cb : ContextBuilder) : W string :=
  let parts : list string := [] in
  let parts := parts ++ [getIdentity cb] in
  let! bootstrapContent := LoadBootstrapFiles cb in
  let parts :=
    if negb (String.eqb bootstrapContent "") then parts ++ [bootstrapContent] else parts in
  let! skillsSummary := BuildSkillsSummary lib w (skillsLoader cb) in
  let parts :=
    if negb (String.eqb skillsSummary "")
    then parts ++ [skillsHeader +:+ skillsSummary] else parts in
  let! memoryContext := GetMemoryContext in
  let parts :=
    if negb (String.eqb memoryContext "")
    then parts ++ ["# Memory" +:+ nl +:+ nl +:+ memoryContext] else parts in
  ret (strings_Join parts partSeparator).

(** [cb.cachedSystemPrompt != "" && !cb.sourceFilesChangedLocked()] *)
Definition cacheIsFresh (cb : ContextBuilder) : W bool :=
  if negb (String.eqb (cachedSystemPrompt cb) "") then
    let! changed := sourceFilesChangedLocked lib w cb in
    ret (negb changed)
  else ret false.

(** [BuildSystemPromptWithCache]: the read-locked fast path, the
    double check under the write lock, then the rebuild.  The result is
    the returned string and the fields of [cb] afterwards. *)
Definition BuildSystemPromptWithCache (cb : ContextBuilder) : W (string * ContextBuilder) :=
  let! fresh := cacheIsFresh cb in
  if fresh then ret (cachedSystemPrompt cb, cb)
  else
    let! fresh := cacheIsFresh cb in
    if fresh then ret (cachedSystemPrompt cb, cb)
    else
      let! baseline := buildCacheBaseline lib w cb in
      let! prompt := BuildSystemPrompt cb in
      let cb := setCache cb prompt (maxMtime baseline) (existed baseline) in
      DebugCF "agent" "System prompt cached" >>>
      ret (prompt, cb).

Definition buildDynamicContext (channel chatID : string) : W string :=
  tell EvClock >>>
  let now := nowFormatted w in
  let rt := runtime_GOOS lib +:+ " " +:+ runtime_GOARCH lib +:+ ", Go " +:+ runtime_Version lib in
  let sb := "## Current Time" +:+ nl +:+ now +:+ nl +:+ nl +:+ "## Runtime" +:+ nl +:+ rt in
  let sb :=
    if negb (String.eqb channel "") && negb (String.eqb chatID "")
    then sb +:+ nl +:+ nl +:+ "## Current Session" +:+ nl +:+ "Channel: " +:+ channel
            +:+ nl +:+ "Chat ID: " +:+ chatID
    else sb in
  ret sb.

(** The backward scan of [sanitizeHistoryForProvider] for a tool
    message: [n] is [i + 1] for the loop index [i], which runs from
    [len(sanitized) - 1] down to [0]; the result is [foundAssistant]. *)
Fixpoint scanBack (sanitized : list Message) (n : nat) : bool :=
  match n with
  | O => false
  | S i =>
      match sanitized !! i with
      | Some m =>
          if String.eqb (Role m) "tool" then scanBack sanitized i
          else if String.eqb (Role m) "assistant" && (0 <? length (ToolCalls m))%nat
               then true else false
      | None => false
      end
  end.

(** One iteration of the loop over [history]. *)
Definition sanitizeStep (sanitized : list Message) (msg : Message) : W (list Message) :=
  if String.eqb (Role msg) "system" then
    DebugCF "agent" "Dropping system message from history" >>> ret sanitized
  else if String.eqb (Role msg) "tool" then
    if (length sanitized =? 0)%nat then
      DebugCF "agent" "Dropping orphaned leading tool message" >>> ret sanitized
    else
      let foundAssistant := scanBack sanitized (length sanitized) in
      if negb foundAssistant then
        DebugCF "agent" "Dropping orphaned tool message" >>> ret sanitized
      else ret (sanitized ++ [msg])
  else if String.eqb (Role msg) "assistant" then
    if (0 <? length (ToolCalls msg))%nat then
      if (length sanitized =? 0)%nat then
        DebugCF "agent" "Dropping assistant tool-call turn at history start" >>> ret sanitized
      else
        match sanitized !! (length sanitized - 1)%nat with
        | Some prev =>
            if negb (String.eqb (Role prev) "user") && negb (String.eqb (Role prev) "tool") then
              DebugCF "agent" "Dropping assistant tool-call turn with invalid predecessor" >>>
              ret sanitized
            else ret (sanitized ++ [msg])
        | None => ret (sanitized ++ [msg])
        end
    else ret (sanitized ++ [msg])
  else ret (sanitized ++ [msg]).

Fixpoint sanitizeLoop (history : list Message) (sanitized : list Message) : W (list Message) :=
  match history with
  | [] => ret sanitized
  | msg :: rest =>
      let! sanitized := sanitizeStep sanitized msg in
      sanitizeLoop rest sanitized
  end.

Definition sanitizeHistoryForProvider (history : list Message) : W (list Message) :=
  if (length history =? 0)%nat then ret history
  else sanitizeLoop history [].

Definition BuildMessages (cb : ContextBuilder) (history : list Message)
    (summary currentMessage : string) (media : list string) (channel chatID : string)
    : W (list Message * ContextBuilder) :=
  let messages : list Message := [] in
  let! (staticPrompt, cb) := BuildSystemPromptWithCache cb in
  let! dynamicCtx := buildDynamicContext channel chatID in
  let stringParts := [staticPrompt; dynamicCtx] in
  let contentBlocks :=
    [ mkContentBlock "text" staticPrompt (Some (mkCacheControl "ephemeral"));
      mkContentBlock "text" dynamicCtx None ] in
  let '(stringParts, contentBlocks) :=
    if negb (String.eqb summary "") then
      let summaryText := summaryPrefix +:+ summary in
      (stringParts ++ [summaryText],
       contentBlocks ++ [mkContentBlock "text" summaryText None])
    else (stringParts, contentBlocks) in
  let fullSystemPrompt := strings_Join stringParts partSeparator in
  DebugCF "agent" "System prompt built" >>>
  DebugCF "agent" "System prompt preview" >>>
  let! history := sanitizeHistoryForProvider history in
  let messages := messages ++ [mkMessage "system" fullSystemPrompt contentBlocks [] ""] in
  let messages := messages ++ history in
  let messages :=
    if negb (String.eqb (strings_TrimSpace lib currentMessage) "")
    then messages ++ [mkMessage "user" currentMessage [] [] ""]
    else messages in
  ret (messages, cb).

Definition AddToolResult (messages : list Message) (toolCallID toolName result : string)
    : list Message :=
  messages ++ [mkMessage "tool" result [] [] toolCallID].

(** [toolCalls] is a [[]map[string]any]; [V] stands for [any]. *)
Definition AddAssistantMessage {V : Type} (messages : list Message) (content : string)
    (toolCalls : list (gmap string V)) : list Message :=
  let msg := mkMessage "assistant" content [] [] "" in
  messages ++ [msg].

End Agent.

(* ================================================================== *)
(** ** The rules of the sanitizer, as the specification words them *)
(* ================================================================== *)

Definition isRole (r : string) (m : Message) : bool := String.eqb (Role m) r.

Definition hasToolCalls (m : Message) : bool :=
  match ToolCalls m with [] => false | _ :: _ => true end.

(** Scanning the accumulator backward and skipping tool messages, the
    first non-tool message, if there is one. *)
Definition nearestNonTool (acc : list Message) : option Message :=
  List.find (fun m => negb (isRole "tool" m)) (rev acc).

(** Whether a message is kept, given the accumulator built so far. *)
Definition keptBy (acc : list Message) (msg : Message) : bool :=
  if isRole "system" msg then false
  else if isRole "tool" msg then
    match acc with
    | [] => false
    | _ :: _ =>
        match nearestNonTool acc with
        | Some m => isRole "assistant" m && hasToolCalls m
        | None => false
        end
    end
  else if isRole "assistant" msg && hasToolCalls msg then
    match last acc with
    | None => false
    | Some prev => isRole "user" prev || isRole "tool" prev
    end
  else true.

(** The rules applied in input order. *)
Fixpoint sanitizeRules (acc : list Message) (history : list Message) : list Message :=
  match history with
  | [] => acc
  | msg :: rest => sanitizeRules (if keptBy acc msg then acc ++ [msg] else acc) rest
  end.

(** The blocks of the system message for a given static prompt, dynamic
    context and summary. *)
Definition systemBlocks (staticPrompt dynamicCtx summary : string) : list ContentBlock :=
  [ mkContentBlock "text" staticPrompt (Some (mkCacheControl "ephemeral"));
    mkContentBlock "text" dynamicCtx None ] ++
  (if String.eqb summary "" then []
   else [mkContentBlock "text" (summaryPrefix +:+ summary) None]).

(* ================================================================== *)
(** ** What the baseline and the staleness check observe *)
(* ================================================================== *)

(** The paths whose existence the baseline records: the four bootstrap
    files, the memory file and the skills directory. *)
Definition watchedPaths (lib : GoLib) (cb : ContextBuilder) : list string :=
  sourcePaths lib cb ++ [skillsDirOf lib cb].

(** The paths of the entries below the walked root that are not
    directories and were reached without an error. *)
Definition walkedFiles (visits : list WalkArg) : list string :=
  omap (fun a => match a with Visit p false => Some p | _ => None end) visits.

(** Every mtime the baseline gets to see: of the watched paths and of the
    files below the skills directory, as far as a stat succeeds. *)
Definition observedMtimes (lib : GoLib) (w : World) (cb : ContextBuilder) : list Time :=
  omap (os_Stat w) (watchedPaths lib cb ++ walkedFiles (walk w (skillsDirOf lib cb))).

(** The running maximum of [buildCacheBaseline], one step. *)
Definition later (acc t : Time) : Time := if After t acc then t else acc.

(** The existence map after the stat loop over [paths]. *)
Definition recordAll (w : World) (paths : list string) (ex : gmap string bool)
    : gmap string bool :=
  fold_left (fun ex p => <[p := isSome (os_Stat w p)]> ex) paths ex.

(** The events of checking the paths of a list one after the other. *)
Definition checkEvents (w : World) (cb : ContextBuilder) (paths : list string) : list Event :=
  flat_map (fun p => trace (fileChangedSince w cb p)) paths.

(** [t] is the latest instant of [l]. *)
Definition isLatestOf (t : Time) (l : list Time) : Prop :=
  In t l /\ forall x, In x l -> After x t = false.

(** The entry is a file whose mtime is strictly after [t]. *)
Definition isNewerFile (w : World) (t : Time) (a : WalkArg) : bool :=
  match a with
  | Visit p false =>
      match os_Stat w p with
      | Some mt => After mt t
      | None => false
      end
  | _ => false
  end.

(** What visiting one entry does: the callback is invoked, and a file is
    stat'ed. *)
Definition visitEvents (a : WalkArg) : list Event :=
  EvVisit (walkPath a) ::
  match a with
  | Visit p false => [EvStat p]
  | _ => []
  end.

(* ================================================================== *)
(** ** Sequences of calls, and what "no file changed" means *)
(* ================================================================== *)

(** Between two worlds neither the existence nor the mtime of a watched
    file, of the skills directory or of a file below it changed: the stat
    results of the watched paths are the same, the same files are found
    below the skills directory, and each of them has the same stat result.
    File contents are not compared, and neither are the directories below
    the skills directory, the entries the walk cannot read, or the order
    of the walk. *)
Definition sameWatched (lib : GoLib) (cb : ContextBuilder) (w1 w2 : World) : Prop :=
  (forall p, In p (watchedPaths lib cb) -> os_Stat w1 p = os_Stat w2 p) /\
  (forall p, In p (walkedFiles (walk w1 (skillsDirOf lib cb))) <->
             In p (walkedFiles (walk w2 (skillsDirOf lib cb)))) /\
  (forall p, In p (walkedFiles (walk w1 (skillsDirOf lib cb))) ->
             os_Stat w1 p = os_Stat w2 p).

(** The strings that successive calls of [BuildSystemPromptWithCache]
    return, the i-th call being made in the i-th world. *)
Fixpoint promptCalls (lib : GoLib) (ws : list World) (cb : ContextBuilder) : list string :=
  match ws with
  | [] => []
  | w :: rest =>
      let r := value (BuildSystemPromptWithCache lib w cb) in
      fst r :: promptCalls lib rest (snd r)
  end.

(** Everything those calls do, in order: the events of the first call,
    then those of the second, and so on. *)
Fixpoint promptEvents (lib : GoLib) (ws : list World) (cb : ContextBuilder) : list Event :=
  match ws with
  | [] => []
  | w :: rest =>
      let r := BuildSystemPromptWithCache lib w cb in
      trace r ++ promptEvents lib rest (snd (value r))
  end.

(** The states of a builder that was created in the world [w] and used
    there, the world staying as it is. *)
Inductive reachable (lib : GoLib) (w : World) : ContextBuilder -> Prop :=
| reach_new workspace :
    reachable lib w (NewContextBuilder lib w workspace)
| reach_prompt cb :
    reachable lib w cb ->
    reachable lib w (snd (value (BuildSystemPromptWithCache lib w cb)))
| reach_messages cb history summary currentMessage media channel chatID :
    reachable lib w cb ->
    reachable lib w
      (snd (value (BuildMessages lib w cb history summary currentMessage media channel chatID)))
| reach_invalidate cb :
    reachable lib w cb ->
    reachable lib w (value (InvalidateCache cb)).

(** The header line of the time block of [buildDynamicContext]. *)
Definition timeMarker : string := "## Current Time".

(** None of the texts the static prompt is assembled from contains [m]:
    the absolute workspace path, the bootstrap files that can be read,
    the skills summary and the memory context. *)
Definition staticSourcesLack (lib : GoLib) (w : World) (cb : ContextBuilder) (m : string)
    : Prop :=
  strings_Contains (filepath_Abs w (filepath_Join lib [workspace cb])) m = false /\
  (forall f data, In f bootstrapFiles ->
     os_ReadFile w (filepath_Join lib [workspace cb; f]) = Some data ->
     strings_Contains data m = false) /\
  strings_Contains (value (BuildSkillsSummary lib w (skillsLoader cb))) m = false /\
  strings_Contains (memoryContext w) m = false.

(** The byte [c] occurs in [s]. *)
Fixpoint charIn (c : ascii) (s : string) : bool :=
  match s with
  | EmptyString => false
  | String d s' => Ascii.eqb c d || charIn c s'
  end.

(** [m] and [t] agree as far as both go. *)
Definition startsAlike (m t : string) : bool := String.prefix m t || String.prefix t m.

(** No occurrence of [m] can begin inside the fixed text [t], whatever
    follows [t]. *)
Fixpoint clearOf (m t : string) : bool :=
  match t with
  | EmptyString => true
  | String _ t' => negb (startsAlike m t) && clearOf m t'
  end.

(** The fixed text [t] separates what precedes it from what follows it:
    its first byte does not occur in [m], and no occurrence of [m] can
    begin in the rest of it. *)
Definition separates (m t : string) : bool :=
  match t with
  | EmptyString => false
  | String c t' => negb (charIn c m) && clearOf m t'
  end.

(** The text [LoadBootstrapFiles] writes for one file. *)
Definition bootstrapBlock (lib : GoLib) (w : World) (cb : ContextBuilder) (filename : string)
    : string :=
  match os_ReadFile w (filepath_Join lib [workspace cb; filename]) with
  | Some data => ("## " +:+ filename +:+ nl +:+ nl) +:+ data +:+ (nl +:+ nl)
  | None => ""
  end.

(** A part of the prompt that is left out when its text is empty. *)
Definition optionalPart (heading text : string) : list string :=
  if String.eqb text "" then [] else [heading +:+ text].

(** The parts [BuildSystemPrompt] joins. *)
Definition staticParts (lib : GoLib) (w : World) (cb : ContextBuilder) : list string :=
  [getIdentity lib w cb]
  ++ optionalPart "" (String.concat "" (map (bootstrapBlock lib w cb) bootstrapFiles))
  ++ optionalPart skillsHeader (value (BuildSkillsSummary lib w (skillsLoader cb)))
  ++ optionalPart ("# Memory" +:+ nl +:+ nl) (memoryContext w).

(** The cached prompt can be served: it is there, and nothing it was
    built from is seen to have changed. *)
Definition isFresh (lib : GoLib) (w : World) (cb : ContextBuilder) : bool :=
  negb (String.eqb (cachedSystemPrompt cb) "") &&
  negb (value (sourceFilesChangedLocked lib w cb)).

(** The state after a rebuild in the world [w]. *)
Definition rebuilt (lib : GoLib) (w : World) (cb : ContextBuilder) : ContextBuilder :=
  setCache cb (value (BuildSystemPrompt lib w cb))
    (maxMtime (value (buildCacheBaseline lib w cb)))
    (existed (value (buildCacheBaseline lib w cb))).

(* ================================================================== *)
(** ** Discovered skills *)
(* ================================================================== *)

(** The entry [d] of [dir] is a directory that holds a SKILL.md. *)
Definition isSkillDir (lib : GoLib) (w : World) (dir : string) (d : DirEntry) : bool :=
  de_IsDir d && isSome (os_Stat w (filepath_Join lib [dir; de_Name d; "SKILL.md"])).

(** The record [addSkills] makes for such an entry, metadata applied. *)
Definition candidateInfo (lib : GoLib) (w : World) (dir source : string) (d : DirEntry)
    : SkillInfo :=
  let skillFile := filepath_Join lib [dir; de_Name d; "SKILL.md"] in
  match value (getSkillMetadata lib w skillFile) with
  | Some md => mkSkillInfo (md_Name md) skillFile source (md_Description md)
  | None => mkSkillInfo (de_Name d) skillFile source ""
  end.

(** The candidates among the entries of a directory listing. *)
Definition candidates (lib : GoLib) (w : World) (dir source : string) (dirs : list DirEntry)
    : list SkillInfo :=
  map (candidateInfo lib w dir source) (List.filter (isSkillDir lib w dir) dirs).

(** The skills discovered in one directory, in directory order. *)
Definition discoveredIn (lib : GoLib) (w : World) (dir source : string) : list SkillInfo :=
  if String.eqb dir "" then []
  else match os_ReadDir w dir with
       | None => []
       | Some dirs => candidates lib w dir source dirs
       end.

(** All discovered skills, by priority: workspace, global, builtin. *)
Definition discovered (lib : GoLib) (w : World) (sl : SkillsLoader) : list SkillInfo :=
  discoveredIn lib w (workspaceSkills sl) "workspace"
  ++ discoveredIn lib w (globalSkills sl) "global"
  ++ discoveredIn lib w (builtinSkills sl) "builtin".

(** Malformed metadata, as the specification lists it.  Lengths are
    Go's [len], in bytes: a text of more than n characters has more than
    n bytes. *)
Definition malformed (info : SkillInfo) : Prop :=
  Name info = "" \/ Description info = "" \/
  len (Name info) > 64 \/ len (Description info) > 1024 \/
  namePattern_MatchString (Name info) = false.

(** [validate] returns [nil]. *)
Definition isValid (info : SkillInfo) : bool :=
  match validate info with [] => true | _ :: _ => false end.

(** Of the skills of a list, the first of every name, except the names
    [seen] holds already. *)
Fixpoint firstByName (seen : string -> bool) (l : list SkillInfo) : list SkillInfo :=
  match l with
  | [] => []
  | s :: rest =>
      if seen (Name s) then firstByName seen rest
      else s :: firstByName (fun n => String.eqb n (Name s) || seen n) rest
  end.

(** Some skill of the list has the name [n]. *)
Definition hasName (l : list SkillInfo) (n : string) : bool :=
  existsb (fun s => String.eqb n (Name s)) l.

(** The warning [ListSkills] logs for an invalid skill. *)
Definition invalidSkillWarning (source : string) : Event :=
  EvLog "WARN" "slog" ("invalid skill from " +:+ source).

Definition isSlogWarning (e : Event) : bool :=
  match e with
  | EvLog level component _ => String.eqb level "WARN" && String.eqb component "slog"
  | _ => false
  end.

(* ================================================================== *)
(** ** Concrete libraries and worlds, for examples *)
(* ================================================================== *)

Module Demo.

(** Path elements joined by a slash, empty elements skipped. *)
Definition joinSlash (elems : list string) : string :=
  String.concat "/" (List.filter (fun e => negb (String.eqb e "")) elems).

Definition trimSpaceASCII (s : string) : string :=
  strings_Trim s [" "; "009"; "010"; "011"; "012"; "013"]%char.

Fixpoint dropN (n : nat) (s : string) : string :=
  match n, s with
  | O, _ => s
  | S k, String _ s' => dropN k s'
  | S _, EmptyString => EmptyString
  end.

(** The text before the first line that begins with three dashes. *)
Fixpoint beforeFence (s : string) : option string :=
  match s with
  | EmptyString => None
  | String c s' =>
      if String.prefix (nl +:+ "---") s then Some EmptyString
      else match beforeFence s' with
           | Some b => Some (String c b)
           | None => None
           end
  end.

(** The frontmatter pattern, for files with Unix line endings. *)
Definition findFrontmatter (content : string) : list string :=
  if String.prefix ("---" +:+ nl) content then
    match beforeFence (dropN 4 content) with
    | Some body => [("---" +:+ nl) +:+ body +:+ nl +:+ "---"; body]
    | None => []
    end
  else [].

Definition pathDir (p : string) : string :=
  String.concat "/" (removelast (strings_Split p "/")).

Definition pathBase (p : string) : string :=
  List.last (strings_Split p "/") "".

Definition lib : GoLib :=
  mkGoLib joinSlash pathBase pathDir trimSpaceASCII
    findFrontmatter (fun _ => None) "linux" "amd64" "go1.21".

Definition lookupPath {A} (l : list (string * A)) (p : string) : option A :=
  match List.find (fun kv => String.eqb (fst kv) p) l with
  | Some kv => Some (snd kv)
  | None => None
  end.

(** A world given by the paths that can be stat'ed (with their mtime),
    file contents, directory listings and the walk of [ws/skills]. *)
Definition world (stats : list (string * Time)) (files : list (string * string))
    (dirs : list (string * list DirEntry)) (skillsWalk : list WalkArg) : World :=
  mkWorld (lookupPath stats) (lookupPath files) (lookupPath dirs)
    (fun root => if String.eqb root "ws/skills" then skillsWalk else [VisitErr root])
    (fun p => "/home/u/" +:+ p) "/home/u" (Some "/home/u") ""
    "2026-01-02 15:04 (Friday)".

(** Nothing exists. *)
Definition emptyWorld : World := world [] [] [] [VisitErr "ws/skills"].

(** Only [ws/AGENTS.md] exists, and its mtime is the zero instant. *)
Definition zeroMtimeWorld : World :=
  world [("ws/AGENTS.md", zero)] [("ws/AGENTS.md", "# Agents")] [] [VisitErr "ws/skills"].

Definition t2024 : Time := Unix 1704067200 0.
Definition t2025 : Time := Unix 1735689600 0.

(** A workspace with an identity file, a memory file and one skill. *)
Definition skillMD : string :=
  "---" +:+ nl +:+ "name: demo" +:+ nl +:+ "description: demo skill" +:+ nl +:+ "---" +:+ nl +:+ "# Demo".

Definition skillWorld : World :=
  world
    [ ("ws/IDENTITY.md", t2024); ("ws/memory/MEMORY.md", t2024);
      ("ws/skills", t2024); ("ws/skills/demo", t2024);
      ("ws/skills/demo/SKILL.md", t2025) ]
    [ ("ws/IDENTITY.md", "# Identity"); ("ws/skills/demo/SKILL.md", skillMD) ]
    [ ("ws/skills", [mkDirEntry "demo" true; mkDirEntry "README" false]) ]
    [ Visit "ws/skills" true; Visit "ws/skills/README" false;
      Visit "ws/skills/demo" true; Visit "ws/skills/demo/SKILL.md" false ].

(** The same workspace after IDENTITY.md was rewritten with its mtime
    kept. *)
Definition skillWorldEdited : World :=
  world
    [ ("ws/IDENTITY.md", t2024); ("ws/memory/MEMORY.md", t2024);
      ("ws/skills", t2024); ("ws/skills/demo", t2024);
      ("ws/skills/demo/SKILL.md", t2025) ]
    [ ("ws/IDENTITY.md", "# Another identity"); ("ws/skills/demo/SKILL.md", skillMD) ]
    [ ("ws/skills", [mkDirEntry "demo" true; mkDirEntry "README" false]) ]
    [ Visit "ws/skills" true; Visit "ws/skills/README" false;
      Visit "ws/skills/demo" true; Visit "ws/skills/demo/SKILL.md" false ].

(** The same workspace before the skill file was edited. *)
Definition skillWorldBefore : World :=
  world
    [ ("ws/IDENTITY.md", t2024); ("ws/memory/MEMORY.md", t2024);
      ("ws/skills", t2024); ("ws/skills/demo", t2024);
      ("ws/skills/demo/SKILL.md", t2024) ]
    [ ("ws/IDENTITY.md", "# Identity"); ("ws/skills/demo/SKILL.md", skillMD) ]
    [ ("ws/skills", [mkDirEntry "demo" true; mkDirEntry "README" false]) ]
    [ Visit "ws/skills" true; Visit "ws/skills/README" false;
      Visit "ws/skills/demo" true; Visit "ws/skills/demo/SKILL.md" false ].

(** The builder after a first prompt was built in [skillWorldBefore]. *)
Definition builtBefore : ContextBuilder :=
  snd (value (BuildSystemPromptWithCache lib skillWorldBefore
                (NewContextBuilder lib skillWorldBefore "ws"))).

(** A workspace whose AGENTS.md has a heading that reads like the
    time block of the dynamic context. *)
Definition markerWorld : World :=
  world [("ws/AGENTS.md", t2024)]
    [("ws/AGENTS.md", "# Agents" +:+ nl +:+ "## Current Time zone" +:+ nl +:+ "UTC")]
    [] [VisitErr "ws/skills"].

(** A skills directory with a well-formed skill, a skill whose name
    has an underscore, one without frontmatter, and a second skill
    named like the first among the builtin skills. *)
Definition frontmatter (name description : string) : string :=
  "---" +:+ nl +:+ "name: " +:+ name +:+ nl +:+ "description: " +:+ description +:+ nl
  +:+ "---" +:+ nl +:+ "# Skill".

Definition mixedSkillsWorld : World :=
  world
    [ ("ws/skills", t2024); ("ws/skills/good/SKILL.md", t2024);
      ("ws/skills/bad/SKILL.md", t2024); ("ws/skills/plain/SKILL.md", t2024);
      ("/home/u/skills/other/SKILL.md", t2024) ]
    [ ("ws/skills/good/SKILL.md", frontmatter "good" "A good skill");
      ("ws/skills/bad/SKILL.md", frontmatter "bad_name" "Underscore in the name");
      ("ws/skills/plain/SKILL.md", "# No frontmatter");
      ("/home/u/skills/other/SKILL.md", frontmatter "good" "Shadowed by the workspace") ]
    [ ("ws/skills", [mkDirEntry "bad" true; mkDirEntry "good" true;
                     mkDirEntry "notes.txt" false; mkDirEntry "plain" true]);
      ("/home/u/skills", [mkDirEntry "other" true]) ]
    [ Visit "ws/skills" true ].

(** An empty workspace as the tests set it up: only the directories
    [memory] and [skills] exist. *)
Definition freshWorld : World :=
  world [("ws/memory", t2024); ("ws/skills", t2024)] [] [("ws/skills", [])]
    [Visit "ws/skills" true].

(** The same after SOUL.md was created. *)
Definition soulWorld : World :=
  world [("ws/memory", t2024); ("ws/skills", t2024); ("ws/SOUL.md", t2025)]
    [("ws/SOUL.md", "# Soul" +:+ nl +:+ "Newly created.")] [("ws/skills", [])]
    [Visit "ws/skills" true].

(** A builder whose cache was built while SOUL.md did not exist. *)
Definition builtWithoutSoul : ContextBuilder :=
  mkContextBuilder "ws" (NewSkillsLoader lib "ws" "/home/u/.picoclaw/skills" "/home/u/skills")
    "cached prompt" t2024 (Some {[ "ws/SOUL.md" := false ]}).

Definition assistantWithTools (ids : list string) : Message :=
  mkMessage "assistant" "" [] (map (fun id => mkToolCall id "function") ids) "".

Definition toolResult (id : string) : Message :=
  mkMessage "tool" "result" [] [] id.

Definition roles (l : list Message) : list string := map Role l.

End Demo.

(* ================================================================== *)
(** ** Well-paired histories *)
(* ================================================================== *)

(** Every message of [l] is one the sanitizer keeps, given [acc] and the
    messages of [l] before it. *)
Fixpoint wellPairedFrom (acc : list Message) (l : list Message) : bool :=
  match l with
  | [] => true
  | m :: rest => keptBy acc m && wellPairedFrom (acc ++ [m]) rest
  end.

Definition wellPaired (l : list Message) : bool := wellPairedFrom [] l.

(* ================================================================== *)
(** ** Events by kind *)
(* ================================================================== *)

Definition isClock (e : Event) : bool :=
  match e with EvClock => true | _ => false end.

(** No event of the trace is a reading of the clock. *)
Definition clockFree (tr : list Event) : bool := forallb (fun e => negb (isClock e)) tr.

(** The events a stale check may cause: stats and the walk. *)
Definition isStatOrWalk (e : Event) : bool :=
  match e with
  | EvStat _ | EvWalkDir _ | EvVisit _ => true
  | _ => false
  end.

(** The workspace of [Demo.skillWorld] after an empty directory was made
    below the skills directory and IDENTITY.md was rewritten, all mtimes
    of the watched paths and of the skill files being as before. *)
Definition skillWorldNewDir : World :=
  Demo.world
    [ ("ws/IDENTITY.md", Demo.t2024); ("ws/memory/MEMORY.md", Demo.t2024);
      ("ws/skills", Demo.t2024); ("ws/skills/demo", Demo.t2024);
      ("ws/skills/drafts", Demo.t2025);
      ("ws/skills/demo/SKILL.md", Demo.t2025) ]
    [ ("ws/IDENTITY.md", "# Another identity"); ("ws/skills/demo/SKILL.md", Demo.skillMD) ]
    [ ("ws/skills", [mkDirEntry "demo" true; mkDirEntry "drafts" true;
                     mkDirEntry "README" false]) ]
    [ Visit "ws/skills" true; Visit "ws/skills/README" false;
      Visit "ws/skills/demo" true; Visit "ws/skills/demo/SKILL.md" false;
      Visit "ws/skills/drafts" true ].

(* ================================================================== *)
(** ** The rest of the skills loader *)
(* ================================================================== *)

(** What [escapeXML] makes of one byte. *)
Definition escapeByte (c : ascii) : string :=
  if Ascii.eqb c "&" then "&amp;"
  else if Ascii.eqb c "<" then "&lt;"
  else if Ascii.eqb c ">" then "&gt;"
  else String c "".

(** Every byte of [s] replaced by a text. *)
Fixpoint mapBytes (f : ascii -> string) (s : string) : string :=
  match s with
  | EmptyString => EmptyString
  | String c s' => f c +:+ mapBytes f s'
  end.

(** The number of bytes [c] in [s]. *)
Fixpoint countByte (c : ascii) (s : string) : nat :=
  match s with
  | EmptyString => 0
  | String d s' => (if Ascii.eqb c d then 1 else 0) + countByte c s'
  end.

(** The map [GetSkillsInfo] returns, by its three keys. *)
Record SkillsInfoMap : Type := mkSkillsInfoMap {
  info_total : nat;            (* "total" *)
  info_available : nat;        (* "available" *)
  info_names : list string;    (* "names" *)
}.

Section LoaderMore.

Variable lib : GoLib.
Variable w : World.

(** [reStripFrontmatter.ReplaceAllString(content, repl)], taken as given. *)
Variable reStripFrontmatter_ReplaceAllString : string -> string -> string.

Definition stripFrontmatter (content : string) : string :=
  reStripFrontmatter_ReplaceAllString content "".

(** One of the three blocks of [LoadSkill]: [Some] is its [return]. *)
Definition loadFrom (dir name : string) : W (option (string * bool)) :=
  if negb (String.eqb dir "") then
    let skillFile := filepath_Join lib [dir; name; "SKILL.md"] in
    let! content := ReadFile w skillFile in
    match content with
    | Some content => ret (Some (stripFrontmatter content, true))
    | None => ret None
    end
  else ret None.

Definition LoadSkill (sl : SkillsLoader) (name : string) : W (string * bool) :=
  let! r := loadFrom (workspaceSkills sl) name in
  match r with
  | Some res => ret res
  | None =>
      let! r := loadFrom (globalSkills sl) name in
      match r with
      | Some res => ret res
      | None =>
          let! r := loadFrom (builtinSkills sl) name in
          match r with
          | Some res => ret res
          | None => ret ("", false)
          end
      end
  end.

(** The loop of [LoadSkillsForContext]. *)
Fixpoint loadSkillsLoop (sl : SkillsLoader) (skillNames : list string) (parts : list string)
    : W (list string) :=
  match skillNames with
  | [] => ret parts
  | name :: rest =>
      let! (content, ok) := LoadSkill sl name in
      if ok : bool
      then loadSkillsLoop sl rest (parts ++ ["### Skill: " +:+ name +:+ nl +:+ nl +:+ content])
      else loadSkillsLoop sl rest parts
  end.

Definition LoadSkillsForContext (sl : SkillsLoader) (skillNames : list string) : W string :=
  if (length skillNames =? 0)%nat then ret ""
  else
    let! parts := loadSkillsLoop sl skillNames [] in
    ret (strings_Join parts (nl +:+ nl +:+ "---" +:+ nl +:+ nl)).

(** [ContextBuilder.GetSkillsInfo] *)
Definition GetSkillsInfo (cb : ContextBuilder) : W SkillsInfoMap :=
  let! allSkills := ListSkills lib w (skillsLoader cb) in
  let skillNames := map Name allSkills in
  ret (mkSkillsInfoMap (length allSkills) (length allSkills) skillNames).

(** The loop of [skillsListCmd]; [out] is what was written to the
    standard output so far. *)
Fixpoint printSkillsLoop (allSkills : list SkillInfo) (out : string) : string :=
  match allSkills with
  | [] => out
  | skill :: rest =>
      let out := out +:+ "  ✓ " +:+ Name skill +:+ " (" +:+ Source skill +:+ ")" +:+ nl in
      let out :=
        if negb (String.eqb (Description skill) "")
        then out +:+ "    " +:+ Description skill +:+ nl
        else out in
      printSkillsLoop rest out
  end.

(** [skillsListCmd]: the result is the text written to the standard
    output. *)
Definition skillsListCmd (loader : SkillsLoader) : W string :=
  let! allSkills := ListSkills lib w loader in
  if (length allSkills =? 0)%nat then ret ("No skills installed." +:+ nl)
  else
    let out := nl +:+ "Installed Skills:" +:+ nl in
    let out := out +:+ "------------------" +:+ nl in
    ret (printSkillsLoop allSkills out).


End LoaderMore.

(** The directory a skill was found in, by its source. *)
Definition sourceDir (sl : SkillsLoader) (source : string) : string :=
  if String.eqb source "workspace" then workspaceSkills sl
  else if String.eqb source "global" then globalSkills sl
  else builtinSkills sl.

(** The two lines [skillsListCmd] prints for a skill. *)
Definition skillEntry (s : SkillInfo) : string :=
  "  ✓ " +:+ Name s +:+ " (" +:+ Source s +:+ ")" +:+ nl +:+
  "    " +:+ Description s +:+ nl.

(** The SKILL.md of the skill directory [name] below [dir], if [dir] is
    configured and the file can be read. *)
Definition skillFileIn (lib : GoLib) (w : World) (dir name : string) : option string :=
  if String.eqb dir "" then None
  else os_ReadFile w (filepath_Join lib [dir; name; "SKILL.md"]).

(** The first of the three skill files of a name, by priority. *)
Definition firstSkillFile (lib : GoLib) (w : World) (sl : SkillsLoader) (name : string)
    : option string :=
  match skillFileIn lib w (workspaceSkills sl) name with
  | Some c => Some c
  | None =>
      match skillFileIn lib w (globalSkills sl) name with
      | Some c => Some c
      | None => skillFileIn lib w (builtinSkills sl) name
      end
  end.

(** The part [LoadSkillsForContext] makes for a name, if the skill can
    be loaded. *)
Definition contextPart (lib : GoLib) (w : World) (strip : string -> string -> string)
    (sl : SkillsLoader) (name : string) : option string :=
  match firstSkillFile lib w sl name with
  | Some c => Some ("### Skill: " +:+ name +:+ nl +:+ nl +:+ strip c "")
  | None => None
  end.

(* ================================================================== *)
(** ** The shape of a skill name *)
(* ================================================================== *)

(** A scan for the shape of a name: [afterAlnum] tells whether the
    byte before was alphanumeric. *)
Fixpoint nameShape (afterAlnum : bool) (s : string) : bool :=
  match s with
  | EmptyString => afterAlnum
  | String c s' =>
      if isAlnum c then nameShape true s'
      else if Ascii.eqb "-" c then afterAlnum && nameShape false s'
      else false
  end.

(** Every byte of [s] satisfies [f]. *)
Fixpoint allBytes (f : ascii -> bool) (s : string) : bool :=
  match s with
  | EmptyString => true
  | String c s' => f c && allBytes f s'
  end.

(** The last byte of [s] is [c]. *)
Fixpoint endsWith (c : ascii) (s : string) : bool :=
  match s with
  | EmptyString => false
  | String d EmptyString => Ascii.eqb c d
  | String _ s' => endsWith c s'
  end.

(** The text [s], written with Unix line ends, with every line end
    replaced by [eol]. *)
Definition withLineEnding (eol : string) (s : string) : string :=
  mapBytes (fun c => if Ascii.eqb c "010" then eol else String c "") s.

(* ================================================================== *)
(** * Proofs *)
(* ================================================================== *)

(** ** Instants *)

Lemma IsZero_true t : IsZero t = true <-> t = zero.
Proof.
  destruct t as [s n]; unfold IsZero, zero; simpl.
  rewrite andb_true_iff, !Z.eqb_eq. split.
  - intros [-> ->]; reflexivity.
  - intros H; injection H; auto.
Qed.

Lemma IsZero_false t : IsZero t = false <-> t <> zero.
Proof.
  rewrite <- IsZero_true. destruct (IsZero t); split; congruence.
Qed.

Lemma After_irrefl t : After t t = false.
Proof. unfold After. destruct t; simpl. lia. Qed.

Lemma After_trans a b c : After a b = true -> After b c = true -> After a c = true.
Proof. unfold After. destruct a, b, c; simpl. lia. Qed.

Lemma After_asym a b : After a b = true -> After b a = false.
Proof. unfold After. destruct a, b; simpl. lia. Qed.

(** [After] is the strict part of a total order on instants. *)
Lemma After_total a b : After a b = false -> After b a = false -> a = b.
Proof.
  unfold After. destruct a as [s n], b as [s' n']; simpl. intros H1 H2.
  assert (s = s') by lia. assert (n = n') by lia. congruence.
Qed.

Lemma not_After_trans a b c : After a b = false -> After b c = false -> After a c = false.
Proof. unfold After. destruct a, b, c; simpl. lia. Qed.

Lemma After_not_After_trans a b c : After a b = true -> After c b = false -> After a c = true.
Proof. unfold After. destruct a, b, c; simpl. lia. Qed.

Lemma Unix_1_0 : Unix 1 0 = mkTime 62135596801 0.
Proof. reflexivity. Qed.

Lemma Unix_1_0_not_zero : IsZero (Unix 1 0) = false.
Proof. reflexivity. Qed.

Lemma Unix_1_0_after_zero : After (Unix 1 0) zero = true.
Proof. reflexivity. Qed.


(** ** The writer monad *)

Lemma value_bind {A B} (m : W A) (f : A -> W B) :
  value (bind m f) = value (f (value m)).
Proof. unfold value, bind. destruct m as [a t1]. simpl. destruct (f a); reflexivity. Qed.

Lemma trace_bind {A B} (m : W A) (f : A -> W B) :
  trace (bind m f) = trace m ++ trace (f (value m)).
Proof. unfold value, trace, bind. destruct m as [a t1]. simpl. destruct (f a); reflexivity. Qed.

Lemma W_eta {A} (m : W A) : m = (value m, trace m).
Proof. destruct m; reflexivity. Qed.

Lemma value_ret {A} (a : A) : value (ret a) = a.
Proof. reflexivity. Qed.

Lemma trace_ret {A} (a : A) : trace (ret a) = [].
Proof. reflexivity. Qed.


Lemma bind_assoc {A B C} (m : W A) (f : A -> W B) (g : B -> W C) :
  bind (bind m f) g = bind m (fun x => bind (f x) g).
Proof.
  unfold bind. destruct m as [a t1]. destruct (f a) as [b t2]. destruct (g b) as [c t3].
  rewrite app_assoc. reflexivity.
Qed.

Lemma value_tell_bind {B} (e : Event) (k : unit -> W B) :
  value (bind (tell e) k) = value (k tt).
Proof. rewrite value_bind. reflexivity. Qed.

Lemma trace_tell_bind {B} (e : Event) (k : unit -> W B) :
  trace (bind (tell e) k) = e :: trace (k tt).
Proof. rewrite trace_bind. reflexivity. Qed.

Lemma value_DebugCF_bind {B} c m (k : unit -> W B) :
  value (bind (DebugCF c m) k) = value (k tt).
Proof. apply value_tell_bind. Qed.

(** Rewriting with the monad laws until the value of a computation shows. *)
Ltac wvalue :=
  repeat first
    [ rewrite value_DebugCF_bind
    | rewrite value_tell_bind
    | rewrite value_bind
    | rewrite value_ret ].

(* ================================================================== *)
(** ** The history sanitizer *)
(* ================================================================== *)

Section SanitizerProofs.

Lemma hasToolCalls_length (m : Message) :
  (0 <? length (ToolCalls m))%nat = hasToolCalls m.
Proof. unfold hasToolCalls. destruct (ToolCalls m); reflexivity. Qed.

(** The index loop looks at the same messages as a search through the
    reversed prefix. *)
Lemma scanBack_find (acc : list Message) (n : nat) :
  (n <= length acc)%nat ->
  scanBack acc n =
    match List.find (fun m => negb (isRole "tool" m)) (rev (take n acc)) with
    | Some m => isRole "assistant" m && hasToolCalls m
    | None => false
    end.
Proof.
  induction n as [|i IH]; intros Hn.
  - rewrite take_0. reflexivity.
  - destruct (lookup_lt_is_Some_2 acc i ltac:(lia)) as [x Hx].
    rewrite (take_S_r _ _ _ Hx), rev_app_distr. simpl. rewrite Hx.
    unfold isRole at 1.
    destruct (String.eqb (Role x) "tool") eqn:Et; simpl.
    + apply IH. lia.
    + rewrite hasToolCalls_length. unfold isRole.
      destruct (String.eqb (Role x) "assistant" && hasToolCalls x); reflexivity.
Qed.

Lemma scanBack_nearest (acc : list Message) :
  scanBack acc (length acc) =
    match nearestNonTool acc with
    | Some m => isRole "assistant" m && hasToolCalls m
    | None => false
    end.
Proof.
  rewrite scanBack_find by lia. unfold nearestNonTool.
  rewrite firstn_all. reflexivity.
Qed.

Lemma last_index (acc : list Message) :
  acc !! (length acc - 1)%nat = last acc.
Proof. rewrite last_lookup. f_equal. lia. Qed.

(** One loop iteration keeps the message exactly when the rules say so. *)
Lemma sanitizeStep_keptBy (acc : list Message) (msg : Message) :
  value (sanitizeStep acc msg) = if keptBy acc msg then acc ++ [msg] else acc.
Proof.
  unfold sanitizeStep, keptBy, isRole.
  destruct (String.eqb (Role msg) "system") eqn:Es; [reflexivity|].
  destruct (String.eqb (Role msg) "tool") eqn:Et.
  - destruct acc as [|a acc']; [reflexivity|].
    change (length (a :: acc') =? 0)%nat with false. cbv iota.
    rewrite scanBack_nearest.
    destruct (nearestNonTool (a :: acc')) as [m|]; [|reflexivity].
    unfold isRole. destruct (String.eqb (Role m) "assistant" && hasToolCalls m); reflexivity.
  - destruct (String.eqb (Role msg) "assistant") eqn:Ea; [|reflexivity].
    rewrite hasToolCalls_length. simpl.
    destruct (hasToolCalls msg); [|reflexivity].
    destruct acc as [|a acc']; [reflexivity|].
    change (length (a :: acc') =? 0)%nat with false. cbv iota.
    rewrite last_index.
    destruct (last (a :: acc')) as [prev|] eqn:El.
    + destruct (String.eqb (Role prev) "user"), (String.eqb (Role prev) "tool"); reflexivity.
    + apply last_None in El. discriminate.
Qed.

Lemma sanitizeLoop_rules (history acc : list Message) :
  value (sanitizeLoop history acc) = sanitizeRules acc history.
Proof.
  revert acc. induction history as [|msg rest IH]; intros acc; simpl.
  - reflexivity.
  - rewrite value_bind, IH, sanitizeStep_keptBy. reflexivity.
Qed.

Lemma sanitize_rules (history : list Message) :
  value (sanitizeHistoryForProvider history) = sanitizeRules [] history.
Proof.
  unfold sanitizeHistoryForProvider. destruct history as [|m rest]; [reflexivity|].
  change (length (m :: rest) =? 0)%nat with false. cbv iota.
  apply sanitizeLoop_rules.
Qed.

Lemma keptBy_not_system (acc : list Message) (msg : Message) :
  keptBy acc msg = true -> isRole "system" msg = false.
Proof. unfold keptBy. destruct (isRole "system" msg); [discriminate|reflexivity]. Qed.

Lemma sanitizeRules_no_system (history acc : list Message) :
  Forall (fun m => isRole "system" m = false) acc ->
  Forall (fun m => isRole "system" m = false) (sanitizeRules acc history).
Proof.
  revert acc. induction history as [|msg rest IH]; intros acc Hacc; simpl; [assumption|].
  apply IH. destruct (keptBy acc msg) eqn:Hk; [|assumption].
  apply Forall_app; split; [assumption|].
  constructor; [|constructor]. eapply keptBy_not_system; eassumption.
Qed.

Lemma sanitize_no_system (history : list Message) :
  Forall (fun m => isRole "system" m = false) (value (sanitizeHistoryForProvider history)).
Proof. rewrite sanitize_rules. apply sanitizeRules_no_system. constructor. Qed.

(** The output is the input with some messages removed, order kept. *)
Lemma sanitizeRules_sublist (history acc : list Message) :
  sublist (sanitizeRules acc history) (acc ++ history).
Proof.
  revert acc. induction history as [|msg rest IH]; intros acc; simpl.
  - rewrite app_nil_r. reflexivity.
  - destruct (keptBy acc msg).
    + specialize (IH (acc ++ [msg])). rewrite <- app_assoc in IH. exact IH.
    + etransitivity; [apply IH|]. apply sublist_app; [reflexivity|].
      apply sublist_cons. reflexivity.
Qed.

End SanitizerProofs.

(* ================================================================== *)
(** ** The message composer *)
(* ================================================================== *)

Section ComposerProofs.

Variable lib : GoLib.
Variable w : World.

Lemma BuildMessages_value cb history summary currentMessage media channel chatID :
  let staticPrompt := fst (value (BuildSystemPromptWithCache lib w cb)) in
  let dynamicCtx := value (buildDynamicContext lib w channel chatID) in
  let blocks := systemBlocks staticPrompt dynamicCtx summary in
  fst (value (BuildMessages lib w cb history summary currentMessage media channel chatID)) =
    mkMessage "system" (strings_Join (map Text blocks) partSeparator) blocks [] ""
    :: value (sanitizeHistoryForProvider history)
    ++ (if negb (String.eqb (strings_TrimSpace lib currentMessage) "")
        then [mkMessage "user" currentMessage [] [] ""] else []).
Proof.
  intros staticPrompt dynamicCtx blocks. subst staticPrompt dynamicCtx blocks.
  unfold BuildMessages, systemBlocks.
  rewrite value_bind.
  destruct (value (BuildSystemPromptWithCache lib w cb)) as [sp cb'].
  rewrite value_bind.
  set (dyn := value (buildDynamicContext lib w channel chatID)).
  cbv beta iota.
  destruct (String.eqb summary ""); simpl negb; cbv iota;
    wvalue; cbv beta zeta; wvalue;
    destruct (negb (String.eqb (strings_TrimSpace lib currentMessage) ""));
    simpl; rewrite ?app_nil_r; reflexivity.
Qed.

Lemma BuildMessages_state cb history summary currentMessage media channel chatID :
  snd (value (BuildMessages lib w cb history summary currentMessage media channel chatID)) =
  snd (value (BuildSystemPromptWithCache lib w cb)).
Proof.
  unfold BuildMessages. rewrite value_bind.
  destruct (value (BuildSystemPromptWithCache lib w cb)) as [sp cb'].
  rewrite value_bind. cbv beta iota.
  destruct (negb (String.eqb summary "")); cbv iota; wvalue; reflexivity.
Qed.

Lemma filter_none_system (l : list Message) :
  Forall (fun m => isRole "system" m = false) l ->
  List.filter (isRole "system") l = [].
Proof.
  induction 1 as [|m l Hm _ IH]; simpl; [reflexivity|]. rewrite Hm. exact IH.
Qed.

End ComposerProofs.

(* ================================================================== *)
(** ** The staleness check of one path *)
(* ================================================================== *)

Section FileChangedProofs.

Variable w : World.

Lemma fileChangedSince_nil cb path :
  existedAtCache cb = None -> fileChangedSince w cb path = (true, []).
Proof. intros H. unfold fileChangedSince. rewrite H. reflexivity. Qed.

Lemma fileChangedSince_trace cb path m :
  existedAtCache cb = Some m -> trace (fileChangedSince w cb path) = [EvStat path].
Proof.
  intros H. unfold fileChangedSince, Stat. rewrite H.
  rewrite trace_bind, trace_tell_bind. simpl.
  destruct (os_Stat w path) as [mt|]; simpl;
    destruct (default false (m !! path)); reflexivity.
Qed.

Lemma fileChangedSince_value cb path m :
  existedAtCache cb = Some m ->
  value (fileChangedSince w cb path) =
    match os_Stat w path with
    | Some mt => if default false (m !! path) then After mt (cachedAt cb) else true
    | None => default false (m !! path)
    end.
Proof.
  intros H. unfold fileChangedSince, Stat. rewrite H.
  rewrite value_bind, value_tell_bind. simpl.
  destruct (os_Stat w path) as [mt|]; simpl;
    destruct (default false (m !! path)); reflexivity.
Qed.

End FileChangedProofs.

Section KeptByProofs.

Lemma isRole_true r m : isRole r m = true <-> Role m = r.
Proof. unfold isRole. apply String.eqb_eq. Qed.

Lemma isRole_false r m : isRole r m = false <-> Role m <> r.
Proof. unfold isRole. apply String.eqb_neq. Qed.

Lemma hasToolCalls_true m : hasToolCalls m = true <-> ToolCalls m <> [].
Proof. unfold hasToolCalls. destruct (ToolCalls m); split; congruence. Qed.

(** [List.find] on the reversed list picks the last element that
    satisfies the test. *)
Lemma find_rev_Some {A} (f : A -> bool) (l : list A) (x : A) :
  List.find f (rev l) = Some x <->
  exists pre post, l = pre ++ x :: post /\ f x = true /\ Forall (fun y => f y = false) post.
Proof.
  induction l as [|a l IH] using rev_ind.
  - simpl. split; [discriminate|]. intros (pre & post & H & _). destruct pre; discriminate.
  - rewrite rev_app_distr. simpl. destruct (f a) eqn:Hfa.
    + split.
      * intros [= <-]. exists l, []. repeat split; auto.
      * intros (pre & post & H & Hx & Hpost).
        destruct post as [|p post] using rev_ind.
        -- apply app_inj_tail in H. destruct H as [_ ->]. reflexivity.
        -- clear IHpost. rewrite app_comm_cons, app_assoc in H.
           apply app_inj_tail in H. destruct H as [_ ->].
           apply Forall_app in Hpost. destruct Hpost as [_ Hp].
           inversion Hp; congruence.
    + rewrite IH. split.
      * intros (pre & post & -> & Hx & Hpost). exists pre, (post ++ [a]).
        rewrite <- app_assoc. repeat split; auto.
        apply Forall_app; split; auto.
      * intros (pre & post & H & Hx & Hpost).
        destruct post as [|p post] using rev_ind.
        -- apply app_inj_tail in H. destruct H as [_ ->]. congruence.
        -- clear IHpost. rewrite app_comm_cons, app_assoc in H.
           apply app_inj_tail in H. destruct H as [-> ->].
           apply Forall_app in Hpost. destruct Hpost as [Hpost _].
           exists pre, post. repeat split; auto.
Qed.

Lemma Forall_tool (l : list Message) :
  Forall (fun y => negb (isRole "tool" y) = false) l <-> Forall (fun x => Role x = "tool") l.
Proof.
  induction l as [|a l IH]; split; intros H; try constructor;
    inversion H as [|? ? Ha Hl]; subst.
  - apply negb_false_iff, isRole_true in Ha. exact Ha.
  - apply IH. exact Hl.
  - apply negb_false_iff, isRole_true. exact Ha.
  - apply IH. exact Hl.
Qed.

Lemma keptBy_system acc msg : Role msg = "system" -> keptBy acc msg = false.
Proof. intros H. unfold keptBy. apply isRole_true in H. rewrite H. reflexivity. Qed.

Lemma keptBy_tool acc msg :
  Role msg = "tool" ->
  (keptBy acc msg = true <->
   acc <> [] /\
   exists pre m post, acc = pre ++ m :: post /\
     Forall (fun x => Role x = "tool") post /\
     Role m = "assistant" /\ ToolCalls m <> []).
Proof.
  intros H. unfold keptBy.
  assert (Hs : isRole "system" msg = false) by (apply isRole_false; rewrite H; discriminate).
  apply isRole_true in H. rewrite Hs, H.
  destruct acc as [|a acc'].
  { split; [discriminate|]. intros [Hne _]. congruence. }
  set (acc := a :: acc'). unfold nearestNonTool.
  destruct (List.find _ (rev acc)) as [m|] eqn:Hf.
  - rewrite andb_true_iff, isRole_true, hasToolCalls_true. split.
    + intros [Hr Ht]. split; [discriminate|].
      apply find_rev_Some in Hf. destruct Hf as (pre & post & Hacc & Hm & Hpost).
      exists pre, m, post. repeat split; auto. apply Forall_tool. exact Hpost.
    + intros (_ & pre' & m' & post' & Hacc' & Hpost' & Hr & Ht).
      assert (Hf' : List.find (fun m0 => negb (isRole "tool" m0)) (rev acc) = Some m').
      { apply find_rev_Some. exists pre', post'. repeat split; auto.
        - apply negb_true_iff, isRole_false. rewrite Hr. discriminate.
        - apply Forall_tool. exact Hpost'. }
      rewrite Hf in Hf'. injection Hf' as ->. auto.
  - split; [discriminate|]. intros (_ & pre & m & post & Hacc & Hpost & Hr & Ht).
    assert (Hex : List.find (fun m0 => negb (isRole "tool" m0)) (rev acc) = Some m).
    { apply find_rev_Some. exists pre, post. repeat split; auto.
      - apply negb_true_iff, isRole_false. rewrite Hr. discriminate.
      - apply Forall_tool. exact Hpost. }
    congruence.
Qed.

Lemma keptBy_assistant_calls acc msg :
  Role msg = "assistant" -> ToolCalls msg <> [] ->
  (keptBy acc msg = false <->
   acc = [] \/
   exists prev, last acc = Some prev /\ Role prev <> "user" /\ Role prev <> "tool").
Proof.
  intros H Ht. unfold keptBy.
  assert (Hs : isRole "system" msg = false) by (apply isRole_false; rewrite H; discriminate).
  assert (Hto : isRole "tool" msg = false) by (apply isRole_false; rewrite H; discriminate).
  apply isRole_true in H. apply hasToolCalls_true in Ht. rewrite Hs, Hto, H, Ht. simpl.
  destruct (last acc) as [prev|] eqn:El.
  - rewrite orb_false_iff, !isRole_false. split.
    + intros [Hu Htl]. right. exists prev. auto.
    + intros [->|(prev' & [= <-] & Hu & Htl)]; [discriminate|auto].
  - apply last_None in El. split; auto.
Qed.

Lemma keptBy_other acc msg :
  Role msg <> "system" -> Role msg <> "tool" ->
  (Role msg = "assistant" -> ToolCalls msg = []) -> keptBy acc msg = true.
Proof.
  intros Hs Ht Ha. unfold keptBy.
  apply isRole_false in Hs. apply isRole_false in Ht. rewrite Hs, Ht.
  destruct (isRole "assistant" msg) eqn:E; [|reflexivity].
  apply isRole_true in E. specialize (Ha E).
  unfold hasToolCalls. rewrite Ha. reflexivity.
Qed.

End KeptByProofs.

(* ================================================================== *)
(** ** The baseline *)
(* ================================================================== *)

Section LatestProofs.

Lemma later_not_before acc t : After acc (later acc t) = false.
Proof.
  unfold later. destruct (After t acc) eqn:E.
  - apply After_asym. exact E.
  - apply After_irrefl.
Qed.

Lemma fold_later_not_before (l : list Time) (m0 : Time) :
  After m0 (fold_left later l m0) = false.
Proof.
  revert m0. induction l as [|t l IH]; intros m0; simpl.
  - apply After_irrefl.
  - eapply not_After_trans; [apply later_not_before | apply IH].
Qed.

Lemma fold_later_upper (l : list Time) (m0 x : Time) :
  In x l -> After x (fold_left later l m0) = false.
Proof.
  revert m0. induction l as [|t l IH]; intros m0 Hx; simpl; [contradiction|].
  destruct Hx as [->|Hx]; [|apply IH; exact Hx].
  eapply not_After_trans; [|apply fold_later_not_before].
  unfold later. destruct (After x m0) eqn:E; [apply After_irrefl | exact E].
Qed.

Lemma fold_later_mem (l : list Time) (m0 : Time) :
  fold_left later l m0 = m0 \/ In (fold_left later l m0) l.
Proof.
  revert m0. induction l as [|t l IH]; intros m0; simpl; [left; reflexivity|].
  destruct (IH (later m0 t)) as [H|H]; [|right; right; exact H].
  rewrite H. unfold later. destruct (After t m0); [right; left; reflexivity | left; reflexivity].
Qed.

(** From [zero], the fold ends on the latest instant when some instant
    is after [zero], and stays at [zero] otherwise. *)
Lemma fold_later_latest (l : list Time) :
  (exists t, In t l /\ After t zero = true) ->
  isLatestOf (fold_left later l zero) l /\ IsZero (fold_left later l zero) = false.
Proof.
  intros (t & Ht & Hz).
  assert (Hnz : fold_left later l zero <> zero).
  { intros E. pose proof (fold_later_upper l zero t Ht) as Hu. rewrite E in Hu. congruence. }
  split; [|apply IsZero_false; exact Hnz].
  split; [|intros x Hx; apply fold_later_upper; exact Hx].
  destruct (fold_later_mem l zero) as [E|H]; [contradiction | exact H].
Qed.

Lemma fold_later_zero (l : list Time) :
  (forall t, In t l -> After t zero = false) -> fold_left later l zero = zero.
Proof.
  intros Hall. destruct (fold_later_mem l zero) as [E|H]; [exact E|].
  apply After_total; [apply Hall; exact H | apply fold_later_not_before].
Qed.

End LatestProofs.

Lemma omap_cons_match {A B} (f : A -> option B) (x : A) (l : list A) :
  omap f (x :: l) = match f x with Some y => y :: omap f l | None => omap f l end.
Proof. reflexivity. Qed.

Section BaselineProofs.

Variable lib : GoLib.
Variable w : World.

Lemma baselineStatLoop_run (paths : list string) (ex : gmap string bool) (m0 : Time) :
  baselineStatLoop w paths ex m0 =
    ((recordAll w paths ex, fold_left later (omap (os_Stat w) paths) m0), map EvStat paths).
Proof.
  revert ex m0. induction paths as [|p rest IH]; intros ex m0; [reflexivity|].
  cbn [baselineStatLoop]. unfold Stat.
  rewrite (W_eta (bind _ _)), value_bind, trace_bind, value_tell_bind, trace_tell_bind.
  cbn [value ret trace fst snd app]. rewrite IH. cbn [value trace fst snd].
  unfold recordAll. rewrite omap_cons_match. cbn [fold_left map].
  destruct (os_Stat w p) as [mt|]; reflexivity.
Qed.

Lemma recordAll_lookup (paths : list string) (ex : gmap string bool) (q : string) :
  In q paths -> recordAll w paths ex !! q = Some (isSome (os_Stat w q)).
Proof.
  assert (Hgen : forall paths ex,
    recordAll w paths ex !! q =
      if decide (q ∈ paths) then Some (isSome (os_Stat w q)) else ex !! q).
  { clear. induction paths as [|p rest IH]; intros ex.
    - simpl. destruct (decide (q ∈ [])) as [H|_]; [|reflexivity]. inversion H.
    - unfold recordAll in *. cbn [fold_left]. rewrite IH.
      destruct (decide (q ∈ rest)) as [Hr|Hr].
      + destruct (decide (q ∈ p :: rest)) as [_|Hn]; [reflexivity|].
        exfalso. apply Hn. right. exact Hr.
      + destruct (decide (q = p)) as [->|Hqp].
        * rewrite lookup_insert_eq.
          destruct (decide (p ∈ p :: rest)) as [_|Hn]; [reflexivity|].
          exfalso. apply Hn. left.
        * rewrite lookup_insert_ne by congruence.
          destruct (decide (q ∈ p :: rest)) as [Hin|_]; [|reflexivity].
          inversion Hin; subst; contradiction. }
  intros Hin. rewrite Hgen. apply list_elem_of_In in Hin.
  destruct (decide (q ∈ paths)); [reflexivity | contradiction].
Qed.

Lemma baselineWalk_run (visits : list WalkArg) (m0 : Time) :
  walkLoop (baselineWalkFn w) visits m0 =
    ((None, fold_left later (omap (os_Stat w) (walkedFiles visits)) m0),
     flat_map visitEvents visits).
Proof.
  revert m0. induction visits as [|a rest IH]; intros m0; [reflexivity|].
  cbn [walkLoop]. rewrite (W_eta (bind _ _)), value_tell_bind, trace_tell_bind.
  rewrite value_bind, trace_bind.
  destruct a as [p [|]|p]; cbn [baselineWalkFn].
  - cbn [value trace ret fst snd app]. rewrite IH.
    unfold walkedFiles. rewrite omap_cons_match. reflexivity.
  - unfold Stat. rewrite value_bind, trace_bind, value_tell_bind, trace_tell_bind.
    cbn [value trace ret fst snd app].
    unfold walkedFiles. rewrite omap_cons_match. fold (walkedFiles rest).
    rewrite omap_cons_match.
    destruct (os_Stat w p) as [mt|] eqn:Hs.
    + cbn [fold_left]. unfold later at 2.
      destruct (After mt m0); cbn [value trace ret fst snd app];
        rewrite IH; reflexivity.
    + cbn [value trace ret fst snd app]. rewrite IH. reflexivity.
  - cbn [value trace ret fst snd app]. rewrite IH. reflexivity.
Qed.

(** [buildCacheBaseline], step by step. *)
Lemma buildCacheBaseline_run cb :
  let raw := fold_left later (observedMtimes lib w cb) zero in
  buildCacheBaseline lib w cb =
    (mkCacheBaseline (Some (recordAll w (watchedPaths lib cb) ∅))
                     (if IsZero raw then Unix 1 0 else raw),
     map EvStat (watchedPaths lib cb) ++
     EvWalkDir (skillsDirOf lib cb) :: flat_map visitEvents (walk w (skillsDirOf lib cb))).
Proof.
  intros raw. subst raw. unfold buildCacheBaseline, WalkDir.
  fold (skillsDirOf lib cb). fold (watchedPaths lib cb).
  rewrite baselineStatLoop_run. unfold bind at 1. cbv beta iota.
  unfold tell, bind at 2. rewrite baselineWalk_run. cbv beta iota.
  unfold observedMtimes. rewrite omap_app, fold_left_app.
  unfold bind, ret. rewrite app_nil_r. reflexivity.
Qed.

End BaselineProofs.

Section BaselineFacts.

Variable lib : GoLib.
Variable w : World.

Lemma baseline_existed cb :
  existed (value (buildCacheBaseline lib w cb)) = Some (recordAll w (watchedPaths lib cb) ∅).
Proof. rewrite buildCacheBaseline_run. reflexivity. Qed.

Lemma baseline_maxMtime cb :
  maxMtime (value (buildCacheBaseline lib w cb)) =
    let raw := fold_left later (observedMtimes lib w cb) zero in
    if IsZero raw then Unix 1 0 else raw.
Proof. rewrite buildCacheBaseline_run. reflexivity. Qed.

Lemma baseline_trace cb :
  trace (buildCacheBaseline lib w cb) =
    map EvStat (watchedPaths lib cb) ++
    EvWalkDir (skillsDirOf lib cb) :: flat_map visitEvents (walk w (skillsDirOf lib cb)).
Proof. rewrite buildCacheBaseline_run. reflexivity. Qed.

Lemma baseline_not_zero cb :
  IsZero (maxMtime (value (buildCacheBaseline lib w cb))) = false.
Proof.
  rewrite baseline_maxMtime. cbv zeta.
  destruct (IsZero (fold_left later (observedMtimes lib w cb) zero)) eqn:E;
    [reflexivity | exact E].
Qed.

Lemma baseline_latest cb :
  (exists t, In t (observedMtimes lib w cb) /\ After t zero = true) ->
  isLatestOf (maxMtime (value (buildCacheBaseline lib w cb))) (observedMtimes lib w cb).
Proof.
  intros H. rewrite baseline_maxMtime. cbv zeta.
  destruct (fold_later_latest _ H) as [Hl Hz]. rewrite Hz. exact Hl.
Qed.

Lemma baseline_sentinel cb :
  (forall t, In t (observedMtimes lib w cb) -> After t zero = false) ->
  maxMtime (value (buildCacheBaseline lib w cb)) = Unix 1 0.
Proof.
  intros H. rewrite baseline_maxMtime. cbv zeta.
  rewrite (fold_later_zero _ H). reflexivity.
Qed.

(** No observed mtime is after the baseline's. *)
Lemma baseline_upper cb t :
  In t (observedMtimes lib w cb) ->
  After t (maxMtime (value (buildCacheBaseline lib w cb))) = false.
Proof.
  intros Ht. rewrite baseline_maxMtime. cbv zeta.
  pose proof (fold_later_upper _ zero t Ht) as Hu.
  destruct (IsZero (fold_left later (observedMtimes lib w cb) zero)) eqn:E; [|exact Hu].
  apply IsZero_true in E. rewrite E in Hu.
  eapply not_After_trans; [exact Hu|]. apply After_asym. reflexivity.
Qed.

Lemma observed_nil_of_absent cb :
  (forall p, In p (watchedPaths lib cb ++ walkedFiles (walk w (skillsDirOf lib cb))) ->
             os_Stat w p = None) ->
  observedMtimes lib w cb = [].
Proof.
  unfold observedMtimes.
  induction (watchedPaths lib cb ++ walkedFiles (walk w (skillsDirOf lib cb))) as [|p l IH];
    intros H; [reflexivity|].
  rewrite omap_cons_match, (H p (or_introl eq_refl)). apply IH.
  intros q Hq. apply H. right. exact Hq.
Qed.

Lemma visitEvents_no_clock (visits : list WalkArg) :
  ~ In EvClock (flat_map visitEvents visits).
Proof.
  induction visits as [|a l IH]; simpl; [tauto|].
  intros [H|H]; [discriminate|]. apply in_app_or in H. destruct H as [H|H]; [|tauto].
  destruct a as [p [|]|p]; simpl in H; intuition discriminate.
Qed.

Lemma baseline_no_clock cb : ~ In EvClock (trace (buildCacheBaseline lib w cb)).
Proof.
  rewrite baseline_trace. intros H. apply in_app_or in H. destruct H as [H|H].
  - apply in_map_iff in H. destruct H as (p & Hp & _). discriminate.
  - destruct H as [H|H]; [discriminate|]. eapply visitEvents_no_clock; exact H.
Qed.

End BaselineFacts.

(* ================================================================== *)
(** ** The staleness detector *)
(* ================================================================== *)

Section DetectorProofs.

Variable lib : GoLib.
Variable w : World.

(** The callback on one entry. *)
Lemma modifiedWalkFn_run (t : Time) (a : WalkArg) (changed : bool) :
  bind (tell (EvVisit (walkPath a))) (fun _ => modifiedWalkFn w t a changed) =
    ((if isNewerFile w t a then Some errWalkStop else None,
      if isNewerFile w t a then true else changed),
     visitEvents a).
Proof.
  destruct a as [p [|]|p]; try reflexivity.
  unfold modifiedWalkFn, isNewerFile, visitEvents, Stat. simpl.
  destruct (os_Stat w p) as [mt|]; [|reflexivity].
  destruct (After mt t); reflexivity.
Qed.

Lemma walkLoop_cons {S} (fn : WalkArg -> S -> W (option error * S)) a rest s :
  walkLoop fn (a :: rest) s =
    bind (bind (tell (EvVisit (walkPath a))) (fun _ => fn a s))
         (fun r => match fst r with
                   | Some e => ret (Some e, snd r)
                   | None => walkLoop fn rest (snd r)
                   end).
Proof.
  rewrite bind_assoc. cbn [walkLoop]. unfold bind, tell.
  destruct (fn a s) as [[err s'] tr]. simpl. destruct err; reflexivity.
Qed.

(** The walk stops at the first newer file and returns the sentinel. *)
Lemma walkLoop_modified_hit (t : Time) (pre : list WalkArg) (a : WalkArg)
    (post : list WalkArg) (changed : bool) :
  Forall (fun b => isNewerFile w t b = false) pre ->
  isNewerFile w t a = true ->
  walkLoop (modifiedWalkFn w t) (pre ++ a :: post) changed =
    ((Some errWalkStop, true), flat_map visitEvents (pre ++ [a])).
Proof.
  intros Hpre Ha. induction Hpre as [|b pre Hb _ IH].
  - simpl app. rewrite walkLoop_cons, modifiedWalkFn_run, Ha. simpl.
    rewrite !app_nil_r. reflexivity.
  - simpl app. rewrite walkLoop_cons, modifiedWalkFn_run, Hb.
    unfold bind at 1. cbn [fst snd]. rewrite IH. reflexivity.
Qed.

(** Without a newer file the walk visits every entry and returns [nil]. *)
Lemma walkLoop_modified_none (t : Time) (visits : list WalkArg) (changed : bool) :
  Forall (fun b => isNewerFile w t b = false) visits ->
  walkLoop (modifiedWalkFn w t) visits changed =
    ((None, changed), flat_map visitEvents visits).
Proof.
  intros H. induction H as [|b l Hb _ IH]; [reflexivity|].
  rewrite walkLoop_cons, modifiedWalkFn_run, Hb.
  unfold bind at 1. cbn [fst snd]. rewrite IH. reflexivity.
Qed.

Lemma skillFiles_hit (root : string) (t : Time) pre a post :
  walk w root = pre ++ a :: post ->
  Forall (fun b => isNewerFile w t b = false) pre ->
  isNewerFile w t a = true ->
  WalkDir w root (modifiedWalkFn w t) false =
    ((Some errWalkStop, true), EvWalkDir root :: flat_map visitEvents (pre ++ [a])) /\
  skillFilesModifiedSince w root t =
    (true, EvWalkDir root :: flat_map visitEvents (pre ++ [a])).
Proof.
  intros Hw Hpre Ha.
  assert (E : WalkDir w root (modifiedWalkFn w t) false =
              ((Some errWalkStop, true), EvWalkDir root :: flat_map visitEvents (pre ++ [a]))).
  { unfold WalkDir. rewrite Hw, (walkLoop_modified_hit t pre a post false Hpre Ha).
    reflexivity. }
  split; [exact E|]. unfold skillFilesModifiedSince. rewrite E.
  unfold bind. simpl. rewrite app_nil_r. reflexivity.
Qed.

Lemma skillFiles_none (root : string) (t : Time) :
  Forall (fun b => isNewerFile w t b = false) (walk w root) ->
  skillFilesModifiedSince w root t =
    (false, EvWalkDir root :: flat_map visitEvents (walk w root)).
Proof.
  intros H. unfold skillFilesModifiedSince, WalkDir.
  rewrite (walkLoop_modified_none t _ false H).
  unfold bind. simpl. rewrite app_nil_r. reflexivity.
Qed.

(** The value of the walk: whether some entry is a newer file. *)
Lemma skillFiles_value (root : string) (t : Time) :
  value (skillFilesModifiedSince w root t) = existsb (isNewerFile w t) (walk w root).
Proof.
  destruct (existsb (isNewerFile w t) (walk w root)) eqn:E.
  - assert (Hsplit : exists pre a post, walk w root = pre ++ a :: post /\
              Forall (fun b => isNewerFile w t b = false) pre /\ isNewerFile w t a = true).
    { clear -E. induction (walk w root) as [|b l IH]; [discriminate|].
      simpl in E. destruct (isNewerFile w t b) eqn:Hb.
      - exists [], b, l. repeat split; auto.
      - destruct (IH E) as (pre & a & post & -> & Hpre & Ha).
        exists (b :: pre), a, post. repeat split; auto. }
    destruct Hsplit as (pre & a & post & Hw & Hpre & Ha).
    destruct (skillFiles_hit root t pre a post Hw Hpre Ha) as [_ ->]. reflexivity.
  - rewrite skillFiles_none; [reflexivity|].
    apply Forall_forall. intros b Hb.
    destruct (isNewerFile w t b) eqn:Hn; [|reflexivity].
    assert (existsb (isNewerFile w t) (walk w root) = true); [|congruence].
    apply existsb_exists. exists b. split; [|exact Hn].
    apply list_elem_of_In. exact Hb.
Qed.

Lemma anyFileChanged_hit cb pre p post :
  Forall (fun q => value (fileChangedSince w cb q) = false) pre ->
  value (fileChangedSince w cb p) = true ->
  anyFileChangedSince w cb (pre ++ p :: post) = (true, checkEvents w cb (pre ++ [p])).
Proof.
  intros Hpre Hp. induction Hpre as [|q pre Hq _ IH]; simpl app.
  - cbn [anyFileChangedSince]. rewrite (W_eta (fileChangedSince w cb p)), Hp.
    unfold bind, ret, checkEvents. simpl. rewrite !app_nil_r. reflexivity.
  - cbn [anyFileChangedSince]. rewrite (W_eta (fileChangedSince w cb q)), Hq.
    unfold bind at 1. cbv iota. rewrite IH. reflexivity.
Qed.

Lemma anyFileChanged_none cb paths :
  Forall (fun q => value (fileChangedSince w cb q) = false) paths ->
  anyFileChangedSince w cb paths = (false, checkEvents w cb paths).
Proof.
  intros H. induction H as [|q l Hq _ IH]; [reflexivity|].
  cbn [anyFileChangedSince]. rewrite (W_eta (fileChangedSince w cb q)), Hq.
  unfold bind at 1. cbv iota. rewrite IH. reflexivity.
Qed.

Lemma checkEvents_app cb l1 l2 :
  checkEvents w cb (l1 ++ l2) = checkEvents w cb l1 ++ checkEvents w cb l2.
Proof. unfold checkEvents. apply flat_map_app. Qed.

Lemma changed_zero cb :
  IsZero (cachedAt cb) = true -> sourceFilesChangedLocked lib w cb = (true, []).
Proof. intros H. unfold sourceFilesChangedLocked. rewrite H. reflexivity. Qed.

Lemma changed_by_file cb pre p post :
  IsZero (cachedAt cb) = false ->
  sourcePaths lib cb = pre ++ p :: post ->
  Forall (fun q => value (fileChangedSince w cb q) = false) pre ->
  value (fileChangedSince w cb p) = true ->
  sourceFilesChangedLocked lib w cb = (true, checkEvents w cb (pre ++ [p])).
Proof.
  intros Hz Hs Hpre Hp. unfold sourceFilesChangedLocked. rewrite Hz, Hs.
  rewrite (anyFileChanged_hit cb pre p post Hpre Hp).
  unfold bind, ret. rewrite app_nil_r. reflexivity.
Qed.

Lemma changed_by_dir cb :
  IsZero (cachedAt cb) = false ->
  Forall (fun q => value (fileChangedSince w cb q) = false) (sourcePaths lib cb) ->
  value (fileChangedSince w cb (skillsDirOf lib cb)) = true ->
  sourceFilesChangedLocked lib w cb =
    (true, checkEvents w cb (sourcePaths lib cb ++ [skillsDirOf lib cb])).
Proof.
  intros Hz Hfiles Hd. unfold sourceFilesChangedLocked. rewrite Hz.
  rewrite (anyFileChanged_none cb _ Hfiles). unfold bind at 1. cbv iota.
  fold (skillsDirOf lib cb).
  rewrite (W_eta (fileChangedSince w cb (skillsDirOf lib cb))), Hd.
  unfold bind, ret. rewrite checkEvents_app. unfold checkEvents at 3. simpl.
  rewrite !app_nil_r. reflexivity.
Qed.

Lemma changed_by_walk cb :
  IsZero (cachedAt cb) = false ->
  Forall (fun q => value (fileChangedSince w cb q) = false)
         (sourcePaths lib cb ++ [skillsDirOf lib cb]) ->
  sourceFilesChangedLocked lib w cb =
    (value (skillFilesModifiedSince w (skillsDirOf lib cb) (cachedAt cb)),
     checkEvents w cb (sourcePaths lib cb ++ [skillsDirOf lib cb]) ++
     trace (skillFilesModifiedSince w (skillsDirOf lib cb) (cachedAt cb))).
Proof.
  intros Hz Hall. apply Forall_app in Hall. destruct Hall as [Hfiles Hd].
  inversion Hd as [|? ? Hd' _]; subst.
  unfold sourceFilesChangedLocked. rewrite Hz.
  rewrite (anyFileChanged_none cb _ Hfiles). unfold bind at 1. cbv iota.
  fold (skillsDirOf lib cb).
  rewrite (W_eta (fileChangedSince w cb (skillsDirOf lib cb))), Hd'.
  unfold bind at 1. cbv iota.
  rewrite (W_eta (skillFilesModifiedSince w (skillsDirOf lib cb) (cachedAt cb))).
  unfold bind, ret. cbn [value trace fst snd].
  rewrite checkEvents_app. unfold checkEvents at 3. simpl. rewrite !app_nil_r.
  destruct (skillFilesModifiedSince w (skillsDirOf lib cb) (cachedAt cb)) as [[|] tr];
    simpl; rewrite ?app_nil_r, <- ?app_assoc; reflexivity.
Qed.

End DetectorProofs.

(* ================================================================== *)
(** ** Substrings *)
(* ================================================================== *)

Section SubstringProofs.

Lemma append_cons (x : ascii) (a b : string) : String x a +:+ b = String x (a +:+ b).
Proof. reflexivity. Qed.

Lemma append_assoc (a b c : string) : (a +:+ b) +:+ c = a +:+ (b +:+ c).
Proof.
  induction a as [|x a IH]; [reflexivity|]. rewrite !append_cons, IH. reflexivity.
Qed.

Lemma append_nil_r (a : string) : a +:+ "" = a.
Proof. induction a as [|x a IH]; [reflexivity|]. rewrite append_cons, IH. reflexivity. Qed.

Lemma Contains_cons (c : ascii) (s m : string) :
  strings_Contains (String c s) m = String.prefix m (String c s) || strings_Contains s m.
Proof. reflexivity. Qed.

Lemma Contains_nil_l (m : string) : strings_Contains "" m = String.prefix m "".
Proof. simpl. apply orb_false_r. Qed.

(** A prefix test that succeeds on [t +:+ s] succeeds within [t], or
    [t] as a whole is the beginning of [m]. *)
Lemma prefix_app_alike (m t s : string) :
  String.prefix m (t +:+ s) = true -> startsAlike m t = true.
Proof.
  unfold startsAlike. revert t. induction m as [|m0 m IH]; intros t H;
    [destruct t; reflexivity|].
  destruct t as [|c t]; [apply orb_true_r|].
  rewrite append_cons in H. simpl in H. simpl.
  destruct (ascii_dec m0 c) as [->|Hne]; [|discriminate].
  destruct (ascii_dec c c) as [_|Hn]; [|contradiction].
  apply IH. exact H.
Qed.

(** Nothing of [m] begins in a fixed text that is [clearOf] it. *)
Lemma Contains_clear (m t s : string) :
  clearOf m t = true -> strings_Contains (t +:+ s) m = strings_Contains s m.
Proof.
  induction t as [|c t IH]; intros H; [reflexivity|].
  simpl in H. apply andb_true_iff in H. destruct H as [Ha Hc].
  rewrite append_cons, Contains_cons, (IH Hc).
  destruct (String.prefix m (String c (t +:+ s))) eqn:E; [|reflexivity].
  rewrite <- append_cons in E. apply prefix_app_alike in E.
  rewrite E in Ha. discriminate.
Qed.

Lemma prefix_stops_at (m a b : string) (c : ascii) :
  charIn c m = false -> String.prefix m (a +:+ String c b) = true -> String.prefix m a = true.
Proof.
  revert a. induction m as [|m0 m IH]; intros a Hc H; [destruct a; reflexivity|].
  simpl in Hc. apply orb_false_iff in Hc. destruct Hc as [Hc0 Hc].
  destruct a as [|d a].
  - simpl in H. destruct (ascii_dec m0 c) as [->|_]; [|discriminate].
    rewrite Ascii.eqb_refl in Hc0. discriminate.
  - rewrite append_cons in H. simpl in H. simpl.
    destruct (ascii_dec m0 d); [|discriminate]. apply IH; assumption.
Qed.

Lemma prefix_Contains (m s : string) : String.prefix m s = true -> strings_Contains s m = true.
Proof. intros H. destruct s; simpl in *; rewrite H; reflexivity. Qed.

Lemma Contains_tail (c : ascii) (s m : string) :
  strings_Contains s m = true -> strings_Contains (String c s) m = true.
Proof. intros H. rewrite Contains_cons, H. apply orb_true_r. Qed.

(** An occurrence of [m] cannot run across a byte that is not in [m]. *)
Lemma Contains_across (m a b : string) (c : ascii) :
  charIn c m = false ->
  strings_Contains (a +:+ String c b) m = true ->
  strings_Contains a m = true \/ strings_Contains b m = true.
Proof.
  intros Hc. induction a as [|d a IH]; intros H.
  - change ("" +:+ String c b) with (String c b) in H. rewrite Contains_cons in H.
    apply orb_true_iff in H. destruct H as [H|H]; [|right; exact H].
    left. apply prefix_Contains.
    apply (prefix_stops_at m "" b c Hc). exact H.
  - rewrite append_cons, Contains_cons in H. apply orb_true_iff in H. destruct H as [H|H].
    + left. apply prefix_Contains. rewrite <- append_cons in H.
      eapply prefix_stops_at; eassumption.
    + destruct (IH H) as [Ha|Hb]; [left; apply Contains_tail; exact Ha | right; exact Hb].
Qed.

(** A separating text between two texts: [m] lies before or after it. *)
Lemma Contains_separated (m a t s : string) :
  separates m t = true ->
  strings_Contains (a +:+ t +:+ s) m = true ->
  strings_Contains a m = true \/ strings_Contains s m = true.
Proof.
  intros Ht H. destruct t as [|c t]; [discriminate|].
  simpl in Ht. apply andb_true_iff in Ht. destruct Ht as [Hc Hclear].
  apply negb_true_iff in Hc. rewrite append_cons in H.
  apply Contains_across in H; [|exact Hc].
  destruct H as [H|H]; [left; exact H|right].
  rewrite Contains_clear in H by exact Hclear. exact H.
Qed.

Lemma Contains_separated_end (m a t : string) :
  separates m t = true ->
  strings_Contains (a +:+ t) m = true ->
  strings_Contains a m = true \/ strings_Contains "" m = true.
Proof.
  intros Ht H. rewrite <- (append_nil_r t) in H.
  eapply Contains_separated; eassumption.
Qed.

(** Texts joined by a separating text: [m] lies within one of them. *)
Lemma Contains_join (m sep : string) (parts : list string) :
  strings_Contains "" m = false ->
  separates m sep = true ->
  strings_Contains (strings_Join parts sep) m = true ->
  Exists (fun p => strings_Contains p m = true) parts.
Proof.
  intros Hm Hsep. unfold strings_Join.
  induction parts as [|p rest IH]; intros H.
  - simpl String.concat in H. congruence.
  - destruct rest as [|q rest].
    + left. exact H.
    + change (String.concat sep (p :: q :: rest))
        with (p +:+ sep +:+ String.concat sep (q :: rest)) in H.
      apply Contains_separated in H; [|exact Hsep].
      destruct H as [H|H]; [left; exact H | right; apply IH; exact H].
Qed.

End SubstringProofs.

(* ================================================================== *)
(** ** The static prompt *)
(* ================================================================== *)

Section PromptProofs.

Variable lib : GoLib.
Variable w : World.

Lemma bootstrapLoop_value cb (files : list string) (sb : string) :
  value (bootstrapLoop lib w cb files sb) =
    sb +:+ String.concat "" (map (bootstrapBlock lib w cb) files).
Proof.
  revert sb. induction files as [|f rest IH]; intros sb.
  - simpl. rewrite append_nil_r. reflexivity.
  - cbn [bootstrapLoop]. unfold ReadFile. rewrite value_bind, value_tell_bind.
    cbn [value ret fst].
    assert (Hcat : forall x l, String.concat "" (x :: l) = x +:+ String.concat "" l).
    { intros x [|y l]; simpl; [rewrite append_nil_r|]; reflexivity. }
    cbn [map]. rewrite Hcat. unfold bootstrapBlock at 1.
    destruct (os_ReadFile w (filepath_Join lib [workspace cb; f])) as [data|].
    + rewrite IH, !append_assoc. reflexivity.
    + rewrite IH. reflexivity.
Qed.

Lemma BuildSystemPrompt_value cb :
  value (BuildSystemPrompt lib w cb) = strings_Join (staticParts lib w cb) partSeparator.
Proof.
  unfold BuildSystemPrompt, staticParts, optionalPart, LoadBootstrapFiles, GetMemoryContext.
  rewrite value_bind, bootstrapLoop_value. change ("" +:+ ?x) with x.
  rewrite value_bind, value_bind, value_tell_bind. cbn [value ret fst].
  destruct (String.eqb (String.concat "" _) "");
    destruct (String.eqb (value (BuildSkillsSummary lib w (skillsLoader cb))) "");
    destruct (String.eqb (memoryContext w) ""); reflexivity.
Qed.

(** The static prompt is a function of the workspace and the loader
    only: the cache fields play no role. *)
Lemma BuildSystemPrompt_setCache cb prompt t ex :
  BuildSystemPrompt lib w (setCache cb prompt t ex) = BuildSystemPrompt lib w cb.
Proof. reflexivity. Qed.

Lemma getIdentity_nonempty cb : exists c rest, getIdentity lib w cb = String c rest.
Proof. unfold getIdentity, identityText0. eexists _, _. reflexivity. Qed.

Lemma concat_cons_nonempty (sep : string) (c : ascii) (x : string) (l : list string) :
  exists rest, String.concat sep (String c x :: l) = String c rest.
Proof. destruct l as [|y l]; simpl; eexists; reflexivity. Qed.

Lemma BuildSystemPrompt_nonempty cb :
  String.eqb (value (BuildSystemPrompt lib w cb)) "" = false.
Proof.
  rewrite BuildSystemPrompt_value. unfold staticParts, strings_Join.
  destruct (getIdentity_nonempty cb) as (c & rest & ->).
  set (others := optionalPart "" _ ++ _).
  change ([String c rest] ++ others) with (String c rest :: others).
  destruct (concat_cons_nonempty partSeparator c rest others) as [r Hr].
  rewrite Hr. reflexivity.
Qed.

(** The time marker in the identity text can only come from the path. *)
Lemma getIdentity_marker cb :
  strings_Contains (getIdentity lib w cb) timeMarker = true ->
  strings_Contains (filepath_Abs w (filepath_Join lib [workspace cb])) timeMarker = true.
Proof.
  unfold getIdentity. set (wp := filepath_Abs w (filepath_Join lib [workspace cb])).
  intros H.
  rewrite Contains_clear in H by (vm_compute; reflexivity).
  apply Contains_separated in H; [|vm_compute; reflexivity].
  destruct H as [H|H]; [exact H|].
  apply Contains_separated in H; [|vm_compute; reflexivity].
  destruct H as [H|H]; [exact H|].
  apply Contains_separated in H; [|vm_compute; reflexivity].
  destruct H as [H|H]; [exact H|].
  apply Contains_separated in H; [|vm_compute; reflexivity].
  destruct H as [H|H]; [exact H|].
  apply Contains_separated_end in H; [|vm_compute; reflexivity].
  destruct H as [H|H]; [exact H|]. vm_compute in H. discriminate.
Qed.

Lemma bootstrap_marker cb (files : list string) :
  (forall f, In f files -> In f bootstrapFiles) ->
  strings_Contains (String.concat "" (map (bootstrapBlock lib w cb) files)) timeMarker = true ->
  exists f data, In f files /\
    os_ReadFile w (filepath_Join lib [workspace cb; f]) = Some data /\
    strings_Contains data timeMarker = true.
Proof.
  induction files as [|f rest IH]; intros Hsub H.
  - vm_compute in H. discriminate.
  - assert (Hcat : forall x l, String.concat "" (x :: l) = x +:+ String.concat "" l).
    { intros x [|y l]; simpl; [rewrite append_nil_r|]; reflexivity. }
    cbn [map] in H. rewrite Hcat in H. unfold bootstrapBlock at 1 in H.
    assert (Hrest : strings_Contains
                      (String.concat "" (map (bootstrapBlock lib w cb) rest)) timeMarker = true ->
                    exists f0 data, In f0 (f :: rest) /\
                      os_ReadFile w (filepath_Join lib [workspace cb; f0]) = Some data /\
                      strings_Contains data timeMarker = true).
    { intros Hr. destruct IH as (f0 & data & Hin & Hread & Hc); auto.
      - intros g Hg. apply Hsub. right. exact Hg.
      - exists f0, data. split; [right; exact Hin | split; assumption]. }
    destruct (os_ReadFile w (filepath_Join lib [workspace cb; f])) as [data|] eqn:Hread;
      [|apply Hrest; exact H].
    assert (Hhead : clearOf timeMarker ("## " +:+ f +:+ nl +:+ nl) = true).
    { specialize (Hsub f (or_introl eq_refl)). unfold bootstrapFiles in Hsub. simpl in Hsub.
      destruct Hsub as [<-|[<-|[<-|[<-|[]]]]]; vm_compute; reflexivity. }
    set (head := "## " +:+ f +:+ nl +:+ nl) in *.
    set (sep := nl +:+ nl) in *.
    rewrite !append_assoc in H.
    rewrite Contains_clear in H by exact Hhead.
    apply Contains_separated in H; [|vm_compute; reflexivity].
    destruct H as [H|H]; [|apply Hrest; exact H].
    exists f, data. split; [left; reflexivity | split; assumption].
Qed.

(** The static prompt contains the time marker only if one of its
    sources does. *)
Lemma BuildSystemPrompt_marker cb :
  staticSourcesLack lib w cb timeMarker ->
  strings_Contains (value (BuildSystemPrompt lib w cb)) timeMarker = false.
Proof.
  intros (Hpath & Hfiles & Hskills & Hmem).
  destruct (strings_Contains (value (BuildSystemPrompt lib w cb)) timeMarker) eqn:E;
    [exfalso|reflexivity].
  rewrite BuildSystemPrompt_value in E.
  apply Contains_join in E; [|vm_compute; reflexivity|vm_compute; reflexivity].
  unfold staticParts in E. apply Exists_app in E. destruct E as [E|E].
  { apply Exists_cons in E. destruct E as [E|E]; [|inversion E].
    apply getIdentity_marker in E. congruence. }
  apply Exists_app in E. destruct E as [E|E].
  { unfold optionalPart in E. destruct (String.eqb _ ""); [inversion E|].
    apply Exists_cons in E. destruct E as [E|E]; [|inversion E].
    change ("" +:+ ?x) with x in E.
    apply bootstrap_marker in E; [|auto].
    destruct E as (f & data & Hin & Hread & Hc).
    rewrite (Hfiles f data Hin Hread) in Hc. discriminate. }
  apply Exists_app in E. destruct E as [E|E].
  { unfold optionalPart in E. destruct (String.eqb _ ""); [inversion E|].
    apply Exists_cons in E. destruct E as [E|E]; [|inversion E].
    rewrite Contains_clear in E by (vm_compute; reflexivity). congruence. }
  unfold optionalPart in E. destruct (String.eqb _ ""); [inversion E|].
  apply Exists_cons in E. destruct E as [E|E]; [|inversion E].
  rewrite Contains_clear in E by (vm_compute; reflexivity). congruence.
Qed.

End PromptProofs.

(* ================================================================== *)
(** ** The cache controller *)
(* ================================================================== *)

Section ControllerProofs.

Variable lib : GoLib.

Lemma existsb_ext_in {A} (f g : A -> bool) (l : list A) :
  (forall x, In x l -> f x = g x) -> existsb f l = existsb g l.
Proof.
  induction l as [|a l IH]; intros H; [reflexivity|]. simpl.
  rewrite (H a (or_introl eq_refl)), IH; [reflexivity|].
  intros x Hx. apply H. right. exact Hx.
Qed.

Lemma anyFileChanged_value w cb (paths : list string) :
  value (anyFileChangedSince w cb paths) =
    existsb (fun p => value (fileChangedSince w cb p)) paths.
Proof.
  induction paths as [|p rest IH]; [reflexivity|].
  cbn [anyFileChangedSince existsb]. rewrite value_bind.
  destruct (value (fileChangedSince w cb p)); [reflexivity | exact IH].
Qed.

(** What the detector answers, without the order of evaluation. *)
Lemma changed_value w cb :
  value (sourceFilesChangedLocked lib w cb) =
    IsZero (cachedAt cb)
    || existsb (fun p => value (fileChangedSince w cb p)) (watchedPaths lib cb)
    || existsb (isNewerFile w (cachedAt cb)) (walk w (skillsDirOf lib cb)).
Proof.
  unfold sourceFilesChangedLocked, watchedPaths. fold (skillsDirOf lib cb).
  destruct (IsZero (cachedAt cb)); [reflexivity|]. cbn [orb].
  rewrite existsb_app, value_bind, anyFileChanged_value.
  destruct (existsb _ (sourcePaths lib cb)); [reflexivity|]. cbn [orb].
  rewrite value_bind. cbn [existsb]. rewrite orb_false_r.
  destruct (value (fileChangedSince w cb (skillsDirOf lib cb))); [reflexivity|].
  cbn [orb]. rewrite value_bind, skillFiles_value.
  destruct (existsb _ (walk w (skillsDirOf lib cb))); reflexivity.
Qed.

Lemma fileChangedSince_stat w1 w2 cb p :
  os_Stat w1 p = os_Stat w2 p ->
  value (fileChangedSince w1 cb p) = value (fileChangedSince w2 cb p).
Proof.
  intros H. destruct (existedAtCache cb) as [m|] eqn:E.
  - rewrite !(fileChangedSince_value _ cb p m E), H. reflexivity.
  - rewrite !(fileChangedSince_nil _ cb p E). reflexivity.
Qed.

Lemma walkedFiles_In (visits : list WalkArg) (p : string) :
  In (Visit p false) visits -> In p (walkedFiles visits).
Proof.
  induction visits as [|a l IH]; intros H; [contradiction|].
  unfold walkedFiles. rewrite omap_cons_match. fold (walkedFiles l).
  destruct H as [->|H]; [left; reflexivity|].
  destruct a as [q [|]|q]; [apply IH; exact H | right; apply IH; exact H | apply IH; exact H].
Qed.

Lemma isNewerFile_stat w1 w2 t (visits : list WalkArg) a :
  In a visits ->
  (forall p, In p (walkedFiles visits) -> os_Stat w1 p = os_Stat w2 p) ->
  isNewerFile w1 t a = isNewerFile w2 t a.
Proof.
  intros Ha H. destruct a as [p [|]|p]; try reflexivity.
  unfold isNewerFile. rewrite (H p); [reflexivity|]. apply walkedFiles_In. exact Ha.
Qed.

Lemma In_walkedFiles (visits : list WalkArg) (p : string) :
  In p (walkedFiles visits) -> In (Visit p false) visits.
Proof.
  induction visits as [|a l IH]; intros H; [contradiction|].
  unfold walkedFiles in H. rewrite omap_cons_match in H. fold (walkedFiles l) in H.
  destruct a as [q [|]|q].
  - right. apply IH. exact H.
  - destruct H as [->|H]; [left; reflexivity | right; apply IH; exact H].
  - right. apply IH. exact H.
Qed.

(** A newer file is found among the entries of a walk exactly when one
    of the files of the walk is newer. *)
Lemma newer_among_files w t (visits : list WalkArg) :
  existsb (isNewerFile w t) visits = true <->
  exists p mt, In p (walkedFiles visits) /\ os_Stat w p = Some mt /\ After mt t = true.
Proof.
  rewrite existsb_exists. split.
  - intros (a & Ha & Hn). destruct a as [p [|]|p]; try discriminate.
    unfold isNewerFile in Hn. destruct (os_Stat w p) as [mt|] eqn:E; [|discriminate].
    exists p, mt. split; [apply walkedFiles_In; exact Ha | split; [exact E | exact Hn]].
  - intros (p & mt & Hp & Hs & Ha). exists (Visit p false).
    split; [apply In_walkedFiles; exact Hp|]. unfold isNewerFile. rewrite Hs. exact Ha.
Qed.

Lemma newer_sameWatched w1 w2 cb t :
  sameWatched lib cb w1 w2 ->
  existsb (isNewerFile w1 t) (walk w1 (skillsDirOf lib cb)) =
  existsb (isNewerFile w2 t) (walk w2 (skillsDirOf lib cb)).
Proof.
  intros (_ & Hfiles & Hstat). apply eq_true_iff_eq. rewrite !newer_among_files. split.
  - intros (p & mt & Hp & Hs & Ha). exists p, mt.
    split; [apply Hfiles; exact Hp|]. split; [|exact Ha].
    rewrite <- (Hstat p Hp). exact Hs.
  - intros (p & mt & Hp & Hs & Ha). apply Hfiles in Hp. exists p, mt.
    split; [exact Hp|]. split; [|exact Ha]. rewrite (Hstat p Hp). exact Hs.
Qed.

(** Worlds that agree on what is watched get the same answer. *)
Lemma changed_sameWatched w1 w2 cb :
  sameWatched lib cb w1 w2 ->
  value (sourceFilesChangedLocked lib w1 cb) = value (sourceFilesChangedLocked lib w2 cb).
Proof.
  intros H. rewrite !changed_value, (newer_sameWatched w1 w2 cb _ H).
  destruct H as (Hstat & _ & _). f_equal. f_equal.
  apply existsb_ext_in. intros p Hp. apply fileChangedSince_stat.
  apply Hstat. exact Hp.
Qed.

Lemma observed_In w cb p mt :
  In p (watchedPaths lib cb ++ walkedFiles (walk w (skillsDirOf lib cb))) ->
  os_Stat w p = Some mt -> In mt (observedMtimes lib w cb).
Proof.
  unfold observedMtimes.
  induction (watchedPaths lib cb ++ walkedFiles (walk w (skillsDirOf lib cb))) as [|q l IH];
    intros Hin Hs; [contradiction|].
  rewrite omap_cons_match. destruct Hin as [->|Hin].
  - rewrite Hs. left. reflexivity.
  - destruct (os_Stat w q); [right|]; apply IH; assumption.
Qed.

(** Right after a rebuild, and as long as the watched paths look the
    same, the detector reports no change. *)
Lemma unchanged_after_rebuild w0 w cb :
  sameWatched lib cb w0 w ->
  value (sourceFilesChangedLocked lib w (rebuilt lib w0 cb)) = false.
Proof.
  intros (Hstat & Hfiles & Hfstat). rewrite changed_value. unfold rebuilt.
  change (cachedAt (setCache cb _ ?t _)) with t.
  change (watchedPaths lib (setCache cb _ _ _)) with (watchedPaths lib cb).
  change (skillsDirOf lib (setCache cb _ _ _)) with (skillsDirOf lib cb).
  rewrite baseline_not_zero. cbn [orb].
  apply orb_false_iff. split.
  - apply not_true_iff_false. intros H. apply existsb_exists in H.
    destruct H as (p & Hp & Hc).
    rewrite (fileChangedSince_value w _ p (recordAll w0 (watchedPaths lib cb) ∅)) in Hc
      by (simpl; apply baseline_existed).
    rewrite recordAll_lookup in Hc by exact Hp. cbn [default] in Hc.
    assert (Hs : os_Stat w0 p = os_Stat w p) by (apply Hstat; exact Hp).
    rewrite Hs in Hc. destruct (os_Stat w p) as [mt|] eqn:Hw; simpl in Hc; [|discriminate].
    rewrite baseline_upper in Hc; [discriminate|].
    eapply observed_In; [apply in_or_app; left; exact Hp | exact Hs].
  - apply not_true_iff_false. intros H. apply existsb_exists in H.
    destruct H as (a & Ha & Hn).
    destruct a as [p [|]|p]; try discriminate. unfold isNewerFile in Hn.
    assert (Hp : In p (walkedFiles (walk w0 (skillsDirOf lib cb))))
      by (apply Hfiles, walkedFiles_In; exact Ha).
    assert (Hs : os_Stat w0 p = os_Stat w p) by (apply Hfstat; exact Hp).
    destruct (os_Stat w p) as [mt|] eqn:Hw; [|discriminate].
    rewrite baseline_upper in Hn; [discriminate|].
    eapply observed_In; [apply in_or_app; right; exact Hp | exact Hs].
Qed.

Lemma cacheIsFresh_value w cb : value (cacheIsFresh lib w cb) = isFresh lib w cb.
Proof.
  unfold cacheIsFresh, isFresh.
  destruct (negb (String.eqb (cachedSystemPrompt cb) "")); [|reflexivity].
  rewrite value_bind. reflexivity.
Qed.

(** The getter returns the cached prompt when it is fresh, and
    otherwise rebuilds. *)
Lemma getter_value w cb :
  value (BuildSystemPromptWithCache lib w cb) =
    if isFresh lib w cb then (cachedSystemPrompt cb, cb)
    else (value (BuildSystemPrompt lib w cb), rebuilt lib w cb).
Proof.
  unfold BuildSystemPromptWithCache. rewrite value_bind, cacheIsFresh_value.
  destruct (isFresh lib w cb) eqn:E; [reflexivity|].
  rewrite value_bind, cacheIsFresh_value, E.
  rewrite value_bind, value_bind, value_DebugCF_bind. reflexivity.
Qed.

Lemma sameWatched_refl w cb : sameWatched lib cb w w.
Proof. split; [|split]; intros; reflexivity. Qed.

Lemma isFresh_rebuilt w0 w cb :
  sameWatched lib cb w0 w -> isFresh lib w (rebuilt lib w0 cb) = true.
Proof.
  intros H. unfold isFresh. rewrite (unchanged_after_rebuild w0 w cb H).
  unfold rebuilt. change (cachedSystemPrompt (setCache _ ?p _ _)) with p.
  rewrite BuildSystemPrompt_nonempty. reflexivity.
Qed.

Lemma isFresh_sameWatched w1 w2 cb :
  sameWatched lib cb w1 w2 -> isFresh lib w1 cb = isFresh lib w2 cb.
Proof. intros H. unfold isFresh. rewrite (changed_sameWatched w1 w2 cb H). reflexivity. Qed.

(** After one call, further calls in worlds that look the same return
    the same string and leave the state as it is. *)
Lemma getter_stable w0 w cb :
  sameWatched lib cb w0 w ->
  value (BuildSystemPromptWithCache lib w (snd (value (BuildSystemPromptWithCache lib w0 cb))))
  = value (BuildSystemPromptWithCache lib w0 cb).
Proof.
  intros H. rewrite (getter_value w0 cb).
  destruct (isFresh lib w0 cb) eqn:E; cbn [snd].
  - rewrite getter_value, <- (isFresh_sameWatched w0 w cb H), E. reflexivity.
  - rewrite getter_value, (isFresh_rebuilt w0 w cb H). reflexivity.
Qed.

Lemma getter_workspace w cb :
  workspace (snd (value (BuildSystemPromptWithCache lib w cb))) = workspace cb.
Proof. rewrite getter_value. destruct (isFresh lib w cb); reflexivity. Qed.

Lemma sameWatched_workspace cb cb' w1 w2 :
  workspace cb' = workspace cb -> sameWatched lib cb w1 w2 -> sameWatched lib cb' w1 w2.
Proof.
  intros Hw H. unfold sameWatched, watchedPaths, skillsDirOf, sourcePaths in *.
  rewrite Hw. exact H.
Qed.

(** All calls of a sequence return what the first call returned. *)
Lemma promptCalls_constant w0 (ws : list World) cb :
  Forall (sameWatched lib cb w0) ws ->
  forall p, In p (promptCalls lib (w0 :: ws) cb) ->
            p = fst (value (BuildSystemPromptWithCache lib w0 cb)).
Proof.
  intros Hws p Hp. cbn [promptCalls] in Hp. destruct Hp as [<-|Hp]; [reflexivity|].
  set (r := value (BuildSystemPromptWithCache lib w0 cb)) in *.
  assert (Hst : forall w, sameWatched lib cb w0 w ->
            value (BuildSystemPromptWithCache lib w (snd r)) = r).
  { intros w Hw. apply getter_stable. exact Hw. }
  clearbody r. induction Hws as [|w ws Hw _ IH]; [contradiction|].
  cbn [promptCalls] in Hp. rewrite (Hst w Hw) in Hp.
  destruct Hp as [<-|Hp]; [reflexivity | apply IH; exact Hp].
Qed.

End ControllerProofs.

Section ReachableProofs.

Variable lib : GoLib.
Variable w : World.

(** The cache of a builder used in an unchanging world is empty or
    holds the prompt that world gives. *)
Lemma reachable_cached cb :
  reachable lib w cb ->
  cachedSystemPrompt cb = "" \/
  cachedSystemPrompt cb = value (BuildSystemPrompt lib w cb).
Proof.
  assert (Hstep : forall cb0,
    (cachedSystemPrompt cb0 = "" \/
     cachedSystemPrompt cb0 = value (BuildSystemPrompt lib w cb0)) ->
    let cb1 := snd (value (BuildSystemPromptWithCache lib w cb0)) in
    cachedSystemPrompt cb1 = "" \/
    cachedSystemPrompt cb1 = value (BuildSystemPrompt lib w cb1)).
  { intros cb0 IH cb1. subst cb1. rewrite getter_value.
    destruct (isFresh lib w cb0); cbn [snd]; [exact IH|]. right. reflexivity. }
  induction 1 as [ws|cb _ IH|cb h s c m ch id _ IH|cb _ IH].
  - left. reflexivity.
  - apply Hstep. exact IH.
  - rewrite BuildMessages_state. apply Hstep. exact IH.
  - left. reflexivity.
Qed.

Lemma InvalidateCache_value cb : value (InvalidateCache cb) = setCache cb "" zero None.
Proof. reflexivity. Qed.

Lemma rebuild_after_invalidate cb :
  fst (value (BuildSystemPromptWithCache lib w (value (InvalidateCache cb)))) =
  value (BuildSystemPrompt lib w cb).
Proof. rewrite InvalidateCache_value, getter_value. reflexivity. Qed.

Lemma getter_marker cb :
  strings_Contains (cachedSystemPrompt cb) timeMarker = false ->
  staticSourcesLack lib w cb timeMarker ->
  strings_Contains (fst (value (BuildSystemPromptWithCache lib w cb))) timeMarker = false.
Proof.
  intros Hc Hs. rewrite getter_value.
  destruct (isFresh lib w cb); cbn [fst]; [exact Hc|].
  apply BuildSystemPrompt_marker. exact Hs.
Qed.

End ReachableProofs.

(* ================================================================== *)
(** ** The matcher decides the language of the expression *)
(* ================================================================== *)

Section RegexpProofs.

Import Regexp.

Lemma append_eq_nil (a b : string) : a +:+ b = "" -> a = "" /\ b = "".
Proof.
  destruct a as [|d a]; intros H.
  - split; [reflexivity | exact H].
  - rewrite append_cons in H. discriminate.
Qed.

Lemma append_eq_cons (a b : string) (c : ascii) (s : string) :
  a +:+ b = String c s ->
  (a = "" /\ b = String c s) \/ (exists a', a = String c a' /\ s = a' +:+ b).
Proof.
  destruct a as [|d a]; intros H; [left; split; [reflexivity | exact H]|].
  rewrite append_cons in H. injection H as -> <-. right. exists a. auto.
Qed.

Lemma denotes_cat_inv (r1 r2 : regex) (s : string) :
  denotes (Cat r1 r2) s -> exists s1 s2, s = s1 +:+ s2 /\ denotes r1 s1 /\ denotes r2 s2.
Proof. intros H. inversion H; subst. eauto. Qed.

Lemma denotes_alt_inv (r1 r2 : regex) (s : string) :
  denotes (Alt r1 r2) s -> denotes r1 s \/ denotes r2 s.
Proof. intros H. inversion H; subst; auto. Qed.

Lemma denotes_class_inv (f : ascii -> bool) (s : string) :
  denotes (Class f) s -> exists c, s = String c "" /\ f c = true.
Proof. intros H. inversion H; subst. eauto. Qed.

Lemma denotes_void_inv (s : string) : ~ denotes Void s.
Proof. intros H. inversion H. Qed.

Lemma denotes_eps_inv (s : string) : denotes Eps s -> s = "".
Proof. intros H. inversion H. reflexivity. Qed.

Lemma nullable_denotes (r : regex) : nullable r = true <-> denotes r "".
Proof.
  induction r as [| |f|r1 IH1 r2 IH2|r1 IH1 r2 IH2|r IH]; simpl.
  - split; [discriminate | intros H; destruct (denotes_void_inv _ H)].
  - split; [constructor | reflexivity].
  - split; [discriminate|]. intros H. apply denotes_class_inv in H.
    destruct H as (c & H & _). discriminate.
  - rewrite andb_true_iff, IH1, IH2. split.
    + intros [H1 H2]. change "" with ("" +:+ ""). constructor; assumption.
    + intros H. apply denotes_cat_inv in H. destruct H as (s1 & s2 & E & H1 & H2).
      symmetry in E. apply append_eq_nil in E. destruct E as [-> ->]. auto.
  - rewrite orb_true_iff, IH1, IH2. split.
    + intros [H|H]; [apply d_alt_l | apply d_alt_r]; exact H.
    + apply denotes_alt_inv.
  - split; [constructor | reflexivity].
Qed.

(** A non-empty word of a star begins with a non-empty word of its body. *)
Lemma star_cons (r : regex) (c : ascii) (s : string) :
  denotes (Star r) (String c s) ->
  exists s1 s2, s = s1 +:+ s2 /\ denotes r (String c s1) /\ denotes (Star r) s2.
Proof.
  intros H. remember (Star r) as r0 eqn:Er. remember (String c s) as s0 eqn:Es.
  revert s Es.
  induction H as [ | f d Hd | r1 r2 u1 u2 H1 IH1 H2 IH2 | r1 r2 u H1 IH1 | r1 r2 u H1 IH1
                 | r' | r' u1 u2 H1 IH1 H2 IH2 ]; intros t Et; try discriminate.
  injection Er as ->. apply append_eq_cons in Et.
  destruct Et as [[-> ->]|(a' & -> & ->)].
  - apply IH2; reflexivity.
  - exists a', u2. auto.
Qed.

Lemma deriv_denotes (r : regex) (c : ascii) (s : string) :
  denotes (deriv c r) s <-> denotes r (String c s).
Proof.
  revert s. induction r as [| |f|r1 IH1 r2 IH2|r1 IH1 r2 IH2|r IH]; intros s; simpl.
  - split; intros H; destruct (denotes_void_inv _ H).
  - split; intros H; [destruct (denotes_void_inv _ H)|].
    apply denotes_eps_inv in H. discriminate.
  - destruct (f c) eqn:Hf; split; intros H.
    + apply denotes_eps_inv in H. subst s. constructor. exact Hf.
    + apply denotes_class_inv in H. destruct H as (d & [= -> ->] & _). constructor.
    + destruct (denotes_void_inv _ H).
    + apply denotes_class_inv in H. destruct H as (d & [= -> ->] & Hd). congruence.
  - assert (Hcat : denotes (Cat (deriv c r1) r2) s ->
                   denotes (Cat r1 r2) (String c s)).
    { intros H. apply denotes_cat_inv in H. destruct H as (s1 & s2 & -> & H1 & H2).
      apply IH1 in H1. rewrite <- append_cons. constructor; assumption. }
    assert (Hsplit : denotes (Cat r1 r2) (String c s) ->
                     denotes (Cat (deriv c r1) r2) s \/
                     (denotes r1 "" /\ denotes r2 (String c s))).
    { intros H. apply denotes_cat_inv in H. destruct H as (s1 & s2 & E & H1 & H2).
      symmetry in E. apply append_eq_cons in E. destruct E as [[-> ->]|(a' & -> & ->)].
      - right. auto.
      - left. constructor; [apply IH1; exact H1 | exact H2]. }
    destruct (nullable r1) eqn:Hn.
    + split.
      * intros H. apply denotes_alt_inv in H. destruct H as [H|H]; [apply Hcat; exact H|].
        change (String c s) with ("" +:+ String c s). constructor.
        -- apply nullable_denotes. exact Hn.
        -- apply IH2. exact H.
      * intros H. destruct (Hsplit H) as [H'|[_ H']];
          [apply d_alt_l; exact H' | apply d_alt_r, IH2; exact H'].
    + split; [exact Hcat|].
      intros H. destruct (Hsplit H) as [H'|[H' _]]; [exact H'|].
      apply nullable_denotes in H'. congruence.
  - split; intros H; apply denotes_alt_inv in H; destruct H as [H|H].
    + apply d_alt_l, IH1. exact H.
    + apply d_alt_r, IH2. exact H.
    + apply d_alt_l, IH1. exact H.
    + apply d_alt_r, IH2. exact H.
  - split.
    + intros H. apply denotes_cat_inv in H. destruct H as (s1 & s2 & -> & H1 & H2).
      rewrite <- append_cons. constructor; [apply IH; exact H1 | exact H2].
    + intros H. apply star_cons in H. destruct H as (s1 & s2 & -> & H1 & H2).
      constructor; [apply IH; exact H1 | exact H2].
Qed.

Lemma fullMatch_denotes (r : regex) (s : string) :
  fullMatch r s = true <-> denotes r s.
Proof.
  revert r. induction s as [|c s IH]; intros r; simpl.
  - apply nullable_denotes.
  - rewrite IH. apply deriv_denotes.
Qed.

End RegexpProofs.

(* ================================================================== *)
(** ** The skills loader *)
(* ================================================================== *)

Section ValidateProofs.

Lemma isValid_true info :
  isValid info = true <->
  String.eqb (Name info) "" = false /\
  (len (Name info) >? MaxNameLength) = false /\
  namePattern_MatchString (Name info) = true /\
  String.eqb (Description info) "" = false /\
  (len (Description info) >? MaxDescriptionLength) = false.
Proof.
  unfold isValid, validate.
  destruct (String.eqb (Name info) ""), (len (Name info) >? MaxNameLength),
    (namePattern_MatchString (Name info)), (String.eqb (Description info) ""),
    (len (Description info) >? MaxDescriptionLength); simpl; intuition congruence.
Qed.

(** [validate] reports an error exactly for malformed metadata. *)
Lemma isValid_false_malformed info : isValid info = false <-> malformed info.
Proof.
  unfold malformed. split.
  - intros H.
    destruct (String.eqb (Name info) "") eqn:E1; [left; apply String.eqb_eq; exact E1|].
    destruct (String.eqb (Description info) "") eqn:E2;
      [right; left; apply String.eqb_eq; exact E2|].
    destruct (len (Name info) >? MaxNameLength) eqn:E3;
      [right; right; left; unfold MaxNameLength in E3; lia|].
    destruct (len (Description info) >? MaxDescriptionLength) eqn:E4;
      [right; right; right; left; unfold MaxDescriptionLength in E4; lia|].
    destruct (namePattern_MatchString (Name info)) eqn:E5; [|tauto].
    assert (isValid info = true) by (apply isValid_true; auto). congruence.
  - intros H. destruct (isValid info) eqn:E; [|reflexivity].
    apply isValid_true in E. destruct E as (E1 & E3 & E5 & E2 & E4).
    apply String.eqb_neq in E1. apply String.eqb_neq in E2.
    unfold MaxNameLength in E3. unfold MaxDescriptionLength in E4.
    destruct H as [H|[H|[H|[H|H]]]]; try contradiction; try congruence; lia.
Qed.

Lemma isValid_validate info : isValid info = true <-> validate info = [].
Proof. unfold isValid. destruct (validate info); split; congruence. Qed.

End ValidateProofs.

Section FirstByNameProofs.

Lemma firstByName_ext (seen seen' : string -> bool) (l : list SkillInfo) :
  (forall n, seen n = seen' n) -> firstByName seen l = firstByName seen' l.
Proof.
  revert seen seen'. induction l as [|s l IH]; intros seen seen' H; [reflexivity|].
  simpl. rewrite (H (Name s)). destruct (seen' (Name s)); [apply IH; exact H|].
  f_equal. apply IH. intros n. rewrite H. reflexivity.
Qed.

Lemma firstByName_app (seen : string -> bool) (l1 l2 : list SkillInfo) :
  firstByName seen (l1 ++ l2) =
  firstByName seen l1 ++ firstByName (fun n => seen n || hasName l1 n) l2.
Proof.
  revert seen. induction l1 as [|s l1 IH]; intros seen.
  - simpl. apply firstByName_ext. intros n. rewrite orb_false_r. reflexivity.
  - cbn [app firstByName]. destruct (seen (Name s)) eqn:E.
    + rewrite IH. f_equal. apply firstByName_ext. intros n. unfold hasName. cbn [existsb].
      destruct (String.eqb n (Name s)) eqn:En; [|reflexivity].
      apply String.eqb_eq in En. subst n. rewrite E. reflexivity.
    + rewrite IH. cbn [app]. f_equal. f_equal. apply firstByName_ext. intros n.
      unfold hasName. cbn [existsb].
      destruct (String.eqb n (Name s)), (seen n); reflexivity.
Qed.

Lemma firstByName_incl (seen : string -> bool) (l : list SkillInfo) s :
  In s (firstByName seen l) -> In s l.
Proof.
  revert seen. induction l as [|x l IH]; intros seen H; [contradiction|].
  simpl in H. destruct (seen (Name x)).
  - right. eapply IH. exact H.
  - destruct H as [->|H]; [left; reflexivity | right; eapply IH; exact H].
Qed.

(** Every name of the list that was not seen before is listed. *)
Lemma firstByName_names (seen : string -> bool) (l : list SkillInfo) x :
  In x l -> seen (Name x) = false ->
  exists s, In s (firstByName seen l) /\ Name s = Name x.
Proof.
  revert seen. induction l as [|y l IH]; intros seen Hin Hs; [contradiction|].
  simpl. destruct Hin as [->|Hin].
  - rewrite Hs. exists x. split; [left; reflexivity | reflexivity].
  - destruct (seen (Name y)) eqn:Ey; [apply IH; assumption|].
    destruct (String.eqb (Name x) (Name y)) eqn:Exy.
    + apply String.eqb_eq in Exy. exists y. split; [left; reflexivity | congruence].
    + destruct (IH (fun n => String.eqb n (Name y) || seen n) Hin) as (s & Hs1 & Hs2).
      * rewrite Exy, Hs. reflexivity.
      * exists s. split; [right; exact Hs1 | exact Hs2].
Qed.

End FirstByNameProofs.

Section ListSkillsProofs.

Variable lib : GoLib.
Variable w : World.

Lemma candidates_cons dir source d dirs :
  candidates lib w dir source (d :: dirs) =
    if isSkillDir lib w dir d
    then candidateInfo lib w dir source d :: candidates lib w dir source dirs
    else candidates lib w dir source dirs.
Proof. unfold candidates. simpl. destruct (isSkillDir lib w dir d); reflexivity. Qed.

(** The loop appends the valid candidates whose name is new, and keeps
    [seen] up to date. *)
Lemma addSkillsLoop_value dir source dirs (seen : gmap string bool)
    (seenf : string -> bool) :
  (forall n, default false (seen !! n) = seenf n) ->
  exists seen',
    (forall skills,
       value (addSkillsLoop lib w dir source dirs (skills, seen)) =
         (skills ++ firstByName seenf (List.filter isValid (candidates lib w dir source dirs)),
          seen')) /\
    forall n, default false (seen' !! n) =
              seenf n || hasName (List.filter isValid (candidates lib w dir source dirs)) n.
Proof.
  revert seen seenf.
  induction dirs as [|d dirs IH]; intros seen seenf Hseen.
  - exists seen. split; [intros skills; simpl; rewrite app_nil_r; reflexivity|].
    intros n. rewrite Hseen, orb_false_r. reflexivity.
  - cbn [addSkillsLoop]. rewrite candidates_cons. unfold isSkillDir.
    destruct (de_IsDir d); cbn [negb andb]; [|apply IH; exact Hseen].
    unfold Stat.
    destruct (os_Stat w (filepath_Join lib [dir; de_Name d; "SKILL.md"])) as [fi|] eqn:Hstat;
      cbn [isSome].
    2:{ destruct (IH seen seenf Hseen) as (seen' & Hloop & Hseen').
        exists seen'. split; [|exact Hseen']. intros skills.
        rewrite value_bind, value_tell_bind. cbn [value ret fst]. apply Hloop. }
    set (info := candidateInfo lib w dir source d).
    assert (Hinfo :
      match value (getSkillMetadata lib w (filepath_Join lib [dir; de_Name d; "SKILL.md"])) with
      | Some md => mkSkillInfo (md_Name md)
                     (Path (mkSkillInfo (de_Name d)
                              (filepath_Join lib [dir; de_Name d; "SKILL.md"]) source ""))
                     (Source (mkSkillInfo (de_Name d)
                                (filepath_Join lib [dir; de_Name d; "SKILL.md"]) source ""))
                     (md_Description md)
      | None => mkSkillInfo (de_Name d) (filepath_Join lib [dir; de_Name d; "SKILL.md"]) source ""
      end = info) by reflexivity.
    cbn [List.filter].
    destruct (validate info) as [|e errs] eqn:Hv;
      [assert (Hval : isValid info = true) by (unfold isValid; rewrite Hv; reflexivity)
      |assert (Hval : isValid info = false) by (unfold isValid; rewrite Hv; reflexivity)];
      rewrite Hval.
    + destruct (default false (seen !! Name info)) eqn:Hs.
      * cbn [firstByName]. rewrite <- Hseen, Hs.
        destruct (IH seen seenf Hseen) as (seen' & Hloop & Hseen').
        exists seen'. split.
        -- intros skills. rewrite value_bind, value_tell_bind. cbn [value ret fst].
           rewrite value_bind, Hinfo, Hv, Hs. apply Hloop.
        -- intros n. rewrite Hseen'. unfold hasName. cbn [existsb].
           destruct (String.eqb n (Name info)) eqn:En; [|reflexivity].
           apply String.eqb_eq in En. subst n. rewrite <- Hseen, Hs. reflexivity.
      * cbn [firstByName]. rewrite <- Hseen, Hs.
        destruct (IH (<[Name info := true]> seen)
                     (fun n => String.eqb n (Name info) || seenf n)) as (seen' & Hloop & Hseen').
        { intros n. destruct (String.eqb n (Name info)) eqn:En.
          - apply String.eqb_eq in En. subst n. rewrite lookup_insert_eq. reflexivity.
          - apply String.eqb_neq in En. rewrite lookup_insert_ne by congruence.
            rewrite Hseen. reflexivity. }
        exists seen'. split.
        -- intros skills. rewrite value_bind, value_tell_bind. cbn [value ret fst].
           rewrite value_bind, Hinfo, Hv, Hs, Hloop, <- app_assoc. reflexivity.
        -- intros n. rewrite Hseen'. unfold hasName. cbn [existsb].
           destruct (String.eqb n (Name info)), (seenf n); reflexivity.
    + destruct (IH seen seenf Hseen) as (seen' & Hloop & Hseen').
      exists seen'. split; [|exact Hseen']. intros skills.
      rewrite value_bind, value_tell_bind. cbn [value ret fst].
      rewrite value_bind, Hinfo, Hv, value_bind. apply Hloop.
Qed.

Lemma getSkillMetadata_no_slog path :
  List.filter isSlogWarning (trace (getSkillMetadata lib w path)) = [].
Proof.
  unfold getSkillMetadata, ReadFile, WarnCF, bind, tell, ret, trace.
  destruct (os_ReadFile w path) as [content|]; cbn [snd fst app]; [|reflexivity].
  destruct (String.eqb (extractFrontmatter lib content) ""); [reflexivity|].
  destruct (json_Unmarshal lib (extractFrontmatter lib content)) as [[n d]|]; reflexivity.
Qed.

Lemma filter_app_bool {A} (f : A -> bool) (l1 l2 : list A) :
  List.filter f (l1 ++ l2) = List.filter f l1 ++ List.filter f l2.
Proof. induction l1 as [|a l1 IH]; simpl; [reflexivity|]. destruct (f a); simpl; congruence. Qed.

(** One warning per invalid candidate, in order. *)
Lemma addSkillsLoop_warnings dir source dirs st :
  List.filter isSlogWarning (trace (addSkillsLoop lib w dir source dirs st)) =
    map (fun _ => invalidSkillWarning source)
        (List.filter (fun c => negb (isValid c)) (candidates lib w dir source dirs)).
Proof.
  revert st. induction dirs as [|d dirs IH]; intros st; [reflexivity|].
  cbn [addSkillsLoop]. rewrite candidates_cons. unfold isSkillDir.
  destruct (de_IsDir d); cbn [negb andb]; [|apply IH].
  unfold Stat. rewrite trace_bind, trace_tell_bind, value_tell_bind.
  cbn [value ret fst trace snd app List.filter isSlogWarning].
  destruct (os_Stat w (filepath_Join lib [dir; de_Name d; "SKILL.md"])) as [fi|];
    cbn [isSome]; [|apply IH].
  rewrite trace_bind, filter_app_bool, getSkillMetadata_no_slog. cbn [app].
  set (info := candidateInfo lib w dir source d).
  assert (Hinfo :
    match value (getSkillMetadata lib w (filepath_Join lib [dir; de_Name d; "SKILL.md"])) with
    | Some md => mkSkillInfo (md_Name md)
                   (Path (mkSkillInfo (de_Name d)
                            (filepath_Join lib [dir; de_Name d; "SKILL.md"]) source ""))
                   (Source (mkSkillInfo (de_Name d)
                              (filepath_Join lib [dir; de_Name d; "SKILL.md"]) source ""))
                   (md_Description md)
    | None => mkSkillInfo (de_Name d) (filepath_Join lib [dir; de_Name d; "SKILL.md"]) source ""
    end = info) by reflexivity.
  rewrite Hinfo. cbn [List.filter].
  destruct (validate info) as [|e errs] eqn:Hv;
    [assert (Hval : isValid info = true) by (unfold isValid; rewrite Hv; reflexivity)
    |assert (Hval : isValid info = false) by (unfold isValid; rewrite Hv; reflexivity)];
    rewrite Hval; cbn [negb].
  - destruct st as [skills seen].
    destruct (default false (seen !! Name info)); apply IH.
  - unfold slog_Warn. rewrite trace_tell_bind. cbn [List.filter isSlogWarning].
    rewrite String.eqb_refl. cbn [andb map]. f_equal. apply IH.
Qed.

Lemma addSkills_value dir source (seen : gmap string bool) (seenf : string -> bool) :
  (forall n, default false (seen !! n) = seenf n) ->
  exists seen',
    (forall skills,
       value (addSkills lib w dir source (skills, seen)) =
         (skills ++ firstByName seenf (List.filter isValid (discoveredIn lib w dir source)),
          seen')) /\
    forall n, default false (seen' !! n) =
              seenf n || hasName (List.filter isValid (discoveredIn lib w dir source)) n.
Proof.
  intros Hseen. unfold addSkills, discoveredIn.
  destruct (String.eqb dir "").
  { exists seen. split; [intros skills; simpl; rewrite app_nil_r; reflexivity|].
    intros n. rewrite Hseen, orb_false_r. reflexivity. }
  unfold ReadDir.
  destruct (os_ReadDir w dir) as [dirs|].
  - destruct (addSkillsLoop_value dir source dirs seen seenf Hseen) as (seen' & Hloop & Hseen').
    exists seen'. split; [|exact Hseen']. intros skills.
    rewrite value_bind, value_tell_bind. cbn [value ret fst]. apply Hloop.
  - exists seen. split; [intros skills; simpl; rewrite app_nil_r; reflexivity|].
    intros n. rewrite Hseen, orb_false_r. reflexivity.
Qed.

Lemma addSkills_warnings dir source st :
  List.filter isSlogWarning (trace (addSkills lib w dir source st)) =
    map (fun _ => invalidSkillWarning source)
        (List.filter (fun c => negb (isValid c)) (discoveredIn lib w dir source)).
Proof.
  unfold addSkills, discoveredIn. destruct (String.eqb dir ""); [reflexivity|].
  unfold ReadDir. rewrite trace_bind, trace_tell_bind, value_tell_bind.
  cbn [value ret fst trace snd app List.filter isSlogWarning].
  destruct (os_ReadDir w dir) as [dirs|]; [|reflexivity].
  apply addSkillsLoop_warnings.
Qed.

(** [ListSkills] lists, of the valid discovered skills, the first of
    every name. *)
Lemma ListSkills_value sl :
  value (ListSkills lib w sl) =
    firstByName (fun _ => false) (List.filter isValid (discovered lib w sl)).
Proof.
  unfold ListSkills, discovered.
  destruct (addSkills_value (workspaceSkills sl) "workspace" ∅ (fun _ => false))
    as (seen1 & Hv1 & Hs1); [intros n; rewrite lookup_empty; reflexivity|].
  destruct (addSkills_value (globalSkills sl) "global" seen1 _ Hs1) as (seen2 & Hv2 & Hs2).
  destruct (addSkills_value (builtinSkills sl) "builtin" seen2 _ Hs2) as (seen3 & Hv3 & Hs3).
  rewrite value_bind, Hv1, value_bind, Hv2, value_bind, Hv3. cbn [value ret fst app].
  rewrite !filter_app_bool, !firstByName_app, <- ?app_assoc. reflexivity.
Qed.

Lemma ListSkills_warnings sl :
  List.filter isSlogWarning (trace (ListSkills lib w sl)) =
    map (fun c => invalidSkillWarning (Source c))
        (List.filter (fun c => negb (isValid c)) (discovered lib w sl)).
Proof.
  unfold ListSkills, discovered.
  rewrite !trace_bind, !filter_app_bool, !addSkills_warnings. cbn [trace ret snd].
  rewrite !map_app. cbn [List.filter]. rewrite app_nil_r.
  assert (Hsrc : forall dir source,
    map (fun _ : SkillInfo => invalidSkillWarning source)
        (List.filter (fun c => negb (isValid c)) (discoveredIn lib w dir source)) =
    map (fun c => invalidSkillWarning (Source c))
        (List.filter (fun c => negb (isValid c)) (discoveredIn lib w dir source))).
  { intros dir source. apply map_ext_in. intros c Hc. apply filter_In in Hc.
    destruct Hc as [Hc _]. unfold discoveredIn in Hc.
    destruct (String.eqb dir ""); [contradiction|].
    destruct (os_ReadDir w dir) as [dirs|]; [|contradiction].
    apply in_map_iff in Hc. destruct Hc as (d & <- & _). unfold candidateInfo.
    destruct (value (getSkillMetadata lib w _)); reflexivity. }
  rewrite !Hsrc, <- ?app_assoc. reflexivity.
Qed.

End ListSkillsProofs.

Section ListSkillsFacts.

Variable lib : GoLib.
Variable w : World.

Lemma listed_valid sl s :
  In s (value (ListSkills lib w sl)) ->
  In s (discovered lib w sl) /\ isValid s = true.
Proof.
  rewrite ListSkills_value. intros H. apply firstByName_incl in H.
  apply filter_In in H. exact H.
Qed.

Lemma malformed_not_listed sl info :
  malformed info -> ~ In info (value (ListSkills lib w sl)).
Proof.
  intros Hm Hin. apply listed_valid in Hin. destruct Hin as [_ Hv].
  apply isValid_false_malformed in Hm. congruence.
Qed.

Lemma malformed_warned sl info :
  In info (discovered lib w sl) -> malformed info ->
  In (invalidSkillWarning (Source info)) (trace (ListSkills lib w sl)).
Proof.
  intros Hin Hm.
  assert (H : In (invalidSkillWarning (Source info))
                (List.filter isSlogWarning (trace (ListSkills lib w sl)))).
  { rewrite ListSkills_warnings. apply in_map_iff. exists info. split; [reflexivity|].
    apply filter_In. split; [exact Hin|].
    apply isValid_false_malformed in Hm. rewrite Hm. reflexivity. }
  apply filter_In in H. tauto.
Qed.

Lemma wellformed_listed sl info :
  In info (discovered lib w sl) -> ~ malformed info ->
  exists s, In s (value (ListSkills lib w sl)) /\ Name s = Name info.
Proof.
  intros Hin Hm. rewrite ListSkills_value.
  apply firstByName_names; [|reflexivity].
  apply filter_In. split; [exact Hin|].
  destruct (isValid info) eqn:E; [reflexivity|].
  apply isValid_false_malformed in E. contradiction.
Qed.

Lemma BuildSkillsSummary_value sl :
  value (BuildSkillsSummary lib w sl) = renderSkills (value (ListSkills lib w sl)).
Proof. unfold BuildSkillsSummary. rewrite value_bind. reflexivity. Qed.

End ListSkillsFacts.

(* ================================================================== *)
(** ** The tests of the repository, replayed *)
(* ================================================================== *)

Section ReplayedTests.

Import Demo.

Example test_sanitize_empty : value (sanitizeHistoryForProvider []) = [].
Proof. reflexivity. Qed.

Example test_sanitize_single_tool_call :
  roles (value (sanitizeHistoryForProvider
    [ plainMessage "user" "hello"; assistantWithTools ["A"]; toolResult "A";
      plainMessage "assistant" "done" ]))
  = ["user"; "assistant"; "tool"; "assistant"].
Proof. reflexivity. Qed.

Example test_sanitize_multi_tool_calls :
  roles (value (sanitizeHistoryForProvider
    [ plainMessage "user" "do two things"; assistantWithTools ["A"; "B"];
      toolResult "A"; toolResult "B"; plainMessage "assistant" "both done" ]))
  = ["user"; "assistant"; "tool"; "tool"; "assistant"].
Proof. reflexivity. Qed.

Example test_sanitize_tool_call_after_plain_assistant :
  roles (value (sanitizeHistoryForProvider
    [ plainMessage "user" "hi"; plainMessage "assistant" "thinking";
      assistantWithTools ["A"]; toolResult "A" ]))
  = ["user"; "assistant"].
Proof. reflexivity. Qed.

Example test_sanitize_orphaned_leading_tool :
  roles (value (sanitizeHistoryForProvider [toolResult "A"; plainMessage "user" "hello"]))
  = ["user"].
Proof. reflexivity. Qed.

Example test_sanitize_tool_after_user :
  roles (value (sanitizeHistoryForProvider [plainMessage "user" "hello"; toolResult "A"]))
  = ["user"].
Proof. reflexivity. Qed.

Example test_sanitize_tool_call_at_start :
  roles (value (sanitizeHistoryForProvider
    [assistantWithTools ["A"]; toolResult "A"; plainMessage "user" "hello"]))
  = ["user"].
Proof. reflexivity. Qed.

Example test_sanitize_consecutive_rounds :
  roles (value (sanitizeHistoryForProvider
    [ plainMessage "user" "start"; assistantWithTools ["A"; "B"]; toolResult "A";
      toolResult "B"; assistantWithTools ["C"; "D"]; toolResult "C"; toolResult "D";
      plainMessage "assistant" "all done" ]))
  = ["user"; "assistant"; "tool"; "tool"; "assistant"; "tool"; "tool"; "assistant"].
Proof. reflexivity. Qed.

(** TestEmptyWorkspaceBaselineDetectsNewFiles: the cache built on an
    empty workspace has the sentinel as baseline, and a file created
    afterwards is detected and shows in the rebuilt prompt. *)
Example test_empty_workspace_baseline :
  let cb := snd (value (BuildSystemPromptWithCache lib freshWorld
                          (NewContextBuilder lib freshWorld "ws"))) in
  value (sourceFilesChangedLocked lib freshWorld cb) = false /\
  value (sourceFilesChangedLocked lib soulWorld cb) = true /\
  strings_Contains (fst (value (BuildSystemPromptWithCache lib soulWorld cb)))
    "Newly created" = true.
Proof. vm_compute. auto. Qed.

(** TestSkillFileContentChange: an edit below the skills directory that
    leaves the mtime of the directory alone is detected. *)
Example test_skill_file_content_change :
  value (sourceFilesChangedLocked lib skillWorldBefore builtBefore) = false /\
  value (sourceFilesChangedLocked lib skillWorld builtBefore) = true.
Proof. vm_compute. auto. Qed.

(** TestCacheStability: five calls, one string, without the time. *)
Example test_cache_stability :
  let outs := promptCalls lib [skillWorld; skillWorld; skillWorld; skillWorld; skillWorld]
                (NewContextBuilder lib skillWorld "ws") in
  Forall (fun p => Some p = head outs) outs /\
  Forall (fun p => strings_Contains p "Current Time" = false) outs.
Proof. vm_compute. split; repeat constructor. Qed.

Example test_name_pattern :
  map namePattern_MatchString
    ["github"; "my-skill"; "A1-b2-C3"; ""; "-a"; "a-"; "a--b"; "a_b"; "a b"]
  = [true; true; true; false; false; false; false; false; false].
Proof. reflexivity. Qed.

End ReplayedTests.

(* ================================================================== *)
(** * Further properties *)
(* ================================================================== *)

(** ** The sanitizer: fixed points and pairing *)

Section SanitizerMore.

Lemma sanitizeRules_wellPaired (history acc : list Message) :
  exists out, sanitizeRules acc history = acc ++ out /\ wellPairedFrom acc out = true.
Proof.
  revert acc. induction history as [|m rest IH]; intros acc.
  - exists []. simpl. rewrite app_nil_r. auto.
  - simpl. destruct (keptBy acc m) eqn:Hk.
    + destruct (IH (acc ++ [m])) as (out & Hout & Hwp).
      exists (m :: out). split.
      * rewrite Hout, <- app_assoc. reflexivity.
      * simpl. rewrite Hk, Hwp. reflexivity.
    + apply IH.
Qed.

Lemma wellPairedFrom_fixed (l acc : list Message) :
  wellPairedFrom acc l = true -> sanitizeRules acc l = acc ++ l.
Proof.
  revert acc. induction l as [|m rest IH]; intros acc H.
  - simpl. rewrite app_nil_r. reflexivity.
  - simpl in H. apply andb_true_iff in H. destruct H as [Hk Hrest].
    simpl. rewrite Hk, (IH _ Hrest), <- app_assoc. reflexivity.
Qed.

Lemma sanitize_wellPaired (history : list Message) :
  wellPaired (value (sanitizeHistoryForProvider history)) = true.
Proof.
  rewrite sanitize_rules. destruct (sanitizeRules_wellPaired history []) as (out & -> & H).
  exact H.
Qed.

Lemma wellPaired_unchanged (l : list Message) :
  wellPaired l = true -> value (sanitizeHistoryForProvider l) = l.
Proof. intros H. rewrite sanitize_rules. apply (wellPairedFrom_fixed l [] H). Qed.

Lemma unchanged_wellPaired (l : list Message) :
  value (sanitizeHistoryForProvider l) = l -> wellPaired l = true.
Proof. intros H. rewrite <- H. apply sanitize_wellPaired. Qed.

Lemma wellPairedFrom_app (acc l1 l2 : list Message) :
  wellPairedFrom acc (l1 ++ l2) = wellPairedFrom acc l1 && wellPairedFrom (acc ++ l1) l2.
Proof.
  revert acc. induction l1 as [|m l1 IH]; intros acc.
  - simpl. rewrite app_nil_r. reflexivity.
  - simpl. rewrite IH, <- app_assoc, andb_assoc. reflexivity.
Qed.

Lemma wellPaired_at (pre : list Message) (m : Message) (post : list Message) :
  wellPaired (pre ++ m :: post) = true -> keptBy pre m = true.
Proof.
  unfold wellPaired. rewrite wellPairedFrom_app. simpl.
  intros H. apply andb_true_iff in H. destruct H as [_ H].
  apply andb_true_iff in H. tauto.
Qed.

Lemma nearestNonTool_snoc (acc : list Message) (p : Message) :
  nearestNonTool (acc ++ [p]) = if isRole "tool" p then nearestNonTool acc else Some p.
Proof.
  unfold nearestNonTool. rewrite rev_app_distr. simpl.
  destruct (isRole "tool" p); reflexivity.
Qed.

(** What a kept message says about the message right before it. *)
Lemma keptBy_predecessor (acc : list Message) (p m : Message) :
  keptBy (acc ++ [p]) m = true ->
  (Role m = "tool" -> Role p = "tool" \/ (Role p = "assistant" /\ ToolCalls p <> [])) /\
  (Role m = "assistant" -> ToolCalls m <> [] -> Role p = "user" \/ Role p = "tool").
Proof.
  intros Hk. split.
  - intros Hm. unfold keptBy in Hk.
    assert (Hs : isRole "system" m = false) by (apply isRole_false; rewrite Hm; discriminate).
    apply isRole_true in Hm. rewrite Hs, Hm in Hk.
    destruct (acc ++ [p]) as [|a l] eqn:E; [discriminate|]. rewrite <- E in Hk.
    rewrite nearestNonTool_snoc in Hk.
    destruct (isRole "tool" p) eqn:Hp; [left; apply isRole_true; exact Hp|].
    apply andb_true_iff in Hk. destruct Hk as [Ha Ht].
    right. split; [apply isRole_true; exact Ha | apply hasToolCalls_true; exact Ht].
  - intros Hm Ht. unfold keptBy in Hk.
    assert (Hs : isRole "system" m = false) by (apply isRole_false; rewrite Hm; discriminate).
    assert (Hto : isRole "tool" m = false) by (apply isRole_false; rewrite Hm; discriminate).
    apply isRole_true in Hm. apply hasToolCalls_true in Ht.
    rewrite Hs, Hto, Hm, Ht, last_snoc in Hk. simpl in Hk.
    apply orb_true_iff in Hk. rewrite !isRole_true in Hk. exact Hk.
Qed.

Lemma keptBy_first (m : Message) :
  keptBy [] m = true ->
  Role m <> "system" /\ Role m <> "tool" /\ (Role m = "assistant" -> ToolCalls m = []).
Proof.
  unfold keptBy. intros H.
  destruct (isRole "system" m) eqn:Hs; [discriminate|].
  destruct (isRole "tool" m) eqn:Ht; [discriminate|].
  apply isRole_false in Hs. apply isRole_false in Ht.
  split; [exact Hs|]. split; [exact Ht|]. intros Ha. apply isRole_true in Ha.
  rewrite Ha in H. simpl in H. destruct (hasToolCalls m) eqn:Hc; [discriminate|].
  unfold hasToolCalls in Hc. destruct (ToolCalls m); [reflexivity | discriminate].
Qed.

Lemma sanitizeRules_app (l1 l2 acc : list Message) :
  sanitizeRules acc (l1 ++ l2) = sanitizeRules (sanitizeRules acc l1) l2.
Proof.
  revert acc. induction l1 as [|m l1 IH]; intros acc; [reflexivity|].
  simpl. apply IH.
Qed.

(** One iteration either keeps the message and logs nothing, or drops it
    and logs one line. *)
Lemma sanitizeStep_logs (acc : list Message) (msg : Message) :
  (keptBy acc msg = true /\ trace (sanitizeStep acc msg) = []) \/
  (keptBy acc msg = false /\ exists text, trace (sanitizeStep acc msg) = [EvLog "DEBUG" "agent" text]).
Proof.
  unfold sanitizeStep, keptBy, isRole.
  destruct (String.eqb (Role msg) "system") eqn:Es; [right; split; [reflexivity | eexists; reflexivity]|].
  destruct (String.eqb (Role msg) "tool") eqn:Et.
  - destruct acc as [|a acc']; [right; split; [reflexivity | eexists; reflexivity]|].
    change (length (a :: acc') =? 0)%nat with false. cbv iota.
    rewrite scanBack_nearest.
    destruct (nearestNonTool (a :: acc')) as [m|];
      [|right; split; [reflexivity | eexists; reflexivity]].
    unfold isRole. destruct (String.eqb (Role m) "assistant" && hasToolCalls m);
      [left; split; reflexivity | right; split; [reflexivity | eexists; reflexivity]].
  - destruct (String.eqb (Role msg) "assistant") eqn:Ea; [|left; split; reflexivity].
    rewrite hasToolCalls_length. simpl.
    destruct (hasToolCalls msg); [|left; split; reflexivity].
    destruct acc as [|a acc']; [right; split; [reflexivity | eexists; reflexivity]|].
    change (length (a :: acc') =? 0)%nat with false. cbv iota.
    rewrite last_index.
    destruct (last (a :: acc')) as [prev|] eqn:El.
    + destruct (String.eqb (Role prev) "user"), (String.eqb (Role prev) "tool");
        simpl; first [left; split; reflexivity | right; split; [reflexivity | eexists; reflexivity]].
    + apply last_None in El. discriminate.
Qed.

Lemma sanitizeLoop_accounts (history acc : list Message) :
  (length (value (sanitizeLoop history acc)) + length (trace (sanitizeLoop history acc))
   = length acc + length history)%nat.
Proof.
  revert acc. induction history as [|m rest IH]; intros acc.
  - simpl. lia.
  - cbn [sanitizeLoop]. rewrite value_bind, trace_bind, length_app.
    specialize (IH (value (sanitizeStep acc m))). rewrite sanitizeStep_keptBy in *.
    destruct (sanitizeStep_logs acc m) as [[Hk Ht]|[Hk (text & Ht)]];
      rewrite Hk in *; rewrite Ht; rewrite ?length_app in IH; simpl in *; lia.
Qed.

End SanitizerMore.

Lemma sanitizeLoop_debug_only (history acc : list Message) :
  Forall (fun e => exists text, e = EvLog "DEBUG" "agent" text)
         (trace (sanitizeLoop history acc)).
Proof.
  revert acc. induction history as [|m rest IH]; intros acc; [constructor|].
  cbn [sanitizeLoop]. rewrite trace_bind. apply Forall_app. split; [|apply IH].
  destruct (sanitizeStep_logs acc m) as [[_ Ht]|[_ (text & Ht)]]; rewrite Ht.
  - constructor.
  - constructor; [eexists; reflexivity | constructor].
Qed.

(** ** The composer and the helpers that extend a history *)

Section ComposerMore.

Variable lib : GoLib.
Variable w : World.

(** A tool result that follows a plain assistant message is dropped. *)
Lemma sanitize_drops_result_after_plain (messages : list Message) (a t : Message) :
  Role a = "assistant" -> ToolCalls a = [] -> Role t = "tool" ->
  value (sanitizeHistoryForProvider (messages ++ [a] ++ [t])) =
  value (sanitizeHistoryForProvider (messages ++ [a])).
Proof.
  intros Ha Hc Ht. rewrite !sanitize_rules, !sanitizeRules_app.
  set (A := sanitizeRules [] messages).
  assert (Hka : keptBy A a = true).
  { apply keptBy_other; [rewrite Ha; discriminate | rewrite Ha; discriminate | auto]. }
  cbn [sanitizeRules]. rewrite Hka.
  assert (Hkt : keptBy (A ++ [a]) t = false).
  { unfold keptBy.
    assert (Hs : isRole "system" t = false) by (apply isRole_false; rewrite Ht; discriminate).
    apply isRole_true in Ht. rewrite Hs, Ht.
    destruct (A ++ [a]) as [|x l] eqn:E; [reflexivity|]. rewrite <- E.
    rewrite nearestNonTool_snoc.
    assert (Hat : isRole "tool" a = false) by (apply isRole_false; rewrite Ha; discriminate).
    rewrite Hat. unfold hasToolCalls. rewrite Hc. apply andb_false_r. }
  rewrite Hkt. reflexivity.
Qed.

Lemma prefix_append (a b : string) : String.prefix a (a +:+ b) = true.
Proof.
  induction a as [|c a IH]; [destruct b; reflexivity|].
  rewrite append_cons. simpl. destruct (ascii_dec c c); [exact IH | contradiction].
Qed.

Lemma Contains_here (m b : string) : strings_Contains (m +:+ b) m = true.
Proof. apply prefix_Contains, prefix_append. Qed.

Lemma Contains_after (a s m : string) :
  strings_Contains s m = true -> strings_Contains (a +:+ s) m = true.
Proof.
  intros H. induction a as [|c a IH]; [exact H|].
  rewrite append_cons. apply Contains_tail. exact IH.
Qed.

Lemma Contains_before (s b m : string) :
  strings_Contains s m = true -> strings_Contains (s +:+ b) m = true.
Proof.
  induction s as [|c s IH]; intros H.
  - rewrite Contains_nil_l in H. destruct m; [|discriminate].
    destruct b; reflexivity.
  - rewrite Contains_cons in H. rewrite append_cons, Contains_cons.
    apply orb_true_iff in H. destruct H as [H|H].
    + apply orb_true_iff. left. clear IH. revert c s H.
      induction m as [|m0 m IHm]; intros c s H; [reflexivity|].
      simpl in H. simpl. destruct (ascii_dec m0 c); [|discriminate].
      destruct s as [|d s].
      * destruct m; [destruct b; reflexivity | discriminate].
      * rewrite append_cons. apply IHm. exact H.
    + rewrite (IH H). apply orb_true_r.
Qed.

(** The flat text of the system message, written out. *)
Lemma systemText (staticPrompt dynamicCtx summary : string) :
  strings_Join (map Text (systemBlocks staticPrompt dynamicCtx summary)) partSeparator =
    staticPrompt +:+ partSeparator +:+ dynamicCtx +:+
    (if String.eqb summary "" then ""
     else partSeparator +:+ summaryPrefix +:+ summary).
Proof.
  unfold systemBlocks, strings_Join. destruct (String.eqb summary ""); simpl.
  - rewrite append_nil_r. reflexivity.
  - reflexivity.
Qed.

Lemma buildDynamicContext_value channel chatID :
  exists rest,
    value (buildDynamicContext lib w channel chatID) =
      timeMarker +:+ nl +:+ nowFormatted w +:+ rest.
Proof.
  unfold buildDynamicContext. rewrite value_tell_bind. cbv zeta.
  destruct (negb (String.eqb channel "") && negb (String.eqb chatID ""));
    cbn [value ret fst]; rewrite ?append_assoc; eexists; reflexivity.
Qed.

End ComposerMore.

(** ** The cache controller: hits, misses and what they cost *)

Section ControllerMore.

Variable lib : GoLib.

Lemma isFresh_cached w cb : isFresh lib w cb = true -> cachedSystemPrompt cb <> "".
Proof.
  unfold isFresh. intros H. apply andb_true_iff in H. destruct H as [H _].
  apply negb_true_iff, String.eqb_neq in H. exact H.
Qed.

Lemma getter_nonempty w cb :
  fst (value (BuildSystemPromptWithCache lib w cb)) <> "".
Proof.
  rewrite getter_value. destruct (isFresh lib w cb) eqn:E; cbn [fst].
  - eapply isFresh_cached. exact E.
  - apply String.eqb_neq. apply BuildSystemPrompt_nonempty.
Qed.

Lemma getter_coherent w cb :
  cachedSystemPrompt (snd (value (BuildSystemPromptWithCache lib w cb))) =
  fst (value (BuildSystemPromptWithCache lib w cb)).
Proof. rewrite getter_value. destruct (isFresh lib w cb); reflexivity. Qed.

Lemma watchedPaths_nonempty cb : exists p rest, watchedPaths lib cb = p :: rest.
Proof. unfold watchedPaths, sourcePaths. eexists _, _. reflexivity. Qed.

(** A fresh cache has an existence map, a non-zero build time, and sees
    no change anywhere. *)
Lemma isFresh_parts w cb :
  isFresh lib w cb = true ->
  IsZero (cachedAt cb) = false /\
  (exists m, existedAtCache cb = Some m) /\
  Forall (fun q => value (fileChangedSince w cb q) = false) (watchedPaths lib cb) /\
  Forall (fun b => isNewerFile w (cachedAt cb) b = false) (walk w (skillsDirOf lib cb)).
Proof.
  unfold isFresh. intros H. apply andb_true_iff in H. destruct H as [_ H].
  apply negb_true_iff in H. rewrite changed_value in H.
  apply orb_false_iff in H. destruct H as [H Hwalk].
  apply orb_false_iff in H. destruct H as [Hz Hfiles].
  assert (Hall : Forall (fun q => value (fileChangedSince w cb q) = false) (watchedPaths lib cb)).
  { apply Forall_forall. intros q Hq. destruct (value (fileChangedSince w cb q)) eqn:E; [|reflexivity].
    assert (existsb (fun p => value (fileChangedSince w cb p)) (watchedPaths lib cb) = true);
      [|congruence].
    apply existsb_exists. exists q. split; [apply list_elem_of_In; exact Hq | exact E]. }
  split; [exact Hz|]. split; [|split; [exact Hall|]].
  - destruct (existedAtCache cb) as [m|] eqn:E; [eauto|].
    destruct (watchedPaths_nonempty cb) as (p & rest & Hp). rewrite Hp in Hall.
    inversion Hall as [|? ? Hc _]; subst.
    rewrite (fileChangedSince_nil w cb p E) in Hc. discriminate.
  - apply Forall_forall. intros b Hb. destruct (isNewerFile w (cachedAt cb) b) eqn:E; [|reflexivity].
    assert (existsb (isNewerFile w (cachedAt cb)) (walk w (skillsDirOf lib cb)) = true);
      [|congruence].
    apply existsb_exists. exists b. split; [apply list_elem_of_In; exact Hb | exact E].
Qed.

Lemma checkEvents_stats w cb m (paths : list string) :
  existedAtCache cb = Some m -> checkEvents w cb paths = map EvStat paths.
Proof.
  intros H. unfold checkEvents. induction paths as [|p rest IH]; [reflexivity|].
  simpl. rewrite (fileChangedSince_trace w cb p m H), IH. reflexivity.
Qed.

(** The run of the detector when nothing changed. *)
Lemma unchanged_run w cb :
  isFresh lib w cb = true ->
  sourceFilesChangedLocked lib w cb =
    (false, map EvStat (watchedPaths lib cb) ++
            EvWalkDir (skillsDirOf lib cb) ::
            flat_map visitEvents (walk w (skillsDirOf lib cb))).
Proof.
  intros H. destruct (isFresh_parts w cb H) as (Hz & (m & Hm) & Hall & Hwalk).
  rewrite (changed_by_walk lib w cb Hz Hall), (skillFiles_none w _ _ Hwalk).
  cbn [value trace fst snd]. fold (watchedPaths lib cb).
  rewrite (checkEvents_stats w cb m _ Hm). reflexivity.
Qed.

Lemma getter_hit w cb :
  isFresh lib w cb = true ->
  BuildSystemPromptWithCache lib w cb =
    ((cachedSystemPrompt cb, cb),
     map EvStat (watchedPaths lib cb) ++
     EvWalkDir (skillsDirOf lib cb) :: flat_map visitEvents (walk w (skillsDirOf lib cb))).
Proof.
  intros H. unfold BuildSystemPromptWithCache, cacheIsFresh.
  pose proof (isFresh_cached w cb H) as Hne. apply String.eqb_neq in Hne. rewrite Hne.
  cbn [negb]. rewrite (unchanged_run w cb H). unfold bind, ret. cbn [negb].
  rewrite !app_nil_r. reflexivity.
Qed.

(** After a rebuild in [w0], what makes the cache stale in [w]. *)
Lemma rebuilt_stale_existence w0 w cb p :
  In p (watchedPaths lib cb) ->
  isSome (os_Stat w0 p) <> isSome (os_Stat w p) ->
  value (sourceFilesChangedLocked lib w (rebuilt lib w0 cb)) = true.
Proof.
  intros Hp Hne. rewrite changed_value.
  apply orb_true_iff. left. apply orb_true_iff. right.
  apply existsb_exists. exists p. split; [exact Hp|].
  rewrite (fileChangedSince_value w _ p (recordAll w0 (watchedPaths lib cb) ∅))
    by (simpl; apply baseline_existed).
  rewrite recordAll_lookup by exact Hp. cbn [default].
  destruct (os_Stat w0 p), (os_Stat w p); simpl in *; congruence.
Qed.

Lemma rebuilt_stale_mtime w0 w cb p mt :
  In p (watchedPaths lib cb) ->
  os_Stat w p = Some mt ->
  After mt (maxMtime (value (buildCacheBaseline lib w0 cb))) = true ->
  value (sourceFilesChangedLocked lib w (rebuilt lib w0 cb)) = true.
Proof.
  intros Hp Hs Ha. rewrite changed_value.
  apply orb_true_iff. left. apply orb_true_iff. right.
  apply existsb_exists. exists p. split; [exact Hp|].
  rewrite (fileChangedSince_value w _ p (recordAll w0 (watchedPaths lib cb) ∅))
    by (simpl; apply baseline_existed).
  rewrite Hs. destruct (default false _); [exact Ha | reflexivity].
Qed.

Lemma rebuilt_stale_walk w0 w cb a :
  In a (walk w (skillsDirOf lib cb)) ->
  isNewerFile w (maxMtime (value (buildCacheBaseline lib w0 cb))) a = true ->
  value (sourceFilesChangedLocked lib w (rebuilt lib w0 cb)) = true.
Proof.
  intros Ha Hn. rewrite changed_value. apply orb_true_iff. right.
  apply existsb_exists. exists a. split; [exact Ha | exact Hn].
Qed.

Lemma getter_miss w cb :
  value (sourceFilesChangedLocked lib w cb) = true ->
  value (BuildSystemPromptWithCache lib w cb) =
    (value (BuildSystemPrompt lib w cb), rebuilt lib w cb).
Proof.
  intros H. rewrite getter_value. unfold isFresh. rewrite H, andb_false_r. reflexivity.
Qed.

End ControllerMore.

(** ** No function of the prompt cache reads the clock *)

Section ClockProofs.

Lemma clockFree_app (t1 t2 : list Event) :
  clockFree (t1 ++ t2) = clockFree t1 && clockFree t2.
Proof. apply forallb_app. Qed.

Lemma clock_ret {A} (a : A) : clockFree (trace (ret a)) = true.
Proof. reflexivity. Qed.

Lemma clock_bind {A B} (m : W A) (f : A -> W B) :
  clockFree (trace m) = true ->
  (forall a, clockFree (trace (f a)) = true) ->
  clockFree (trace (bind m f)) = true.
Proof. intros Hm Hf. rewrite trace_bind, clockFree_app, Hm, Hf. reflexivity. Qed.

Lemma clock_tell (e : Event) : isClock e = false -> clockFree (trace (tell e)) = true.
Proof. intros H. cbn. rewrite H. reflexivity. Qed.

Lemma clockFree_In (tr : list Event) : clockFree tr = true <-> ~ In EvClock tr.
Proof.
  unfold clockFree. rewrite forallb_forall. split.
  - intros H Hin. specialize (H _ Hin). discriminate.
  - intros H e He. destruct e; try reflexivity. contradiction.
Qed.

Ltac clock_step :=
  first
    [ apply clock_ret
    | apply clock_tell; reflexivity
    | apply clock_bind; [|intros ?]
    | match goal with
      | |- clockFree (trace (match ?x with _ => _ end)) = true => destruct x
      | |- clockFree (trace (if ?b then _ else _)) = true => destruct b
      end ].

Ltac clock := repeat clock_step.

Variable lib : GoLib.
Variable w : World.

Lemma clock_Stat p : clockFree (trace (Stat w p)) = true.
Proof. unfold Stat. clock. Qed.

Lemma clock_ReadFile p : clockFree (trace (ReadFile w p)) = true.
Proof. unfold ReadFile. clock. Qed.

Lemma clock_ReadDir p : clockFree (trace (ReadDir w p)) = true.
Proof. unfold ReadDir. clock. Qed.

Lemma clock_walkLoop {S} (fn : WalkArg -> S -> W (option error * S)) visits s :
  (forall a s, clockFree (trace (fn a s)) = true) ->
  clockFree (trace (walkLoop fn visits s)) = true.
Proof.
  intros Hfn. revert s. induction visits as [|a rest IH]; intros s; [reflexivity|].
  cbn [walkLoop]. apply clock_bind; [apply clock_tell; reflexivity|]. intros _.
  apply clock_bind; [apply Hfn|]. intros [[e|] s']; [apply clock_ret | apply IH].
Qed.

Lemma clock_WalkDir {S} root (fn : WalkArg -> S -> W (option error * S)) s :
  (forall a s, clockFree (trace (fn a s)) = true) ->
  clockFree (trace (WalkDir w root fn s)) = true.
Proof.
  intros Hfn. unfold WalkDir. apply clock_bind; [apply clock_tell; reflexivity|].
  intros _. apply clock_walkLoop. exact Hfn.
Qed.

Lemma clock_baseline cb : clockFree (trace (buildCacheBaseline lib w cb)) = true.
Proof. apply clockFree_In, baseline_no_clock. Qed.

Lemma clock_fileChangedSince cb p : clockFree (trace (fileChangedSince w cb p)) = true.
Proof.
  unfold fileChangedSince. destruct (existedAtCache cb); [|apply clock_ret].
  apply clock_bind; [apply clock_Stat|]. intros info. clock.
Qed.

Lemma clock_modifiedWalkFn t a changed :
  clockFree (trace (modifiedWalkFn w t a changed)) = true.
Proof.
  unfold modifiedWalkFn. destruct a as [p [|]|p]; try apply clock_ret.
  apply clock_bind; [apply clock_Stat|]. intros info. clock.
Qed.

Lemma clock_skillFilesModifiedSince dir t :
  clockFree (trace (skillFilesModifiedSince w dir t)) = true.
Proof.
  unfold skillFilesModifiedSince.
  apply clock_bind; [apply clock_WalkDir; intros; apply clock_modifiedWalkFn|].
  intros [[e|] c]; [|apply clock_ret].
  destruct (negb (isErrWalkStop e) && negb (os_IsNotExist e)); [|apply clock_ret].
  unfold DebugCF. clock.
Qed.

Lemma clock_anyFileChangedSince cb paths :
  clockFree (trace (anyFileChangedSince w cb paths)) = true.
Proof.
  induction paths as [|p rest IH]; [reflexivity|]. cbn [anyFileChangedSince].
  apply clock_bind; [apply clock_fileChangedSince|]. intros [|]; [apply clock_ret | exact IH].
Qed.

Lemma clock_sourceFilesChangedLocked cb :
  clockFree (trace (sourceFilesChangedLocked lib w cb)) = true.
Proof.
  unfold sourceFilesChangedLocked. destruct (IsZero (cachedAt cb)); [apply clock_ret|].
  apply clock_bind; [apply clock_anyFileChangedSince|]. intros [|]; [apply clock_ret|].
  apply clock_bind; [apply clock_fileChangedSince|]. intros [|]; [apply clock_ret|].
  apply clock_bind; [apply clock_skillFilesModifiedSince|]. intros [|]; apply clock_ret.
Qed.

Lemma clock_getSkillMetadata path :
  clockFree (trace (getSkillMetadata lib w path)) = true.
Proof.
  unfold getSkillMetadata. apply clock_bind; [apply clock_ReadFile|].
  intros [content|]; [|unfold WarnCF; clock].
  destruct (String.eqb _ ""); [apply clock_ret|].
  destruct (json_Unmarshal lib _) as [[n d]|]; apply clock_ret.
Qed.

Lemma clock_addSkillsLoop dir source dirs st :
  clockFree (trace (addSkillsLoop lib w dir source dirs st)) = true.
Proof.
  revert st. induction dirs as [|d rest IH]; intros st; [reflexivity|].
  cbn [addSkillsLoop]. destruct (negb (de_IsDir d)); [apply IH|].
  apply clock_bind; [apply clock_Stat|]. intros [mt|]; [|apply IH].
  apply clock_bind; [apply clock_getSkillMetadata|]. intros md.
  destruct (validate _).
  - destruct st as [skills seen]. destruct (default false _); apply IH.
  - apply clock_bind; [unfold slog_Warn; apply clock_tell; reflexivity|]. intros _. apply IH.
Qed.

Lemma clock_addSkills dir source st :
  clockFree (trace (addSkills lib w dir source st)) = true.
Proof.
  unfold addSkills. destruct (String.eqb dir ""); [apply clock_ret|].
  apply clock_bind; [apply clock_ReadDir|].
  intros [dirs|]; [apply clock_addSkillsLoop | apply clock_ret].
Qed.

Lemma clock_ListSkills sl : clockFree (trace (ListSkills lib w sl)) = true.
Proof.
  unfold ListSkills.
  apply clock_bind; [apply clock_addSkills|]. intros st1.
  apply clock_bind; [apply clock_addSkills|]. intros st2.
  apply clock_bind; [apply clock_addSkills|]. intros st3. apply clock_ret.
Qed.

Lemma clock_BuildSkillsSummary sl : clockFree (trace (BuildSkillsSummary lib w sl)) = true.
Proof.
  unfold BuildSkillsSummary. apply clock_bind; [apply clock_ListSkills|].
  intros l. apply clock_ret.
Qed.

Lemma clock_bootstrapLoop cb files sb :
  clockFree (trace (bootstrapLoop lib w cb files sb)) = true.
Proof.
  revert sb. induction files as [|f rest IH]; intros sb; [reflexivity|].
  cbn [bootstrapLoop]. apply clock_bind; [apply clock_ReadFile|].
  intros [data|]; apply IH.
Qed.

Lemma clock_BuildSystemPrompt cb : clockFree (trace (BuildSystemPrompt lib w cb)) = true.
Proof.
  unfold BuildSystemPrompt, LoadBootstrapFiles, GetMemoryContext.
  apply clock_bind; [apply clock_bootstrapLoop|]. intros bc.
  apply clock_bind; [apply clock_BuildSkillsSummary|]. intros ss.
  apply clock_bind; [clock|]. intros mc. apply clock_ret.
Qed.

Lemma clock_cacheIsFresh cb : clockFree (trace (cacheIsFresh lib w cb)) = true.
Proof.
  unfold cacheIsFresh. destruct (negb _); [|apply clock_ret].
  apply clock_bind; [apply clock_sourceFilesChangedLocked|]. intros c. apply clock_ret.
Qed.

(** The cached getter never reads the clock. *)
Lemma clock_getter cb : clockFree (trace (BuildSystemPromptWithCache lib w cb)) = true.
Proof.
  unfold BuildSystemPromptWithCache.
  apply clock_bind; [apply clock_cacheIsFresh|]. intros [|]; [apply clock_ret|].
  apply clock_bind; [apply clock_cacheIsFresh|]. intros [|]; [apply clock_ret|].
  apply clock_bind; [apply clock_baseline|]. intros b.
  apply clock_bind; [apply clock_BuildSystemPrompt|]. intros p.
  apply clock_bind; [unfold DebugCF; apply clock_tell; reflexivity|]. intros _.
  apply clock_ret.
Qed.

(** The dynamic-context builder always does. *)
Lemma clock_buildDynamicContext channel chatID :
  clockFree (trace (buildDynamicContext lib w channel chatID)) = false.
Proof. reflexivity. Qed.

End ClockProofs.

Lemma clock_promptEvents lib (ws : list World) cb :
  clockFree (promptEvents lib ws cb) = true.
Proof.
  revert cb. induction ws as [|w rest IH]; intros cb; [reflexivity|].
  cbn [promptEvents]. rewrite clockFree_app, clock_getter, IH. reflexivity.
Qed.

(** ** [escapeXML], byte by byte *)

Section EscapeProofs.

Lemma prefix_nil (s : string) : String.prefix "" s = true.
Proof. destruct s; reflexivity. Qed.

Lemma append_nil_l (s : string) : "" +:+ s = s.
Proof. reflexivity. Qed.

(** Replacing a one-byte pattern works on every byte by itself. *)
Lemma replace_byte (a : ascii) (new s : string) :
  strings_ReplaceAll s (String a "") new =
  mapBytes (fun c => if Ascii.eqb c a then new else String c "") s.
Proof.
  unfold strings_ReplaceAll. induction s as [|c s IH]; [reflexivity|].
  cbn [replaceFrom mapBytes String.prefix].
  destruct (ascii_dec a c) as [->|Hne].
  - rewrite prefix_nil, Ascii.eqb_refl. cbn [String.length Nat.sub]. rewrite IH. reflexivity.
  - assert (E : Ascii.eqb c a = false) by (apply Ascii.eqb_neq; congruence).
    rewrite E, IH, append_cons. reflexivity.
Qed.

Lemma mapBytes_app (f : ascii -> string) (a b : string) :
  mapBytes f (a +:+ b) = mapBytes f a +:+ mapBytes f b.
Proof.
  induction a as [|c a IH]; [reflexivity|].
  rewrite append_cons. cbn [mapBytes]. rewrite IH, append_assoc. reflexivity.
Qed.

Lemma mapBytes_mapBytes (f g : ascii -> string) (s : string) :
  mapBytes f (mapBytes g s) = mapBytes (fun c => mapBytes f (g c)) s.
Proof.
  induction s as [|c s IH]; [reflexivity|].
  cbn [mapBytes]. rewrite mapBytes_app, IH. reflexivity.
Qed.

Lemma mapBytes_ext (f g : ascii -> string) (s : string) :
  (forall c, f c = g c) -> mapBytes f s = mapBytes g s.
Proof.
  intros H. induction s as [|c s IH]; [reflexivity|].
  cbn [mapBytes]. rewrite H, IH. reflexivity.
Qed.

Lemma mapBytes_one (f : ascii -> string) (c : ascii) : mapBytes f (String c "") = f c.
Proof. cbn [mapBytes]. apply append_nil_r. Qed.

Lemma escapeXML_mapBytes (s : string) : escapeXML s = mapBytes escapeByte s.
Proof.
  unfold escapeXML. rewrite !replace_byte, !mapBytes_mapBytes.
  apply mapBytes_ext. intros c. unfold escapeByte.
  destruct (Ascii.eqb_spec c "&") as [->|Hamp]; [reflexivity|].
  rewrite mapBytes_one.
  destruct (Ascii.eqb_spec c "<") as [->|Hlt]; [reflexivity|].
  rewrite mapBytes_one.
  destruct (Ascii.eqb_spec c ">") as [->|Hgt]; reflexivity.
Qed.

Lemma countByte_app (c : ascii) (a b : string) :
  countByte c (a +:+ b) = (countByte c a + countByte c b)%nat.
Proof.
  induction a as [|d a IH]; [reflexivity|].
  rewrite append_cons. cbn [countByte]. rewrite IH. lia.
Qed.

Lemma countByte_mapBytes_0 (c : ascii) (f : ascii -> string) (s : string) :
  (forall d, countByte c (f d) = 0%nat) -> countByte c (mapBytes f s) = 0%nat.
Proof.
  intros H. induction s as [|d s IH]; [reflexivity|].
  cbn [mapBytes]. rewrite countByte_app, H, IH. reflexivity.
Qed.

Lemma countByte_one (c d : ascii) :
  countByte c (String d "") = if Ascii.eqb c d then 1%nat else 0%nat.
Proof. cbn [countByte]. destruct (Ascii.eqb c d); reflexivity. Qed.

Lemma escapeByte_lt (d : ascii) : countByte "<" (escapeByte d) = 0%nat.
Proof.
  unfold escapeByte.
  destruct (Ascii.eqb_spec d "&") as [->|Hamp]; [reflexivity|].
  destruct (Ascii.eqb_spec d "<") as [->|Hlt]; [reflexivity|].
  destruct (Ascii.eqb_spec d ">") as [->|Hgt]; [reflexivity|].
  rewrite countByte_one. destruct (Ascii.eqb_spec "<"%char d); [congruence | reflexivity].
Qed.

Lemma escapeByte_gt (d : ascii) : countByte ">" (escapeByte d) = 0%nat.
Proof.
  unfold escapeByte.
  destruct (Ascii.eqb_spec d "&") as [->|Hamp]; [reflexivity|].
  destruct (Ascii.eqb_spec d "<") as [->|Hlt]; [reflexivity|].
  destruct (Ascii.eqb_spec d ">") as [->|Hgt]; [reflexivity|].
  rewrite countByte_one. destruct (Ascii.eqb_spec ">"%char d); [congruence | reflexivity].
Qed.

Lemma escapeXML_no_lt (s : string) : countByte "<" (escapeXML s) = 0%nat.
Proof. rewrite escapeXML_mapBytes. apply countByte_mapBytes_0, escapeByte_lt. Qed.

Lemma escapeXML_no_gt (s : string) : countByte ">" (escapeXML s) = 0%nat.
Proof. rewrite escapeXML_mapBytes. apply countByte_mapBytes_0, escapeByte_gt. Qed.

(** A text without the three special bytes is left alone. *)
Lemma escapeXML_plain (s : string) :
  countByte "&" s = 0%nat -> countByte "<" s = 0%nat -> countByte ">" s = 0%nat ->
  escapeXML s = s.
Proof.
  rewrite escapeXML_mapBytes. induction s as [|d s IH]; [reflexivity|].
  cbn [countByte mapBytes]. intros Ha Hl Hg.
  rewrite IH by lia. unfold escapeByte.
  rewrite (Ascii.eqb_sym d "&"), (Ascii.eqb_sym d "<"), (Ascii.eqb_sym d ">").
  destruct (Ascii.eqb "&" d); [lia|].
  destruct (Ascii.eqb "<" d); [lia|].
  destruct (Ascii.eqb ">" d); [lia|]. reflexivity.
Qed.

Lemma length_append (a b : string) :
  String.length (a +:+ b) = (String.length a + String.length b)%nat.
Proof.
  induction a as [|c a IH]; [reflexivity|].
  rewrite append_cons. cbn [String.length]. rewrite IH. reflexivity.
Qed.

Lemma escapeXML_length (s : string) : (String.length s <= String.length (escapeXML s))%nat.
Proof.
  rewrite escapeXML_mapBytes. induction s as [|d s IH]; [reflexivity|].
  cbn [mapBytes String.length]. rewrite length_append.
  assert (1 <= String.length (escapeByte d))%nat; [|lia].
  unfold escapeByte.
  destruct (Ascii.eqb d "&"); [cbn; lia|].
  destruct (Ascii.eqb d "<"); [cbn; lia|].
  destruct (Ascii.eqb d ">"); cbn; lia.
Qed.

End EscapeProofs.

(** ** What [ListSkills] lists *)

Section ListedProofs.

Variable lib : GoLib.
Variable w : World.

Lemma firstByName_unseen (seen : string -> bool) (l : list SkillInfo) s :
  In s (firstByName seen l) -> seen (Name s) = false.
Proof.
  revert seen. induction l as [|x l IH]; intros seen H; [contradiction|].
  cbn [firstByName] in H. destruct (seen (Name x)) eqn:E; [apply IH; exact H|].
  destruct H as [->|H]; [exact E|].
  apply IH in H. apply orb_false_iff in H. tauto.
Qed.

Lemma firstByName_NoDup (seen : string -> bool) (l : list SkillInfo) :
  NoDup (map Name (firstByName seen l)).
Proof.
  revert seen. induction l as [|x l IH]; intros seen; [constructor|].
  cbn [firstByName]. destruct (seen (Name x)); [apply IH|].
  cbn [map]. apply NoDup_cons_2; [|apply IH].
  intros Hin. apply list_elem_of_In, in_map_iff in Hin. destruct Hin as (s & Hn & Hs).
  apply firstByName_unseen in Hs. rewrite Hn, String.eqb_refl in Hs. discriminate.
Qed.

(** The listed skill of a name is the first valid discovered skill of
    that name. *)
Lemma firstByName_first (l : list SkillInfo) s :
  In s (firstByName (fun _ => false) l) ->
  exists pre post, l = pre ++ s :: post /\ hasName pre (Name s) = false.
Proof.
  assert (G : forall seen, In s (firstByName seen l) ->
              exists pre post, l = pre ++ s :: post /\ hasName pre (Name s) = false).
  { induction l as [|x l IH]; intros seen H; [contradiction|].
    cbn [firstByName] in H. destruct (seen (Name x)) eqn:E.
    - pose proof (firstByName_unseen _ _ _ H) as Hu.
      destruct (IH _ H) as (pre & post & -> & Hn). exists (x :: pre), post.
      split; [reflexivity|]. unfold hasName in *. cbn [existsb]. rewrite Hn, orb_false_r.
      destruct (String.eqb_spec (Name s) (Name x)) as [e|]; [|reflexivity]. congruence.
    - destruct H as [->|H].
      + exists [], l. split; reflexivity.
      + pose proof (firstByName_unseen _ _ _ H) as Hu. cbv beta in Hu.
        apply orb_false_iff in Hu. destruct Hu as [Hne _].
        destruct (IH _ H) as (pre & post & -> & Hn). exists (x :: pre), post.
        split; [reflexivity|]. unfold hasName in *. cbn [existsb]. rewrite Hn, Hne. reflexivity. }
  apply G.
Qed.

Lemma discoveredIn_inv dir source s :
  In s (discoveredIn lib w dir source) ->
  dir <> "" /\ Source s = source /\
  exists d, Path s = filepath_Join lib [dir; de_Name d; "SKILL.md"] /\
            s = candidateInfo lib w dir source d.
Proof.
  unfold discoveredIn. destruct (String.eqb_spec dir "") as [|Hne]; [contradiction|].
  destruct (os_ReadDir w dir) as [dirs|]; [|contradiction].
  unfold candidates. intros H. apply in_map_iff in H. destruct H as (d & <- & _).
  split; [exact Hne|]. unfold candidateInfo.
  destruct (value (getSkillMetadata lib w _)) eqn:E.
  - split; [reflexivity|]. exists d. split; [reflexivity|]. rewrite E. reflexivity.
  - split; [reflexivity|]. exists d. split; [reflexivity|]. rewrite E. reflexivity.
Qed.

Lemma discovered_inv sl s :
  In s (discovered lib w sl) ->
  (Source s = "workspace" \/ Source s = "global" \/ Source s = "builtin") /\
  sourceDir sl (Source s) <> "" /\
  exists d, Path s = filepath_Join lib [sourceDir sl (Source s); de_Name d; "SKILL.md"] /\
            s = candidateInfo lib w (sourceDir sl (Source s)) (Source s) d.
Proof.
  unfold discovered. intros H. apply in_app_or in H. destruct H as [H|H];
    [|apply in_app_or in H; destruct H as [H|H]];
    apply discoveredIn_inv in H; destruct H as (Hne & Hs & d & Hp & Hc); rewrite Hs;
    (split; [tauto|]); (split; [exact Hne|]); exists d; (split; [exact Hp|]);
    rewrite <- Hs at 1; rewrite Hs; exact Hc.
Qed.


End ListedProofs.

(** ** Loading skills by name *)

Section LoadProofs.

Variable lib : GoLib.
Variable w : World.
Variable strip : string -> string -> string.

Lemma loadFrom_value dir name :
  value (loadFrom lib w strip dir name) =
    match skillFileIn lib w dir name with
    | Some c => Some (strip c "", true)
    | None => None
    end.
Proof.
  unfold loadFrom, skillFileIn, ReadFile, stripFrontmatter.
  destruct (String.eqb dir ""); [reflexivity|]. cbn [negb].
  rewrite value_bind, value_tell_bind. cbn [value ret fst].
  destruct (os_ReadFile w _); reflexivity.
Qed.

Lemma LoadSkill_value sl name :
  value (LoadSkill lib w strip sl name) =
    match firstSkillFile lib w sl name with
    | Some c => (strip c "", true)
    | None => ("", false)
    end.
Proof.
  unfold LoadSkill, firstSkillFile.
  rewrite value_bind, loadFrom_value.
  destruct (skillFileIn lib w (workspaceSkills sl) name); [reflexivity|].
  rewrite value_bind, loadFrom_value.
  destruct (skillFileIn lib w (globalSkills sl) name); [reflexivity|].
  rewrite value_bind, loadFrom_value.
  destruct (skillFileIn lib w (builtinSkills sl) name); reflexivity.
Qed.



Lemma loadSkillsLoop_value sl names parts :
  value (loadSkillsLoop lib w strip sl names parts) =
    parts ++ omap (contextPart lib w strip sl) names.
Proof.
  revert parts. induction names as [|name rest IH]; intros parts.
  - cbn. rewrite app_nil_r. reflexivity.
  - cbn [loadSkillsLoop]. rewrite value_bind, LoadSkill_value.
    rewrite omap_cons_match.
    assert (Ec : contextPart lib w strip sl name =
                 match firstSkillFile lib w sl name with
                 | Some c => Some ("### Skill: " +:+ name +:+ nl +:+ nl +:+ strip c "")
                 | None => None
                 end) by reflexivity.
    rewrite Ec. destruct (firstSkillFile lib w sl name); cbv beta iota.
    + rewrite IH, <- app_assoc. reflexivity.
    + apply IH.
Qed.

Lemma LoadSkillsForContext_value sl names :
  value (LoadSkillsForContext lib w strip sl names) =
    strings_Join (omap (contextPart lib w strip sl) names) (nl +:+ nl +:+ "---" +:+ nl +:+ nl).
Proof.
  unfold LoadSkillsForContext. destruct names as [|n rest]; [reflexivity|].
  cbn [length Nat.eqb]. rewrite value_bind, loadSkillsLoop_value. reflexivity.
Qed.

Lemma omap_filter_isSome {A B} (f : A -> option B) (l : list A) :
  omap f (List.filter (fun a => isSome (f a)) l) = omap f l.
Proof.
  induction l as [|a l IH]; [reflexivity|].
  cbn [List.filter]. rewrite (omap_cons_match f a l).
  destruct (f a) eqn:E; cbn [isSome]; [|exact IH].
  rewrite omap_cons_match, E, IH. reflexivity.
Qed.

End LoadProofs.

(** ** Counting the markup of the skills summary *)

Section SummaryProofs.

Lemma countByte_concat (c : ascii) (sep : string) (l : list string) :
  countByte c sep = 0%nat ->
  countByte c (String.concat sep l) = list_sum (map (countByte c) l).
Proof.
  intros Hsep. induction l as [|x l IH]; [reflexivity|].
  destruct l as [|y l].
  - cbn. lia.
  - change (String.concat sep (x :: y :: l)) with (x +:+ sep +:+ String.concat sep (y :: l)).
    rewrite !countByte_app, Hsep, IH. cbn [map list_sum fold_right]. lia.
Qed.

Lemma skillLines_lt (s : SkillInfo) :
  countByte "<" (Source s) = 0%nat ->
  list_sum (map (countByte "<") (skillLines s)) = 10%nat.
Proof.
  intros H. unfold skillLines. cbn [map list_sum fold_right].
  rewrite !countByte_app, !escapeXML_no_lt, H. reflexivity.
Qed.

Lemma skillLines_gt (s : SkillInfo) :
  countByte ">" (Source s) = 0%nat ->
  list_sum (map (countByte ">") (skillLines s)) = 10%nat.
Proof.
  intros H. unfold skillLines. cbn [map list_sum fold_right].
  rewrite !countByte_app, !escapeXML_no_gt, H. reflexivity.
Qed.

Lemma renderSkills_count (c : ascii) (l : list SkillInfo) :
  countByte c nl = 0%nat ->
  countByte c "<skills>" = 1%nat -> countByte c "</skills>" = 1%nat ->
  Forall (fun s => list_sum (map (countByte c) (skillLines s)) = 10%nat) l ->
  countByte c (renderSkills l) =
    match l with [] => 0%nat | _ => (2 + 10 * length l)%nat end.
Proof.
  intros Hnl Ho Hc Hall. unfold renderSkills. destruct l as [|s0 l0]; [reflexivity|].
  assert (E : list_sum (map (countByte c) (List.concat (map skillLines (s0 :: l0)))) =
              (10 * length (s0 :: l0))%nat).
  { induction Hall as [|s l Hs _ IH]; [reflexivity|].
    cbn [map List.concat]. rewrite map_app, list_sum_app, Hs, IH. cbn [length]. lia. }
  unfold strings_Join. rewrite countByte_concat by exact Hnl.
  rewrite !map_app, !list_sum_app, E.
  change (list_sum (map (countByte c) ["<skills>"])) with (countByte c "<skills>" + 0)%nat.
  change (list_sum (map (countByte c) ["</skills>"])) with (countByte c "</skills>" + 0)%nat.
  rewrite Ho, Hc. lia.
Qed.

End SummaryProofs.

(** ** The bootstrap files *)

Section BootstrapProofs.

Variable lib : GoLib.
Variable w : World.

Lemma bootstrapLoop_trace cb (files : list string) (sb : string) :
  trace (bootstrapLoop lib w cb files sb) =
    map (fun f => EvReadFile (filepath_Join lib [workspace cb; f])) files.
Proof.
  revert sb. induction files as [|f rest IH]; intros sb; [reflexivity|].
  cbn [bootstrapLoop map]. rewrite trace_bind.
  change (trace (ReadFile w ?p)) with [EvReadFile p].
  change (value (ReadFile w ?p)) with (os_ReadFile w p). cbn [app].
  destruct (os_ReadFile w _); rewrite IH; reflexivity.
Qed.

Lemma concat_nil_iff (l : list string) :
  String.concat "" l = "" <-> Forall (fun x => x = "") l.
Proof.
  induction l as [|x l IH]; [split; [constructor | reflexivity]|].
  assert (Hcat : String.concat "" (x :: l) = x +:+ String.concat "" l).
  { destruct l; simpl; [rewrite append_nil_r|]; reflexivity. }
  rewrite Hcat. split.
  - intros H. apply append_eq_nil in H. destruct H as [Hx Hl].
    constructor; [exact Hx | apply IH; exact Hl].
  - intros H. inversion H as [|? ? Hx Hl]; subst. apply IH in Hl. rewrite Hl. reflexivity.
Qed.

Lemma bootstrapBlock_nil cb f :
  bootstrapBlock lib w cb f = "" <->
  os_ReadFile w (filepath_Join lib [workspace cb; f]) = None.
Proof.
  unfold bootstrapBlock. destruct (os_ReadFile w _); split; try reflexivity; discriminate.
Qed.

End BootstrapProofs.

Lemma NoDup_map_inj {A B} (f : A -> B) (l : list A) (a b : A) :
  NoDup (map f l) -> In a l -> In b l -> f a = f b -> a = b.
Proof.
  induction l as [|x l IH]; intros Hnd Ha Hb E; [contradiction|].
  cbn [map] in Hnd. apply NoDup_cons in Hnd. destruct Hnd as [Hx Hnd].
  destruct Ha as [->|Ha], Hb as [->|Hb]; [reflexivity| | |apply IH; assumption].
  - exfalso. apply Hx. rewrite E. apply list_elem_of_In, in_map. exact Hb.
  - exfalso. apply Hx. rewrite <- E. apply list_elem_of_In, in_map. exact Ha.
Qed.

Lemma concat_length_cons (sep x y : string) (l : list string) :
  (String.length x + String.length sep <= String.length (String.concat sep (x :: y :: l)))%nat.
Proof.
  change (String.concat sep (x :: y :: l)) with (x +:+ sep +:+ String.concat sep (y :: l)).
  rewrite !length_append. lia.
Qed.

Section PriorityProofs.

Variable lib : GoLib.
Variable w : World.

(** A valid skill of the first part of a list has a namesake among the
    listed skills that comes from that part. *)
Lemma listed_from_prefix (A B : list SkillInfo) x :
  In x A -> isValid x = true ->
  exists s, In s (firstByName (fun _ => false) (List.filter isValid (A ++ B))) /\
            In s A /\ Name s = Name x.
Proof.
  intros Hin Hv. rewrite filter_app_bool, firstByName_app.
  destruct (firstByName_names (fun _ => false) (List.filter isValid A) x) as (s & Hs & Hn).
  - apply filter_In. split; assumption.
  - reflexivity.
  - exists s. split; [apply in_or_app; left; exact Hs|]. split; [|exact Hn].
    apply firstByName_incl in Hs. apply filter_In in Hs. tauto.
Qed.

Lemma listed_NoDup sl : NoDup (map Name (value (ListSkills lib w sl))).
Proof. rewrite ListSkills_value. apply firstByName_NoDup. Qed.

Lemma printSkillsLoop_value (l : list SkillInfo) (out : string) :
  Forall (fun s => Description s <> "") l ->
  printSkillsLoop l out = out +:+ String.concat "" (map skillEntry l).
Proof.
  intros H. revert out. induction H as [|s l Hs _ IH]; intros out.
  - cbn. rewrite append_nil_r. reflexivity.
  - cbn [printSkillsLoop map]. apply String.eqb_neq in Hs. rewrite Hs. cbn [negb].
    rewrite IH.
    assert (Hcat : forall x l, String.concat "" (x :: l) = x +:+ String.concat "" l).
    { intros x [|y l']; simpl; [rewrite append_nil_r|]; reflexivity. }
    rewrite Hcat. unfold skillEntry. rewrite !append_assoc. reflexivity.
Qed.

Lemma listed_described sl :
  Forall (fun s => Description s <> "") (value (ListSkills lib w sl)).
Proof.
  apply Forall_forall. intros s Hs. apply list_elem_of_In, listed_valid in Hs.
  destruct Hs as [_ Hv]. apply isValid_true in Hv. destruct Hv as (_ & _ & _ & Hd & _).
  apply String.eqb_neq. exact Hd.
Qed.

Lemma listed_source sl s :
  In s (value (ListSkills lib w sl)) ->
  Source s = "workspace" \/ Source s = "global" \/ Source s = "builtin".
Proof.
  intros Hs. apply listed_valid in Hs. destruct Hs as [Hd _].
  apply discovered_inv in Hd. tauto.
Qed.

End PriorityProofs.

Lemma Forall_map_In {A B} (P : B -> Prop) (g : A -> B) (l : list A) :
  Forall P (map g l) <-> forall a, In a l -> P (g a).
Proof.
  induction l as [|x l IH]; cbn [map].
  - split; [intros _ a [] | constructor].
  - split.
    + intros H a [<-|Ha]; inversion H; subst; [assumption | apply IH; assumption].
    + intros H. constructor; [apply H; left; reflexivity|].
      apply IH. intros a Ha. apply H. right. exact Ha.
Qed.

Section PromptMore.

Variable lib : GoLib.
Variable w : World.

Lemma LoadBootstrapFiles_none cb :
  String.concat "" (map (bootstrapBlock lib w cb) bootstrapFiles) = "" <->
  forall f, In f bootstrapFiles ->
            os_ReadFile w (filepath_Join lib [workspace cb; f]) = None.
Proof.
  rewrite concat_nil_iff, Forall_map_In.
  split; intros H f Hf; apply bootstrapBlock_nil, H; exact Hf.
Qed.

Lemma summary_nil sl :
  value (BuildSkillsSummary lib w sl) = "" <-> value (ListSkills lib w sl) = [].
Proof.
  rewrite BuildSkillsSummary_value. split.
  - intros E. destruct (value (ListSkills lib w sl)) as [|s l] eqn:El; [reflexivity|].
    assert (H : countByte "<" (renderSkills (s :: l)) = 0%nat) by (rewrite E; reflexivity).
    unfold renderSkills, strings_Join in H. rewrite countByte_concat in H by reflexivity.
    rewrite map_app, list_sum_app in H. cbn in H. discriminate.
  - intros ->. reflexivity.
Qed.

End PromptMore.

(** ** The name pattern, read as a shape *)

Section NameShapeProofs.

Import Regexp.

Let A : regex := Class isAlnum.
Let G : regex := Cat (Class (Ascii.eqb "-")) (Plus A).

Lemma append_one (c : ascii) (s : string) : String c "" +:+ s = String c s.
Proof. reflexivity. Qed.

Lemma shape_star_A (x t : string) :
  denotes (Star A) x -> nameShape true t = true -> nameShape true (x +:+ t) = true.
Proof.
  revert t. induction x as [|c x IH]; intros t Hx Ht; [exact Ht|].
  apply star_cons in Hx. destruct Hx as (s1 & s2 & -> & H1 & H2).
  apply denotes_class_inv in H1. destruct H1 as (d & [= <- ->] & Hd).
  rewrite append_cons. cbn [nameShape]. rewrite Hd. apply IH; assumption.
Qed.

Lemma hyphen_not_alnum : isAlnum "-" = false.
Proof. reflexivity. Qed.

Lemma shape_star_G (s : string) : denotes (Star G) s -> nameShape true s = true.
Proof.
  intros H. remember (Star G) as r0 eqn:Er.
  induction H as [ | f d Hd | r1 r2 u1 u2 H1 IH1 H2 IH2 | r1 r2 u H1 IH1 | r1 r2 u H1 IH1
                 | r' | r' u1 u2 H1 IH1 H2 IH2 ]; try discriminate; [reflexivity|].
  injection Er as ->. specialize (IH2 eq_refl). clear IH1.
  apply denotes_cat_inv in H1. destruct H1 as (h & p & -> & Hh & Hp).
  apply denotes_class_inv in Hh. destruct Hh as (c & -> & Hc).
  apply Ascii.eqb_eq in Hc. subst c.
  apply denotes_cat_inv in Hp. destruct Hp as (a & x & -> & Ha & Hx).
  apply denotes_class_inv in Ha. destruct Ha as (c & -> & Hc).
  rewrite !append_one, !append_cons. cbn [nameShape].
  rewrite hyphen_not_alnum, Ascii.eqb_refl, Hc. cbn [andb].
  apply shape_star_A; assumption.
Qed.

Lemma namePattern_shape_sound (s : string) :
  denotes namePattern s -> nameShape false s = true.
Proof.
  intros H. unfold namePattern, Plus in H.
  apply denotes_cat_inv in H. destruct H as (p & g & -> & Hp & Hg).
  apply denotes_cat_inv in Hp. destruct Hp as (a & x & -> & Ha & Hx).
  apply denotes_class_inv in Ha. destruct Ha as (c & -> & Hc).
  rewrite append_one, append_cons. cbn [nameShape]. rewrite Hc.
  apply shape_star_A; [exact Hx|]. apply shape_star_G. exact Hg.
Qed.

Lemma namePattern_shape_complete (s : string) :
  (nameShape true s = true -> denotes (Cat (Star A) (Star G)) s) /\
  (nameShape false s = true -> denotes namePattern s).
Proof.
  induction s as [|c s [IHt IHf]].
  - split; [|discriminate]. intros _. change "" with ("" +:+ ""). constructor; constructor.
  - cbn [nameShape]. destruct (isAlnum c) eqn:Hc.
    + assert (Hone : denotes A (String c "")) by (constructor; exact Hc).
      split; intros H; apply IHt in H; apply denotes_cat_inv in H;
        destruct H as (x & g & -> & Hx & Hg).
      * rewrite <- append_cons. constructor; [|exact Hg].
        rewrite <- append_one. constructor; assumption.
      * rewrite <- append_cons. unfold namePattern, Plus. constructor; [|exact Hg].
        rewrite <- append_one. constructor; assumption.
    + destruct (Ascii.eqb_spec "-"%char c) as [<-|Hne]; [|split; discriminate].
      split; [|discriminate]. cbn [andb]. intros H. apply IHf in H.
      unfold namePattern in H. apply denotes_cat_inv in H.
      destruct H as (p & g & -> & Hp & Hg).
      change (String "-" (p +:+ g)) with ("" +:+ String "-" (p +:+ g)).
      constructor; [constructor|]. rewrite <- append_cons. constructor; [|exact Hg].
      rewrite <- append_one. constructor; [|exact Hp]. constructor. reflexivity.
Qed.

Lemma namePattern_nameShape (s : string) :
  namePattern_MatchString s = nameShape false s.
Proof.
  apply eq_true_iff_eq. unfold namePattern_MatchString. rewrite fullMatch_denotes.
  split; [apply namePattern_shape_sound | apply namePattern_shape_complete].
Qed.

(** The scan, as five conditions. *)
Lemma nameShape_conditions (b : bool) (s : string) :
  nameShape b s =
    allBytes (fun c => isAlnum c || Ascii.eqb "-" c) s
    && negb (strings_Contains s "--")
    && negb (endsWith "-" s)
    && (b || (negb (String.eqb s "") && negb (String.prefix "-" s))).
Proof.
  revert b. induction s as [|c s IH]; intros b; [destruct b; reflexivity|].
  cbn [nameShape allBytes]. rewrite Contains_cons.
  destruct (isAlnum c) eqn:Hc.
  - assert (Hne : Ascii.eqb "-" c = false).
    { destruct (Ascii.eqb_spec "-"%char c) as [<-|]; [discriminate | reflexivity]. }
    assert (Hp2 : String.prefix "--" (String c s) = false).
    { cbn [String.prefix]. destruct (ascii_dec "-" c) as [<-|]; [discriminate | reflexivity]. }
    assert (Hp1 : String.prefix "-" (String c s) = false).
    { cbn [String.prefix]. destruct (ascii_dec "-" c) as [<-|]; [discriminate | reflexivity]. }
    rewrite IH, Hp2, Hp1. cbn [orb andb negb String.eqb].
    destruct s as [|d s']; cbn [endsWith]; rewrite ?Hne, orb_true_r; reflexivity.
  - cbn [orb]. destruct (Ascii.eqb_spec "-"%char c) as [<-|Hne]; [|reflexivity].
    assert (Hp2 : String.prefix "--" (String "-" s) = String.prefix "-" s).
    { cbn [String.prefix]. destruct (ascii_dec "-" "-"); [reflexivity | contradiction]. }
    assert (Hp1 : String.prefix "-" (String "-" s) = true).
    { cbn [String.prefix]. destruct (ascii_dec "-" "-"); [apply prefix_nil | contradiction]. }
    assert (He : endsWith "-" (String "-" s) = String.eqb s "" || endsWith "-" s).
    { destruct s; reflexivity. }
    rewrite IH, Hp2, Hp1, He. cbn [String.eqb].
    destruct b, (allBytes _ s), (String.prefix "-" s), (strings_Contains s "--"),
      (endsWith "-" s), (String.eqb s ""); reflexivity.
Qed.

End NameShapeProofs.

(** ** Line endings in [parseSimpleYAML] *)

Section LineEndingProofs.

Lemma prefix_crlf_hit (rest : string) :
  String.prefix (cr +:+ nl) (String "013" (String "010" rest)) = true.
Proof.
  change (cr +:+ nl) with (String "013" (String "010" "")). cbn [String.prefix].
  destruct (ascii_dec "013" "013"); [|contradiction].
  destruct (ascii_dec "010" "010"); [apply prefix_nil | contradiction].
Qed.

Lemma prefix_crlf_miss (c : ascii) (rest : string) :
  c <> "013"%char -> String.prefix (cr +:+ nl) (String c rest) = false.
Proof.
  intros H. change (cr +:+ nl) with (String "013" (String "010" "")). cbn [String.prefix].
  destruct (ascii_dec "013" c); [congruence | reflexivity].
Qed.

Lemma countByte_cons_0 (c d : ascii) (s : string) :
  countByte c (String d s) = 0%nat -> d <> c /\ countByte c s = 0%nat.
Proof.
  cbn [countByte]. destruct (Ascii.eqb_spec c d) as [->|Hne]; [discriminate|].
  intros H. split; [congruence | exact H].
Qed.

(** Windows line ends are turned back into Unix line ends. *)
Lemma normalize_crlf (s : string) :
  countByte "013" s = 0%nat ->
  strings_ReplaceAll (withLineEnding (cr +:+ nl) s) (cr +:+ nl) nl = s.
Proof.
  unfold strings_ReplaceAll, withLineEnding. induction s as [|c s IH]; [reflexivity|].
  intros H. apply countByte_cons_0 in H. destruct H as [Hc Hs]. cbn [mapBytes].
  destruct (Ascii.eqb_spec c "010") as [->|Hnl].
  - change ((cr +:+ nl) +:+ ?x) with (String "013" (String "010" x)).
    cbn [replaceFrom]. rewrite prefix_crlf_hit.
    change (String.length (cr +:+ nl) - 1)%nat with 1%nat. cbn [replaceFrom].
    rewrite IH by exact Hs. reflexivity.
  - rewrite append_one. cbn [replaceFrom]. rewrite prefix_crlf_miss by exact Hc.
    rewrite IH by exact Hs. reflexivity.
Qed.

(** Without a line feed there is no Windows line end to replace. *)
Lemma crlf_absent (s : string) :
  countByte "010" s = 0%nat -> strings_ReplaceAll s (cr +:+ nl) nl = s.
Proof.
  unfold strings_ReplaceAll. induction s as [|c s IH]; [reflexivity|].
  intros H. apply countByte_cons_0 in H. destruct H as [Hc Hs].
  cbn [replaceFrom].
  assert (Hp : String.prefix (cr +:+ nl) (String c s) = false).
  { change (cr +:+ nl) with (String "013" (String "010" "")). cbn [String.prefix].
    destruct (ascii_dec "013" c); [|reflexivity].
    destruct s as [|d s']; [reflexivity|].
    apply countByte_cons_0 in Hs. destruct Hs as [Hd _]. cbn [String.prefix].
    destruct (ascii_dec "010" d); [congruence | reflexivity]. }
  rewrite Hp, IH by exact Hs. reflexivity.
Qed.

(** Nor is there one without a carriage return. *)
Lemma crlf_needs_cr (s : string) :
  countByte "013" s = 0%nat -> strings_ReplaceAll s (cr +:+ nl) nl = s.
Proof.
  unfold strings_ReplaceAll. induction s as [|c s IH]; [reflexivity|].
  intros H. apply countByte_cons_0 in H. destruct H as [Hc Hs].
  cbn [replaceFrom]. rewrite prefix_crlf_miss by exact Hc.
  rewrite IH by exact Hs. reflexivity.
Qed.

Lemma cr_absent (s : string) :
  countByte "013" s = 0%nat -> strings_ReplaceAll s cr nl = s.
Proof.
  unfold cr. rewrite replace_byte. induction s as [|c s IH]; [reflexivity|].
  intros H. apply countByte_cons_0 in H. destruct H as [Hc Hs]. cbn [mapBytes].
  apply Ascii.eqb_neq in Hc. rewrite Hc, IH by exact Hs. reflexivity.
Qed.

Lemma withLineEnding_cr_no_lf (s : string) : countByte "010" (withLineEnding cr s) = 0%nat.
Proof.
  unfold withLineEnding. apply countByte_mapBytes_0. intros d.
  destruct (Ascii.eqb_spec d "010") as [->|Hne]; [reflexivity|].
  rewrite countByte_one. destruct (Ascii.eqb_spec "010"%char d); [congruence | reflexivity].
Qed.

(** Classic Mac line ends are turned into Unix line ends. *)
Lemma normalize_cr (s : string) :
  countByte "013" s = 0%nat ->
  strings_ReplaceAll (withLineEnding cr s) cr nl = s.
Proof.
  unfold cr at 2. rewrite replace_byte. unfold withLineEnding.
  induction s as [|c s IH]; [reflexivity|].
  intros H. apply countByte_cons_0 in H. destruct H as [Hc Hs]. cbn [mapBytes].
  rewrite mapBytes_app, IH by exact Hs.
  destruct (Ascii.eqb_spec c "010") as [->|Hnl]; [reflexivity|].
  rewrite mapBytes_one. apply Ascii.eqb_neq in Hc. rewrite Hc. reflexivity.
Qed.

End LineEndingProofs.

(** ** Where the metadata of a skill comes from *)

Section MetadataProofs.

Variable lib : GoLib.
Variable w : World.

Lemma getSkillMetadata_value path :
  value (getSkillMetadata lib w path) =
    match os_ReadFile w path with
    | None => None
    | Some content =>
        let frontmatter := extractFrontmatter lib content in
        if String.eqb frontmatter "" then
          Some (mkSkillMetadata (filepath_Base lib (filepath_Dir lib path)) "")
        else
          match json_Unmarshal lib frontmatter with
          | Some (n, d) => Some (mkSkillMetadata n d)
          | None =>
              Some (mkSkillMetadata
                      (default "" (parseSimpleYAML lib frontmatter !! "name"))
                      (default "" (parseSimpleYAML lib frontmatter !! "description")))
          end
    end.
Proof.
  unfold getSkillMetadata, ReadFile. rewrite value_bind, value_tell_bind.
  cbn [value ret fst]. destruct (os_ReadFile w path) as [content|].
  - cbv zeta. destruct (String.eqb _ ""); [reflexivity|].
    destruct (json_Unmarshal lib _) as [[n d]|]; reflexivity.
  - unfold WarnCF. rewrite value_tell_bind. reflexivity.
Qed.

Lemma default_nonempty (o : option string) :
  default "" o <> "" -> o = Some (default "" o).
Proof. destruct o; [reflexivity | intros H; contradiction]. Qed.

End MetadataProofs.

(* ================================================================== *)
(** * The stated properties *)
(* ================================================================== *)

(** C1.  Whatever the history, summary, current message, media, channel
    and chat id, the list [BuildMessages] returns holds exactly one message
    of role "system", that message comes first, and when the current
    message is not empty after trimming, the last message has role "user".
    History messages of role "system" do not change this. *)
Theorem BuildMessages_one_system_first
    (lib : GoLib) (w : World) (cb : ContextBuilder) (history : list Message)
    (summary currentMessage : string) (media : list string) (channel chatID : string) :
  let messages :=
    fst (value (BuildMessages lib w cb history summary currentMessage media channel chatID)) in
  length (List.filter (isRole "system") messages) = 1%nat /\
  (exists sys rest, messages = sys :: rest /\ Role sys = "system") /\
  (strings_TrimSpace lib currentMessage <> "" ->
   exists m, last messages = Some m /\ Role m = "user").
Proof.
  intros messages. subst messages. rewrite BuildMessages_value.
  set (blocks := systemBlocks _ _ _).
  set (tail := if negb _ then _ else _).
  assert (Htail : Forall (fun m => isRole "system" m = false) tail).
  { subst tail. destruct (negb _); repeat constructor. }
  split; [|split].
  - simpl. rewrite filter_none_system; [reflexivity|].
    apply Forall_app; split; [apply sanitize_no_system | exact Htail].
  - eexists _, _. split; reflexivity.
  - intros Hne. subst tail.
    destruct (String.eqb (strings_TrimSpace lib currentMessage) "") eqn:E.
    + apply String.eqb_eq in E. contradiction.
    + simpl negb. cbv iota. exists (mkMessage "user" currentMessage [] [] "").
      split; [|reflexivity]. rewrite app_comm_cons. apply last_snoc.
Qed.

Lemma BuildMessages_one_system_first_witness :
  exists m,
    last (fst (value (BuildMessages Demo.lib Demo.emptyWorld
                        (NewContextBuilder Demo.lib Demo.emptyWorld "ws")
                        [plainMessage "system" "old prompt"; plainMessage "user" "hi"]
                        "earlier talk" " hello " [] "cli" "c1"))) = Some m /\
    Role m = "user".
Proof.
  apply (BuildMessages_one_system_first Demo.lib Demo.emptyWorld).
  vm_compute. discriminate.
Defined.

(** C2.  The staleness check of one watched path answers: stale when the
    existence map was never initialised; stale when the recorded flag
    differs from whether a stat succeeds now (creation and deletion); not
    stale when the path was absent and still is; and, when it existed and
    exists, stale exactly when its mtime is strictly after the recorded
    maximum. *)
Theorem fileChangedSince_four_way (w : World) (cb : ContextBuilder) (path : string) :
  let changed := value (fileChangedSince w cb path) in
  let existsNow := isSome (os_Stat w path) in
  (existedAtCache cb = None -> changed = true) /\
  (forall m : gmap string bool, existedAtCache cb = Some m ->
     let existedBefore := default false (m !! path) in
     (existedBefore <> existsNow -> changed = true) /\
     (existedBefore = false -> existsNow = false -> changed = false) /\
     (existedBefore = true -> forall mt, os_Stat w path = Some mt ->
        (changed = true <-> After mt (cachedAt cb) = true))).
Proof.
  intros changed existsNow. subst changed existsNow. split.
  - intros H. rewrite (fileChangedSince_nil w cb path H). reflexivity.
  - intros m Hm existedBefore. subst existedBefore.
    rewrite (fileChangedSince_value w cb path m Hm).
    destruct (os_Stat w path) as [mt|]; simpl;
      destruct (default false (m !! path)); simpl; repeat split; congruence.
Qed.

Lemma fileChangedSince_four_way_witness :
  value (fileChangedSince Demo.soulWorld Demo.builtWithoutSoul "ws/SOUL.md") = true.
Proof.
  apply (proj2 (fileChangedSince_four_way Demo.soulWorld Demo.builtWithoutSoul "ws/SOUL.md")
           {[ "ws/SOUL.md" := false ]} eq_refl).
  vm_compute. discriminate.
Defined.

(** C5.  The sanitizer goes through the history in input order with an
    output accumulator and keeps a message exactly when [keptBy] says so:
    a system message never; a tool message when the accumulator is not
    empty and the first non-tool message found scanning it backward is an
    assistant message with tool calls; an assistant message with tool
    calls unless the accumulator is empty or its last message is neither a
    user nor a tool message; every other message always. *)
Theorem sanitizeHistoryForProvider_rules (history : list Message) :
  value (sanitizeHistoryForProvider history) = sanitizeRules [] history /\
  (forall acc msg, Role msg = "system" -> keptBy acc msg = false) /\
  (forall acc msg, Role msg = "tool" ->
     (keptBy acc msg = true <->
      acc <> [] /\
      exists pre m post, acc = pre ++ m :: post /\
        Forall (fun x => Role x = "tool") post /\
        Role m = "assistant" /\ ToolCalls m <> [])) /\
  (forall acc msg, Role msg = "assistant" -> ToolCalls msg <> [] ->
     (keptBy acc msg = false <->
      acc = [] \/
      exists prev, last acc = Some prev /\ Role prev <> "user" /\ Role prev <> "tool")) /\
  (forall acc msg, Role msg <> "system" -> Role msg <> "tool" ->
     (Role msg = "assistant" -> ToolCalls msg = []) -> keptBy acc msg = true).
Proof.
  split; [apply sanitize_rules|]. split; [|split; [|split]].
  - apply keptBy_system.
  - apply keptBy_tool.
  - apply keptBy_assistant_calls.
  - apply keptBy_other.
Qed.

Lemma sanitizeHistoryForProvider_rules_witness :
  keptBy [ plainMessage "user" "do two things"; Demo.assistantWithTools ["A"; "B"];
           Demo.toolResult "A" ] (Demo.toolResult "B") = true.
Proof.
  apply (proj1 (proj2 (proj2 (sanitizeHistoryForProvider_rules [])))); [reflexivity|].
  split; [discriminate|].
  exists [plainMessage "user" "do two things"], (Demo.assistantWithTools ["A"; "B"]),
         [Demo.toolResult "A"].
  repeat split; [repeat constructor | discriminate].
Defined.

(** C8.  The system message of every list [BuildMessages] returns carries
    its blocks in [SystemParts]: the static prompt first, marked
    "ephemeral", then the dynamic context and, exactly when the summary is
    not empty, the summary block, both without a mark; and its flat text
    is the texts of these blocks joined by the separator. *)
Theorem BuildMessages_system_parts
    (lib : GoLib) (w : World) (cb : ContextBuilder) (history : list Message)
    (summary currentMessage : string) (media : list string) (channel chatID : string) :
  let messages :=
    fst (value (BuildMessages lib w cb history summary currentMessage media channel chatID)) in
  let staticPrompt := fst (value (BuildSystemPromptWithCache lib w cb)) in
  let dynamicCtx := value (buildDynamicContext lib w channel chatID) in
  exists sys rest,
    messages = sys :: rest /\ Role sys = "system" /\
    SystemParts sys =
      mkContentBlock "text" staticPrompt (Some (mkCacheControl "ephemeral"))
      :: mkContentBlock "text" dynamicCtx None
      :: (if String.eqb summary "" then []
          else [mkContentBlock "text" (summaryPrefix +:+ summary) None]) /\
    (forall (i : nat) b, SystemParts sys !! i = Some b ->
       (CacheControl_ b <> None <-> i = 0%nat)) /\
    length (SystemParts sys) = (if String.eqb summary "" then 2 else 3)%nat /\
    Content sys = strings_Join (map Text (SystemParts sys)) partSeparator /\
    partSeparator = nl +:+ nl +:+ "---" +:+ nl +:+ nl.
Proof.
  intros messages staticPrompt dynamicCtx. subst messages.
  rewrite BuildMessages_value. fold staticPrompt dynamicCtx.
  eexists _, _. split; [reflexivity|]. simpl Role. simpl SystemParts. simpl Content.
  split; [reflexivity|]. split; [reflexivity|].
  unfold systemBlocks. split; [|split; [|split]].
  - intros i b Hb. destruct i as [|[|[|i]]]; simpl in Hb.
    + injection Hb as <-. simpl. split; [reflexivity|discriminate].
    + injection Hb as <-. simpl. split; [congruence|discriminate].
    + destruct (String.eqb summary ""); simpl in Hb; [discriminate|].
      injection Hb as <-. simpl. split; [congruence|discriminate].
    + destruct (String.eqb summary ""); simpl in Hb; discriminate.
  - destruct (String.eqb summary ""); reflexivity.
  - reflexivity.
  - reflexivity.
Qed.

Lemma BuildMessages_system_parts_witness :
  exists sys rest,
    fst (value (BuildMessages Demo.lib Demo.skillWorld
                  (NewContextBuilder Demo.lib Demo.skillWorld "ws")
                  [plainMessage "user" "hi"] "earlier talk" "hello" [] "cli" "c1"))
    = sys :: rest /\
    length (SystemParts sys) = 3%nat.
Proof.
  destruct (BuildMessages_system_parts Demo.lib Demo.skillWorld
              (NewContextBuilder Demo.lib Demo.skillWorld "ws")
              [plainMessage "user" "hi"] "earlier talk" "hello" [] "cli" "c1")
    as (sys & rest & Hm & _ & _ & _ & Hlen & _).
  exists sys, rest. split; [exact Hm | exact Hlen].
Defined.

(** C10.  [AddAssistantMessage] returns its input list with one message
    appended; that message has role "assistant", the given content and no
    tool calls; the [toolCalls] argument has no influence on the result,
    and the messages already in the list stay as they are. *)
Theorem AddAssistantMessage_ignores_toolCalls
    (V : Type) (messages : list Message) (content : string)
    (toolCalls : list (gmap string V)) :
  let out := AddAssistantMessage messages content toolCalls in
  (exists msg, out = messages ++ [msg] /\
     Role msg = "assistant" /\ Content msg = content /\ ToolCalls msg = []) /\
  length out = S (length messages) /\
  (forall (i : nat) m, messages !! i = Some m -> out !! i = Some m) /\
  (forall toolCalls' : list (gmap string V),
     AddAssistantMessage messages content toolCalls' = out).
Proof.
  intros out. subst out. unfold AddAssistantMessage. split; [|split; [|split]].
  - eexists. split; [reflexivity|]. repeat split.
  - rewrite length_app. simpl. lia.
  - intros i m Hm. rewrite lookup_app_l; [exact Hm|].
    eapply lookup_lt_Some; eassumption.
  - reflexivity.
Qed.

Lemma AddAssistantMessage_ignores_toolCalls_witness :
  length (AddAssistantMessage [plainMessage "user" "hi"] "done"
            [({[ "name" := "read_file" ]} : gmap string string)]) = 2%nat.
Proof.
  exact (proj1 (proj2 (AddAssistantMessage_ignores_toolCalls string
                         [plainMessage "user" "hi"] "done" [{[ "name" := "read_file" ]}]))).
Defined.

(** C3 (as amended).  When none of the watched paths exists (no stat of
    the four bootstrap files, the memory file, the skills directory or a
    file below it succeeds), [buildCacheBaseline] returns the sentinel
    [time.Unix(1, 0)] as [maxMtime] -- a value that is not the zero
    instant and was not read from the clock -- and records [false] for
    every watched path.  When at least one observed mtime is strictly
    after the zero instant, [maxMtime] is the latest mtime observed.  In
    every case the existence map records, for each watched path, whether
    its stat succeeded. *)
Theorem buildCacheBaseline_sentinel_or_latest (lib : GoLib) (w : World) (cb : ContextBuilder) :
  let baseline := value (buildCacheBaseline lib w cb) in
  let observed := observedMtimes lib w cb in
  ((forall p, In p (watchedPaths lib cb ++ walkedFiles (walk w (skillsDirOf lib cb))) ->
              os_Stat w p = None) ->
   maxMtime baseline = Unix 1 0 /\
   exists m, existed baseline = Some m /\
             forall p, In p (watchedPaths lib cb) -> m !! p = Some false) /\
  ((exists t, In t observed /\ After t zero = true) ->
   isLatestOf (maxMtime baseline) observed) /\
  (exists m, existed baseline = Some m /\
             forall p, In p (watchedPaths lib cb) -> m !! p = Some (isSome (os_Stat w p))) /\
  IsZero (Unix 1 0) = false /\
  ~ In EvClock (trace (buildCacheBaseline lib w cb)).
Proof.
  intros baseline observed. subst baseline observed.
  split; [|split; [|split; [|split]]].
  - intros Habsent. split.
    + apply baseline_sentinel. rewrite (observed_nil_of_absent lib w cb Habsent).
      intros t [].
    + eexists. split; [apply baseline_existed|].
      intros p Hp. rewrite recordAll_lookup by exact Hp.
      rewrite (Habsent p); [reflexivity|]. apply in_or_app. left. exact Hp.
  - apply baseline_latest.
  - eexists. split; [apply baseline_existed|].
    intros p Hp. apply recordAll_lookup. exact Hp.
  - reflexivity.
  - apply baseline_no_clock.
Qed.

Lemma buildCacheBaseline_sentinel_or_latest_witness :
  isLatestOf
    (maxMtime (value (buildCacheBaseline Demo.lib Demo.skillWorld
                        (NewContextBuilder Demo.lib Demo.skillWorld "ws"))))
    (observedMtimes Demo.lib Demo.skillWorld (NewContextBuilder Demo.lib Demo.skillWorld "ws")).
Proof.
  apply (buildCacheBaseline_sentinel_or_latest Demo.lib Demo.skillWorld).
  exists Demo.t2025. split; [vm_compute; tauto | reflexivity].
Defined.

(** C3 as first stated fails: a watched file exists, its mtime (the zero
    instant) is the only and hence the latest mtime observed, and yet
    [maxMtime] is the sentinel. *)
Lemma buildCacheBaseline_zero_mtime :
  os_Stat Demo.zeroMtimeWorld "ws/AGENTS.md" = Some zero /\
  observedMtimes Demo.lib Demo.zeroMtimeWorld
    (NewContextBuilder Demo.lib Demo.zeroMtimeWorld "ws") = [zero] /\
  maxMtime (value (buildCacheBaseline Demo.lib Demo.zeroMtimeWorld
                     (NewContextBuilder Demo.lib Demo.zeroMtimeWorld "ws"))) = Unix 1 0 /\
  Unix 1 0 <> zero.
Proof. repeat split; try reflexivity. discriminate. Qed.

(** C4.  The staleness detector tests its conditions in order and stops
    at the first that holds.  (1) With the zero instant as last-build
    time it reports stale without touching the file system.  (2) It then
    checks the watched files one after the other and reports stale at the
    first that changed; nothing after that file is looked at.  (3) It then
    checks the skills directory itself in the same way.  (4) Only then it
    walks the skills directory: the result and the events of the walk
    come last.  The walk reports stale at the first file, at whatever
    depth, whose mtime is strictly after the baseline's maximum: the
    callback returns [errWalkStop], so that no later entry is visited; if
    there is no such file every entry is visited and the result is "not
    stale"; a missing directory gives "not stale", and nothing is
    logged. *)
Theorem sourceFilesChangedLocked_in_order (lib : GoLib) (w : World) (cb : ContextBuilder) :
  let t := cachedAt cb in
  let files := sourcePaths lib cb in
  let dir := skillsDirOf lib cb in
  let unchanged := fun q => value (fileChangedSince w cb q) = false in
  (IsZero t = true -> sourceFilesChangedLocked lib w cb = (true, [])) /\
  (IsZero t = false ->
   forall pre p post, files = pre ++ p :: post ->
     Forall unchanged pre -> value (fileChangedSince w cb p) = true ->
     sourceFilesChangedLocked lib w cb = (true, checkEvents w cb (pre ++ [p]))) /\
  (IsZero t = false ->
   Forall unchanged files -> value (fileChangedSince w cb dir) = true ->
   sourceFilesChangedLocked lib w cb = (true, checkEvents w cb (files ++ [dir]))) /\
  (IsZero t = false ->
   Forall unchanged (files ++ [dir]) ->
   sourceFilesChangedLocked lib w cb =
     (value (skillFilesModifiedSince w dir t),
      checkEvents w cb (files ++ [dir]) ++ trace (skillFilesModifiedSince w dir t))) /\
  (forall pre a post, walk w dir = pre ++ a :: post ->
     Forall (fun b => isNewerFile w t b = false) pre -> isNewerFile w t a = true ->
     WalkDir w dir (modifiedWalkFn w t) false =
       ((Some errWalkStop, true), EvWalkDir dir :: flat_map visitEvents (pre ++ [a])) /\
     skillFilesModifiedSince w dir t =
       (true, EvWalkDir dir :: flat_map visitEvents (pre ++ [a]))) /\
  (Forall (fun b => isNewerFile w t b = false) (walk w dir) ->
   skillFilesModifiedSince w dir t =
     (false, EvWalkDir dir :: flat_map visitEvents (walk w dir))) /\
  (walk w dir = [VisitErr dir] ->
   skillFilesModifiedSince w dir t = (false, [EvWalkDir dir; EvVisit dir])).
Proof.
  intros t files dir unchanged. subst t files dir unchanged.
  split; [|split; [|split; [|split; [|split; [|split]]]]].
  - apply changed_zero.
  - intros Hz pre p post. apply changed_by_file. exact Hz.
  - apply changed_by_dir.
  - apply changed_by_walk.
  - intros pre a post. apply skillFiles_hit.
  - apply skillFiles_none.
  - intros Hw. rewrite skillFiles_none; rewrite Hw; [reflexivity|].
    repeat constructor.
Qed.

Lemma sourceFilesChangedLocked_in_order_witness :
  sourceFilesChangedLocked Demo.lib Demo.skillWorld Demo.builtBefore =
    (true,
     [ EvStat "ws/AGENTS.md"; EvStat "ws/SOUL.md"; EvStat "ws/USER.md";
       EvStat "ws/IDENTITY.md"; EvStat "ws/memory/MEMORY.md"; EvStat "ws/skills";
       EvWalkDir "ws/skills"; EvVisit "ws/skills";
       EvVisit "ws/skills/README"; EvStat "ws/skills/README";
       EvVisit "ws/skills/demo";
       EvVisit "ws/skills/demo/SKILL.md"; EvStat "ws/skills/demo/SKILL.md" ]).
Proof.
  pose proof (sourceFilesChangedLocked_in_order Demo.lib Demo.skillWorld Demo.builtBefore)
    as (_ & _ & _ & Hwalk & _).
  rewrite Hwalk.
  - vm_compute. reflexivity.
  - vm_compute. reflexivity.
  - unfold sourcePaths. cbn [app].
    repeat (constructor; [vm_compute; reflexivity|]). constructor.
Defined.

(** C6 (as amended).  Take any sequence of calls of the cached prompt
    getter during which neither the existence nor the mtime of a watched
    file, of the skills directory or of a file below it changes (contents
    may change, and so may the directories below the skills directory).
    Every call returns the same string.  That string does not contain the
    time marker "## Current Time" provided the marker occurs in none of
    the texts the prompt is assembled from (the workspace path, the
    bootstrap files, the skills summary, the memory context) nor in a
    prompt that was already cached before the first call.  The cached
    getter never calls the dynamic-context builder: that builder reads
    the clock whenever it is called, and no call of the getter, in
    whatever state and world, ever does. *)
Theorem promptCalls_stable
    (lib : GoLib) (cb : ContextBuilder) (w0 : World) (ws : list World)
    (Hsame : Forall (sameWatched lib cb w0) ws) :
  let outs := promptCalls lib (w0 :: ws) cb in
  (forall p q, In p outs -> In q outs -> p = q) /\
  (strings_Contains (cachedSystemPrompt cb) timeMarker = false ->
   staticSourcesLack lib w0 cb timeMarker ->
   forall p, In p outs -> strings_Contains p timeMarker = false) /\
  clockFree (promptEvents lib (w0 :: ws) cb) = true /\
  (forall ws' cb', clockFree (promptEvents lib ws' cb') = true) /\
  (forall w channel chatID,
     clockFree (trace (buildDynamicContext lib w channel chatID)) = false).
Proof.
  intros outs. subst outs. split; [|split; [|split; [|split]]].
  - intros p q Hp Hq.
    rewrite (promptCalls_constant lib w0 ws cb Hsame p Hp).
    rewrite (promptCalls_constant lib w0 ws cb Hsame q Hq). reflexivity.
  - intros Hc Hs p Hp.
    rewrite (promptCalls_constant lib w0 ws cb Hsame p Hp).
    apply getter_marker; assumption.
  - apply clock_promptEvents.
  - intros ws' cb'. apply clock_promptEvents.
  - intros w channel chatID. apply clock_buildDynamicContext.
Qed.

Lemma promptCalls_stable_witness :
  (forall p q,
     In p (promptCalls Demo.lib [Demo.skillWorld; Demo.skillWorldEdited; skillWorldNewDir]
             (NewContextBuilder Demo.lib Demo.skillWorld "ws")) ->
     In q (promptCalls Demo.lib [Demo.skillWorld; Demo.skillWorldEdited; skillWorldNewDir]
             (NewContextBuilder Demo.lib Demo.skillWorld "ws")) -> p = q) /\
  (strings_Contains
     (cachedSystemPrompt (NewContextBuilder Demo.lib Demo.skillWorld "ws")) timeMarker = false ->
   staticSourcesLack Demo.lib Demo.skillWorld
     (NewContextBuilder Demo.lib Demo.skillWorld "ws") timeMarker ->
   forall p,
     In p (promptCalls Demo.lib [Demo.skillWorld; Demo.skillWorldEdited; skillWorldNewDir]
             (NewContextBuilder Demo.lib Demo.skillWorld "ws")) ->
     strings_Contains p timeMarker = false) /\
  clockFree (promptEvents Demo.lib [Demo.skillWorld; Demo.skillWorldEdited; skillWorldNewDir]
               (NewContextBuilder Demo.lib Demo.skillWorld "ws")) = true /\
  (forall ws' cb', clockFree (promptEvents Demo.lib ws' cb') = true) /\
  (forall w channel chatID,
     clockFree (trace (buildDynamicContext Demo.lib w channel chatID)) = false).
Proof.
  apply (promptCalls_stable Demo.lib (NewContextBuilder Demo.lib Demo.skillWorld "ws")
           Demo.skillWorld [Demo.skillWorldEdited; skillWorldNewDir]).
  constructor; [|constructor; [|constructor]].
  - split; [|split].
    + intros p Hp; vm_compute in Hp; decompose [or] Hp; subst; try contradiction; reflexivity.
    + intros p; split; intros Hp; vm_compute in Hp; vm_compute; tauto.
    + intros p Hp; vm_compute in Hp; decompose [or] Hp; subst; try contradiction; reflexivity.
  - split; [|split].
    + intros p Hp; vm_compute in Hp; decompose [or] Hp; subst; try contradiction; reflexivity.
    + intros p; split; intros Hp; vm_compute in Hp; vm_compute; tauto.
    + intros p Hp; vm_compute in Hp; decompose [or] Hp; subst; try contradiction; reflexivity.
Defined.

(** C6 as first stated fails: no file changes between the two calls and
    both return the same string, but the string contains the time marker,
    because AGENTS.md has a line that begins with it. *)
Lemma promptCalls_marker_in_file :
  Forall (fun p => strings_Contains p timeMarker = true)
    (promptCalls Demo.lib [Demo.markerWorld; Demo.markerWorld]
       (NewContextBuilder Demo.lib Demo.markerWorld "ws")) /\
  length (promptCalls Demo.lib [Demo.markerWorld; Demo.markerWorld]
            (NewContextBuilder Demo.lib Demo.markerWorld "ws")) = 2%nat.
Proof. split; [vm_compute; repeat constructor | reflexivity]. Qed.

(** C7.  [InvalidateCache] always puts the cache into its zero state: the
    cached prompt is the empty string, the last-build time is the zero
    instant and the existence map is nil; the other fields stay, and the
    only thing it does besides is to write a log line: no file is read.
    When the builder has been used in a world that has not changed, a
    call of the cached getter after the invalidation returns the very
    string that was cached before it. *)
Theorem InvalidateCache_resets (lib : GoLib) (w : World) (cb : ContextBuilder) :
  let cleared := value (InvalidateCache cb) in
  cachedSystemPrompt cleared = "" /\
  cachedAt cleared = zero /\ IsZero (cachedAt cleared) = true /\
  existedAtCache cleared = None /\
  workspace cleared = workspace cb /\ skillsLoader cleared = skillsLoader cb /\
  Forall (fun e => isFileAccess e = false) (trace (InvalidateCache cb)) /\
  (reachable lib w cb -> cachedSystemPrompt cb <> "" ->
   fst (value (BuildSystemPromptWithCache lib w cleared)) = cachedSystemPrompt cb).
Proof.
  intros cleared. subst cleared. repeat split.
  - repeat constructor.
  - intros Hr Hne. rewrite rebuild_after_invalidate.
    destruct (reachable_cached lib w cb Hr) as [E|E]; [contradiction | symmetry; exact E].
Qed.

Lemma InvalidateCache_resets_witness :
  fst (value (BuildSystemPromptWithCache Demo.lib Demo.skillWorldBefore
                (value (InvalidateCache Demo.builtBefore)))) =
  cachedSystemPrompt Demo.builtBefore.
Proof.
  apply (InvalidateCache_resets Demo.lib Demo.skillWorldBefore Demo.builtBefore).
  - apply reach_prompt. apply reach_new.
  - vm_compute. discriminate.
Defined.

(** C9.  A discovered skill whose metadata is malformed -- empty name,
    empty description, a name of more than 64 bytes, a description of more
    than 1024 bytes, or a name that does not match
    [^[a-zA-Z0-9]+(-[a-zA-Z0-9]+)*$] -- is not in the list [ListSkills]
    returns, and a warning is logged for it.  The list is what the valid
    discovered skills give (the first of every name, in order of
    priority), so every well-formed skill is still listed under its name;
    the summary renders this list and nothing else.  [ListSkills] returns
    a list and no error. *)
Theorem ListSkills_excludes_malformed (lib : GoLib) (w : World) (sl : SkillsLoader) :
  let listed := value (ListSkills lib w sl) in
  let found := discovered lib w sl in
  (forall info, In info found -> malformed info ->
     ~ In info listed /\
     In (invalidSkillWarning (Source info)) (trace (ListSkills lib w sl))) /\
  (forall s, In s listed -> In s found /\ validate s = [] /\ ~ malformed s) /\
  listed = firstByName (fun _ => false) (List.filter isValid found) /\
  (forall info, In info found -> ~ malformed info ->
     exists s, In s listed /\ Name s = Name info) /\
  List.filter isSlogWarning (trace (ListSkills lib w sl)) =
    map (fun c => invalidSkillWarning (Source c))
        (List.filter (fun c => negb (isValid c)) found) /\
  value (BuildSkillsSummary lib w sl) = renderSkills listed.
Proof.
  intros listed found. subst listed found.
  split; [|split; [|split; [|split; [|split]]]].
  - intros info Hin Hm. split.
    + apply malformed_not_listed. exact Hm.
    + apply malformed_warned; assumption.
  - intros s Hs. apply listed_valid in Hs. destruct Hs as [Hin Hv].
    split; [exact Hin|]. split; [apply isValid_validate; exact Hv|].
    intros Hm. apply isValid_false_malformed in Hm. congruence.
  - apply ListSkills_value.
  - intros info Hin Hm. apply wellformed_listed; assumption.
  - apply ListSkills_warnings.
  - apply BuildSkillsSummary_value.
Qed.

Lemma ListSkills_excludes_malformed_witness :
  ~ In (mkSkillInfo "bad_name" "ws/skills/bad/SKILL.md" "workspace" "Underscore in the name")
       (value (ListSkills Demo.lib Demo.mixedSkillsWorld
                 (skillsLoader (NewContextBuilder Demo.lib Demo.mixedSkillsWorld "ws")))) /\
  In (invalidSkillWarning "workspace")
     (trace (ListSkills Demo.lib Demo.mixedSkillsWorld
               (skillsLoader (NewContextBuilder Demo.lib Demo.mixedSkillsWorld "ws")))).
Proof.
  apply (proj1 (ListSkills_excludes_malformed Demo.lib Demo.mixedSkillsWorld
                  (skillsLoader (NewContextBuilder Demo.lib Demo.mixedSkillsWorld "ws")))
           (mkSkillInfo "bad_name" "ws/skills/bad/SKILL.md" "workspace" "Underscore in the name")).
  - vm_compute. tauto.
  - right. right. right. right. vm_compute. reflexivity.
Defined.

(* ================================================================== *)
(** * Further properties of the code *)
(* ================================================================== *)

(** X1.  Sanitizing is idempotent: a history that went through the
    sanitizer once comes out of it unchanged. *)
Theorem sanitize_idempotent (history : list Message) :
  value (sanitizeHistoryForProvider (value (sanitizeHistoryForProvider history))) =
  value (sanitizeHistoryForProvider history).
Proof. apply wellPaired_unchanged. apply sanitize_wellPaired. Qed.

(** X2.  The sanitizer only removes: its output is the input with some
    messages left out, in the same order, and so never longer. *)
Theorem sanitize_only_removes (history : list Message) :
  sublist (value (sanitizeHistoryForProvider history)) history /\
  (length (value (sanitizeHistoryForProvider history)) <= length history)%nat.
Proof.
  assert (H : sublist (value (sanitizeHistoryForProvider history)) history).
  { rewrite sanitize_rules. apply (sanitizeRules_sublist history []). }
  split; [exact H | apply sublist_length; exact H].
Qed.

(** X3.  What comes out of the sanitizer is paired up: it holds no
    system message; it does not begin with a tool message or with an
    assistant message that carries tool calls; a tool message comes right
    after another tool message or after an assistant message with tool
    calls; and an assistant message with tool calls comes right after a
    user or a tool message. *)
Theorem sanitize_output_paired (history : list Message) :
  let out := value (sanitizeHistoryForProvider history) in
  (forall m, In m out -> Role m <> "system") /\
  (forall m rest, out = m :: rest ->
     Role m <> "tool" /\ (Role m = "assistant" -> ToolCalls m = [])) /\
  (forall pre p m post, out = pre ++ p :: m :: post ->
     (Role m = "tool" ->
      Role p = "tool" \/ (Role p = "assistant" /\ ToolCalls p <> [])) /\
     (Role m = "assistant" -> ToolCalls m <> [] -> Role p = "user" \/ Role p = "tool")).
Proof.
  intros out. subst out.
  pose proof (sanitize_wellPaired history) as Hwp.
  pose proof (sanitize_no_system history) as Hns.
  set (out := value (sanitizeHistoryForProvider history)) in *.
  split; [|split].
  - intros m Hm. rewrite Forall_forall in Hns. apply isRole_false. apply Hns.
    apply list_elem_of_In. exact Hm.
  - intros m rest E. rewrite E in Hwp.
    pose proof (wellPaired_at [] m rest Hwp) as Hk. apply keptBy_first in Hk. tauto.
  - intros pre p m post E. rewrite E in Hwp.
    change (pre ++ p :: m :: post) with (pre ++ [p] ++ m :: post) in Hwp.
    rewrite app_assoc in Hwp. apply wellPaired_at in Hwp.
    exact (keptBy_predecessor pre p m Hwp).
Qed.

(** X4.  The histories the sanitizer returns unchanged are exactly the
    well-paired ones; a history of plain user and assistant messages is
    one of them. *)
Theorem sanitize_fixed_points (history : list Message) :
  (value (sanitizeHistoryForProvider history) = history <-> wellPaired history = true) /\
  (Forall (fun m => (Role m = "user" \/ Role m = "assistant") /\ ToolCalls m = []) history ->
   value (sanitizeHistoryForProvider history) = history).
Proof.
  split.
  - split; [apply unchanged_wellPaired | apply wellPaired_unchanged].
  - intros H. apply wellPaired_unchanged. unfold wellPaired.
    generalize (@nil Message). induction H as [|m l [Hr Ht] _ IH]; intros acc; [reflexivity|].
    simpl. rewrite IH, andb_true_r. apply keptBy_other.
    + destruct Hr as [-> | ->]; discriminate.
    + destruct Hr as [-> | ->]; discriminate.
    + intros _. exact Ht.
Qed.

Lemma sanitize_fixed_points_witness :
  value (sanitizeHistoryForProvider
           [plainMessage "user" "hi"; plainMessage "assistant" "hello"]) =
  [plainMessage "user" "hi"; plainMessage "assistant" "hello"].
Proof.
  apply (proj2 (sanitize_fixed_points _)).
  constructor; [split; [left; reflexivity | reflexivity]|].
  constructor; [split; [right; reflexivity | reflexivity]|].
  constructor.
Defined.

(** X5.  No message is dropped silently: the sanitizer writes one debug
    line for every message it drops and none for a message it keeps. *)
Theorem sanitize_logs_every_drop (history : list Message) :
  (length (value (sanitizeHistoryForProvider history))
   + length (trace (sanitizeHistoryForProvider history)) = length history)%nat /\
  Forall (fun e => exists text, e = EvLog "DEBUG" "agent" text)
         (trace (sanitizeHistoryForProvider history)).
Proof.
  unfold sanitizeHistoryForProvider. destruct history as [|m rest]; [split; [reflexivity|constructor]|].
  change (length (m :: rest) =? 0)%nat with false. cbv iota. split.
  - rewrite (sanitizeLoop_accounts (m :: rest) []). reflexivity.
  - apply sanitizeLoop_debug_only.
Qed.

(** X6.  A tool result appended with [AddToolResult] right after a
    message appended with [AddAssistantMessage] does not survive: the
    assistant message carries no tool calls, so the sanitizer -- and with
    it [BuildMessages] -- drops the tool message. *)
Theorem tool_result_after_AddAssistantMessage_dropped
    (V : Type) (lib : GoLib) (w : World) (cb : ContextBuilder)
    (messages : list Message) (content : string) (toolCalls : list (gmap string V))
    (toolCallID toolName result : string)
    (summary currentMessage : string) (media : list string) (channel chatID : string) :
  let withAssistant := AddAssistantMessage messages content toolCalls in
  let withResult := AddToolResult withAssistant toolCallID toolName result in
  withResult = withAssistant ++ [mkMessage "tool" result [] [] toolCallID] /\
  value (sanitizeHistoryForProvider withResult) =
    value (sanitizeHistoryForProvider withAssistant) /\
  fst (value (BuildMessages lib w cb withResult summary currentMessage media channel chatID)) =
    fst (value (BuildMessages lib w cb withAssistant summary currentMessage media channel chatID)).
Proof.
  intros withAssistant withResult. subst withAssistant withResult.
  assert (Hs : value (sanitizeHistoryForProvider
                        (AddToolResult (AddAssistantMessage messages content toolCalls)
                           toolCallID toolName result)) =
               value (sanitizeHistoryForProvider
                        (AddAssistantMessage messages content toolCalls))).
  { unfold AddToolResult, AddAssistantMessage. rewrite <- app_assoc.
    apply sanitize_drops_result_after_plain; reflexivity. }
  split; [reflexivity|]. split; [exact Hs|].
  rewrite !BuildMessages_value, Hs. reflexivity.
Qed.

(** X7.  When the current message is empty or consists of white space
    only, [BuildMessages] appends no user message: the list is the system
    message followed by the sanitized history.  Otherwise the user message
    it appends carries the current message as given, untrimmed.  The media
    argument has no influence on the result. *)
Theorem BuildMessages_current_message
    (lib : GoLib) (w : World) (cb : ContextBuilder) (history : list Message)
    (summary currentMessage : string) (media : list string) (channel chatID : string) :
  let messages :=
    fst (value (BuildMessages lib w cb history summary currentMessage media channel chatID)) in
  (strings_TrimSpace lib currentMessage = "" ->
   exists sys, messages = sys :: value (sanitizeHistoryForProvider history)) /\
  (strings_TrimSpace lib currentMessage <> "" ->
   exists sys, messages = sys :: value (sanitizeHistoryForProvider history)
                          ++ [mkMessage "user" currentMessage [] [] ""]) /\
  (forall media',
     BuildMessages lib w cb history summary currentMessage media' channel chatID =
     BuildMessages lib w cb history summary currentMessage media channel chatID).
Proof.
  intros messages. subst messages. rewrite BuildMessages_value. split; [|split].
  - intros ->. simpl. rewrite app_nil_r. eexists. reflexivity.
  - intros Hne. apply String.eqb_neq in Hne. rewrite Hne. simpl. eexists. reflexivity.
  - reflexivity.
Qed.

Lemma BuildMessages_current_message_witness :
  exists sys,
    fst (value (BuildMessages Demo.lib Demo.emptyWorld
                  (NewContextBuilder Demo.lib Demo.emptyWorld "ws")
                  [plainMessage "user" "hi"; plainMessage "assistant" "hello"]
                  "" "   " [] "cli" "c1"))
    = sys :: value (sanitizeHistoryForProvider
                      [plainMessage "user" "hi"; plainMessage "assistant" "hello"]).
Proof.
  apply (BuildMessages_current_message Demo.lib Demo.emptyWorld).
  reflexivity.
Defined.

(** X8.  The flat text of the system message begins with the static
    prompt, followed by the separator and the dynamic context, which
    begins with the time marker and the formatted time; with a non-empty
    summary the text ends with the separator, the summary disclaimer and
    the summary.  So the text always contains "## Current Time". *)
Theorem BuildMessages_system_text
    (lib : GoLib) (w : World) (cb : ContextBuilder) (history : list Message)
    (summary currentMessage : string) (media : list string) (channel chatID : string) :
  let messages :=
    fst (value (BuildMessages lib w cb history summary currentMessage media channel chatID)) in
  let staticPrompt := fst (value (BuildSystemPromptWithCache lib w cb)) in
  exists sys rest dynamicTail,
    messages = sys :: rest /\
    Content sys =
      staticPrompt +:+ partSeparator +:+
      (timeMarker +:+ nl +:+ nowFormatted w +:+ dynamicTail) +:+
      (if String.eqb summary "" then ""
       else partSeparator +:+ summaryPrefix +:+ summary) /\
    String.prefix staticPrompt (Content sys) = true /\
    strings_Contains (Content sys) timeMarker = true.
Proof.
  intros messages staticPrompt. subst messages. rewrite BuildMessages_value.
  fold staticPrompt.
  destruct (buildDynamicContext_value lib w channel chatID) as [tail Hd].
  eexists _, _, tail. split; [reflexivity|]. cbn [Content].
  rewrite systemText, Hd. split; [reflexivity|]. split.
  - apply prefix_append.
  - apply Contains_after, Contains_after. rewrite !append_assoc. apply Contains_here.
Qed.

(** X9.  The static block is stable across requests: when a second
    [BuildMessages] call follows a first one and the watched files look
    the same (existence and mtimes), the first block of its system message
    -- the one marked "ephemeral" -- is the same as in the first call,
    whatever the time, the session, the summary and the history are. *)
Theorem BuildMessages_static_block_stable
    (lib : GoLib) (w1 w2 : World) (cb : ContextBuilder)
    (history1 history2 : list Message) (summary1 summary2 current1 current2 : string)
    (media1 media2 : list string) (channel1 channel2 chatID1 chatID2 : string)
    (Hsame : sameWatched lib cb w1 w2) :
  let r1 := value (BuildMessages lib w1 cb history1 summary1 current1 media1 channel1 chatID1) in
  let r2 := value (BuildMessages lib w2 (snd r1) history2 summary2 current2 media2
                     channel2 chatID2) in
  exists static sys1 rest1 blocks1 sys2 rest2 blocks2,
    fst r1 = sys1 :: rest1 /\ fst r2 = sys2 :: rest2 /\
    SystemParts sys1 = mkContentBlock "text" static (Some (mkCacheControl "ephemeral")) :: blocks1 /\
    SystemParts sys2 = mkContentBlock "text" static (Some (mkCacheControl "ephemeral")) :: blocks2 /\
    String.prefix static (Content sys1) = true /\
    String.prefix static (Content sys2) = true.
Proof.
  intros r1 r2. subst r1 r2.
  rewrite BuildMessages_state, !BuildMessages_value.
  rewrite (getter_stable lib w1 w2 cb Hsame).
  set (static := fst (value (BuildSystemPromptWithCache lib w1 cb))).
  exists static. eexists _, _, _, _, _, _.
  split; [reflexivity|]. split; [reflexivity|].
  split; [reflexivity|]. split; [reflexivity|].
  cbn [Content]. rewrite !systemText. split; apply prefix_append.
Qed.

Lemma BuildMessages_static_block_stable_witness :
  exists static sys1 rest1 blocks1 sys2 rest2 blocks2,
    fst (value (BuildMessages Demo.lib Demo.skillWorld
                  (NewContextBuilder Demo.lib Demo.skillWorld "ws")
                  [] "" "first" [] "cli" "c1")) = sys1 :: rest1 /\
    fst (value (BuildMessages Demo.lib Demo.skillWorldEdited
                  (snd (value (BuildMessages Demo.lib Demo.skillWorld
                                 (NewContextBuilder Demo.lib Demo.skillWorld "ws")
                                 [] "" "first" [] "cli" "c1")))
                  [plainMessage "user" "first"] "summary" "second" [] "" "")) = sys2 :: rest2 /\
    SystemParts sys1 = mkContentBlock "text" static (Some (mkCacheControl "ephemeral")) :: blocks1 /\
    SystemParts sys2 = mkContentBlock "text" static (Some (mkCacheControl "ephemeral")) :: blocks2 /\
    String.prefix static (Content sys1) = true /\
    String.prefix static (Content sys2) = true.
Proof.
  apply (BuildMessages_static_block_stable Demo.lib Demo.skillWorld Demo.skillWorldEdited
           (NewContextBuilder Demo.lib Demo.skillWorld "ws")).
  split; [|split].
  - intros p Hp; vm_compute in Hp; decompose [or] Hp; subst; try contradiction; reflexivity.
  - intros p; split; intros Hp; vm_compute in Hp; vm_compute; tauto.
  - intros p Hp; vm_compute in Hp; decompose [or] Hp; subst; try contradiction; reflexivity.
Defined.

(** X10.  The cached getter never returns the empty string, and what it
    returns is what the cache holds after the call; the workspace and the
    skills loader of the builder stay as they are. *)
Theorem BuildSystemPromptWithCache_coherent (lib : GoLib) (w : World) (cb : ContextBuilder) :
  let r := value (BuildSystemPromptWithCache lib w cb) in
  fst r <> "" /\
  cachedSystemPrompt (snd r) = fst r /\
  workspace (snd r) = workspace cb /\
  skillsLoader (snd r) = skillsLoader cb.
Proof.
  intros r. subst r. split; [apply getter_nonempty|]. split; [apply getter_coherent|].
  rewrite getter_value. destruct (isFresh lib w cb); split; reflexivity.
Qed.

(** X11.  A cache hit reads no file.  When the cache holds a prompt and
    the detector sees no change, the getter returns the cached prompt,
    leaves the builder as it is, and all it does is: one stat for each of
    the six watched paths, then the walk of the skills directory with one
    stat for every file below it.  Nothing is read, listed or logged. *)
Theorem cache_hit_only_stats (lib : GoLib) (w : World) (cb : ContextBuilder)
    (Hfresh : isFresh lib w cb = true) :
  BuildSystemPromptWithCache lib w cb =
    ((cachedSystemPrompt cb, cb),
     map EvStat (watchedPaths lib cb) ++
     EvWalkDir (skillsDirOf lib cb) :: flat_map visitEvents (walk w (skillsDirOf lib cb))) /\
  length (watchedPaths lib cb) = 6%nat /\
  forallb isStatOrWalk (trace (BuildSystemPromptWithCache lib w cb)) = true.
Proof.
  rewrite (getter_hit lib w cb Hfresh). split; [reflexivity|]. split; [reflexivity|].
  cbn [trace snd]. rewrite forallb_app. apply andb_true_iff. split.
  - induction (watchedPaths lib cb); [reflexivity | exact IHl].
  - cbn [forallb isStatOrWalk andb].
    induction (walk w (skillsDirOf lib cb)) as [|a l IH]; [reflexivity|].
    cbn [flat_map]. rewrite forallb_app, IH, andb_true_r.
    destruct a as [p [|]|p]; reflexivity.
Qed.

Lemma cache_hit_only_stats_witness :
  BuildSystemPromptWithCache Demo.lib Demo.skillWorldBefore Demo.builtBefore =
    ((cachedSystemPrompt Demo.builtBefore, Demo.builtBefore),
     map EvStat (watchedPaths Demo.lib Demo.builtBefore) ++
     EvWalkDir (skillsDirOf Demo.lib Demo.builtBefore)
     :: flat_map visitEvents (walk Demo.skillWorldBefore (skillsDirOf Demo.lib Demo.builtBefore))) /\
  length (watchedPaths Demo.lib Demo.builtBefore) = 6%nat /\
  forallb isStatOrWalk
    (trace (BuildSystemPromptWithCache Demo.lib Demo.skillWorldBefore Demo.builtBefore)) = true.
Proof.
  apply (cache_hit_only_stats Demo.lib Demo.skillWorldBefore Demo.builtBefore).
  vm_compute. reflexivity.
Defined.

(** X12.  After a rebuild the cache notices what the detector is meant
    to notice.  Let the builder be rebuilt in the world [w0] (a call after
    [InvalidateCache]).  In a later world the cache is stale, and the next
    call returns the prompt of that world, as soon as one watched path
    was created or deleted, or a watched path has an mtime strictly after
    the baseline, or a file below the skills directory has. *)
Theorem rebuild_then_detect (lib : GoLib) (w0 w : World) (cb : ContextBuilder) :
  let cb1 := snd (value (BuildSystemPromptWithCache lib w0 (value (InvalidateCache cb)))) in
  let stale :=
    value (sourceFilesChangedLocked lib w cb1) = true /\
    fst (value (BuildSystemPromptWithCache lib w cb1)) = value (BuildSystemPrompt lib w cb) in
  (forall p, In p (watchedPaths lib cb) ->
     isSome (os_Stat w0 p) <> isSome (os_Stat w p) -> stale) /\
  (forall p mt, In p (watchedPaths lib cb) ->
     os_Stat w p = Some mt -> After mt (cachedAt cb1) = true -> stale) /\
  (forall a, In a (walk w (skillsDirOf lib cb)) ->
     isNewerFile w (cachedAt cb1) a = true -> stale).
Proof.
  intros cb1 stale. subst cb1 stale.
  rewrite InvalidateCache_value, getter_value.
  change (isFresh lib w0 (setCache cb "" zero None)) with false. cbn [snd].
  set (cb0 := setCache cb "" zero None).
  assert (Hgo : value (sourceFilesChangedLocked lib w (rebuilt lib w0 cb0)) = true ->
                value (sourceFilesChangedLocked lib w (rebuilt lib w0 cb0)) = true /\
                fst (value (BuildSystemPromptWithCache lib w (rebuilt lib w0 cb0))) =
                value (BuildSystemPrompt lib w cb)).
  { intros H. split; [exact H|]. rewrite (getter_miss lib w _ H). reflexivity. }
  split; [|split].
  - intros p Hp Hne. apply Hgo. apply (rebuilt_stale_existence lib w0 w cb0 p); assumption.
  - intros p mt Hp Hs Ha. apply Hgo. apply (rebuilt_stale_mtime lib w0 w cb0 p mt); assumption.
  - intros a Ha Hn. apply Hgo. apply (rebuilt_stale_walk lib w0 w cb0 a); assumption.
Qed.

Lemma rebuild_then_detect_witness :
  value (sourceFilesChangedLocked Demo.lib Demo.soulWorld
           (snd (value (BuildSystemPromptWithCache Demo.lib Demo.freshWorld
                          (value (InvalidateCache
                                    (NewContextBuilder Demo.lib Demo.freshWorld "ws"))))))) = true /\
  fst (value (BuildSystemPromptWithCache Demo.lib Demo.soulWorld
                (snd (value (BuildSystemPromptWithCache Demo.lib Demo.freshWorld
                               (value (InvalidateCache
                                         (NewContextBuilder Demo.lib Demo.freshWorld "ws"))))))))
  = value (BuildSystemPrompt Demo.lib Demo.soulWorld
             (NewContextBuilder Demo.lib Demo.freshWorld "ws")).
Proof.
  apply (proj1 (rebuild_then_detect Demo.lib Demo.freshWorld Demo.soulWorld
                  (NewContextBuilder Demo.lib Demo.freshWorld "ws")) "ws/SOUL.md").
  - vm_compute. tauto.
  - vm_compute. discriminate.
Defined.

(** X13.  The baseline is an upper bound: none of the mtimes that
    [buildCacheBaseline] observes (watched paths, files below the skills
    directory) is after the [maxMtime] it returns, and [maxMtime] is never
    the zero instant.  Its existence map is never nil. *)
Theorem buildCacheBaseline_upper_bound (lib : GoLib) (w : World) (cb : ContextBuilder) :
  let baseline := value (buildCacheBaseline lib w cb) in
  (forall t, In t (observedMtimes lib w cb) -> After t (maxMtime baseline) = false) /\
  IsZero (maxMtime baseline) = false /\
  existed baseline <> None.
Proof.
  intros baseline. subst baseline. split; [|split].
  - intros t Ht. apply baseline_upper. exact Ht.
  - apply baseline_not_zero.
  - rewrite baseline_existed. discriminate.
Qed.

(** X14.  [InvalidateCache] forces a reload: whatever the state of the
    builder and of the files, the detector then reports stale without
    touching the file system, and the next call of the getter returns the
    prompt assembled from the files as they are now -- also when no mtime
    changed. *)
Theorem InvalidateCache_forces_reload (lib : GoLib) (w : World) (cb : ContextBuilder) :
  let cleared := value (InvalidateCache cb) in
  sourceFilesChangedLocked lib w cleared = (true, []) /\
  value (BuildSystemPromptWithCache lib w cleared) =
    (value (BuildSystemPrompt lib w cb), rebuilt lib w cleared) /\
  value (InvalidateCache cleared) = cleared.
Proof.
  intros cleared. subst cleared. rewrite InvalidateCache_value.
  split; [reflexivity|]. split; [|reflexivity].
  rewrite getter_value. reflexivity.
Qed.

(** X15.  [escapeXML] works byte by byte: every [&] becomes [&amp;],
    every [<] becomes [&lt;], every [>] becomes [&gt;] and every other
    byte stays, the [&] of an inserted entity not being escaped again.
    So the result holds no [<] and no [>], is never shorter than the
    input, and equals the input when that has none of the three bytes. *)
Theorem escapeXML_bytewise (s : string) :
  escapeXML s = mapBytes escapeByte s /\
  countByte "<" (escapeXML s) = 0%nat /\
  countByte ">" (escapeXML s) = 0%nat /\
  (String.length s <= String.length (escapeXML s))%nat /\
  (countByte "&" s = 0%nat -> countByte "<" s = 0%nat -> countByte ">" s = 0%nat ->
   escapeXML s = s).
Proof.
  split; [apply escapeXML_mapBytes|]. split; [apply escapeXML_no_lt|].
  split; [apply escapeXML_no_gt|]. split; [apply escapeXML_length|].
  apply escapeXML_plain.
Qed.

(** X16.  [GetSkillsInfo] reports every skill name once: "total" and
    "available" both are the number of names; no name occurs twice; a name
    is reported exactly when some discovered skill with that name passes
    [validate]; and every reported name is non-empty, at most 64 bytes
    long and matches the name pattern. *)
Theorem GetSkillsInfo_names (lib : GoLib) (w : World) (cb : ContextBuilder) :
  let info := value (GetSkillsInfo lib w cb) in
  info_total info = length (info_names info) /\
  info_available info = info_total info /\
  NoDup (info_names info) /\
  (forall n, In n (info_names info) <->
             exists s, In s (discovered lib w (skillsLoader cb)) /\
                       validate s = [] /\ Name s = n) /\
  (forall n, In n (info_names info) ->
             n <> "" /\ (len n <= MaxNameLength)%Z /\ namePattern_MatchString n = true).
Proof.
  intros info. subst info. unfold GetSkillsInfo. rewrite value_bind.
  cbn [value ret fst info_total info_available info_names].
  split; [rewrite length_map; reflexivity|]. split; [reflexivity|].
  split; [apply listed_NoDup|]. split.
  - intros n. split.
    + intros H. apply in_map_iff in H. destruct H as (s & Hn & Hs).
      apply listed_valid in Hs. destruct Hs as [Hd Hv]. exists s.
      split; [exact Hd|]. split; [apply isValid_validate; exact Hv | exact Hn].
    + intros (s & Hd & Hv & Hn). apply isValid_validate in Hv.
      rewrite ListSkills_value.
      destruct (firstByName_names (fun _ => false)
                  (List.filter isValid (discovered lib w (skillsLoader cb))) s)
        as (s' & Hs' & Hn'); [apply filter_In; split; assumption | reflexivity|].
      apply in_map_iff. exists s'. split; [congruence | exact Hs'].
  - intros n H. apply in_map_iff in H. destruct H as (s & Hn & Hs).
    apply listed_valid in Hs. destruct Hs as [_ Hv]. apply isValid_true in Hv.
    destruct Hv as (He & Hl & Hp & _). subst n.
    split; [apply String.eqb_neq; exact He|]. split; [|exact Hp].
    rewrite Z.gtb_ltb in Hl. apply Z.ltb_ge in Hl. exact Hl.
Qed.

(** X17.  Workspace skills shadow global skills, and both shadow builtin
    skills.  A valid skill found in the workspace directory is listed
    under its name with the source "workspace"; a skill listed with the
    source "global" has no valid namesake in the workspace directory; and
    one listed with the source "builtin" has none in the workspace or the
    global directory. *)
Theorem ListSkills_priority (lib : GoLib) (w : World) (sl : SkillsLoader) :
  let listed := value (ListSkills lib w sl) in
  let inWorkspace := discoveredIn lib w (workspaceSkills sl) "workspace" in
  let inGlobal := discoveredIn lib w (globalSkills sl) "global" in
  (forall x, In x inWorkspace -> validate x = [] ->
     exists s, In s listed /\ Name s = Name x /\ Source s = "workspace") /\
  (forall s, In s listed -> Source s = "global" ->
     forall x, In x inWorkspace -> validate x = [] -> Name x <> Name s) /\
  (forall s, In s listed -> Source s = "builtin" ->
     forall x, In x inWorkspace \/ In x inGlobal -> validate x = [] -> Name x <> Name s).
Proof.
  intros listed inWorkspace inGlobal.
  assert (Hw : forall x, In x inWorkspace -> validate x = [] ->
             exists s, In s listed /\ Name s = Name x /\ Source s = "workspace").
  { intros x Hx Hv. apply isValid_validate in Hv. subst listed.
    rewrite ListSkills_value. unfold discovered. fold inWorkspace.
    destruct (listed_from_prefix inWorkspace
                (inGlobal ++ discoveredIn lib w (builtinSkills sl) "builtin") x Hx Hv)
      as (s & Hs & HsA & Hn).
    exists s. split; [exact Hs|]. split; [exact Hn|].
    apply discoveredIn_inv in HsA. tauto. }
  assert (Hg : forall x, In x inWorkspace \/ In x inGlobal -> validate x = [] ->
             exists s, In s listed /\ Name s = Name x /\
                       (Source s = "workspace" \/ Source s = "global")).
  { intros x Hx Hv. apply isValid_validate in Hv. subst listed.
    rewrite ListSkills_value. unfold discovered. fold inWorkspace inGlobal.
    rewrite app_assoc.
    destruct (listed_from_prefix (inWorkspace ++ inGlobal)
                (discoveredIn lib w (builtinSkills sl) "builtin") x) as (s & Hs & HsA & Hn);
      [apply in_or_app; exact Hx | exact Hv |].
    exists s. split; [exact Hs|]. split; [exact Hn|].
    apply in_app_or in HsA. destruct HsA as [H|H]; apply discoveredIn_inv in H; tauto. }
  split; [exact Hw|]. split.
  - intros s Hs Hsrc x Hx Hv E. destruct (Hw x Hx Hv) as (s' & Hs' & Hn' & Hsrc').
    assert (s' = s).
    { apply (NoDup_map_inj Name listed); [apply listed_NoDup | assumption.. | congruence]. }
    subst s'. rewrite Hsrc in Hsrc'. discriminate.
  - intros s Hs Hsrc x Hx Hv E. destruct (Hg x Hx Hv) as (s' & Hs' & Hn' & Hsrc').
    assert (s' = s).
    { apply (NoDup_map_inj Name listed); [apply listed_NoDup | assumption.. | congruence]. }
    subst s'. rewrite Hsrc in Hsrc'. destruct Hsrc'; discriminate.
Qed.

Lemma ListSkills_priority_witness :
  exists s,
    In s (value (ListSkills Demo.lib Demo.mixedSkillsWorld
                   (skillsLoader (NewContextBuilder Demo.lib Demo.mixedSkillsWorld "ws")))) /\
    Name s = "good" /\ Source s = "workspace".
Proof.
  apply (proj1 (ListSkills_priority Demo.lib Demo.mixedSkillsWorld
                  (skillsLoader (NewContextBuilder Demo.lib Demo.mixedSkillsWorld "ws")))
           (mkSkillInfo "good" "ws/skills/good/SKILL.md" "workspace" "A good skill")).
  - vm_compute. tauto.
  - vm_compute. reflexivity.
Defined.



(** X19.  [LoadSkillsForContext] silently skips the names it cannot
    load: the result is the join of one part per loadable name, in the
    order given, so it is the same as for the loadable names alone, and
    it is empty when no name can be loaded (the empty list included). *)
Theorem LoadSkillsForContext_skips_unknown
    (lib : GoLib) (w : World) (strip : string -> string -> string) (sl : SkillsLoader)
    (skillNames : list string) :
  let loadable := fun name => snd (value (LoadSkill lib w strip sl name)) in
  value (LoadSkillsForContext lib w strip sl skillNames) =
    strings_Join (omap (contextPart lib w strip sl) skillNames)
                 (nl +:+ nl +:+ "---" +:+ nl +:+ nl) /\
  value (LoadSkillsForContext lib w strip sl (List.filter loadable skillNames)) =
    value (LoadSkillsForContext lib w strip sl skillNames) /\
  (List.filter loadable skillNames = [] ->
   value (LoadSkillsForContext lib w strip sl skillNames) = "").
Proof.
  intros loadable.
  assert (E : forall name, loadable name = isSome (contextPart lib w strip sl name)).
  { intros name. subst loadable. cbv beta. rewrite LoadSkill_value. unfold contextPart.
    destruct (firstSkillFile lib w sl name); reflexivity. }
  assert (F : omap (contextPart lib w strip sl) (List.filter loadable skillNames) =
              omap (contextPart lib w strip sl) skillNames).
  { rewrite (filter_ext _ _ E). apply omap_filter_isSome. }
  split; [apply LoadSkillsForContext_value|]. split.
  - rewrite !LoadSkillsForContext_value, F. reflexivity.
  - intros Hnone. rewrite LoadSkillsForContext_value, <- F, Hnone. reflexivity.
Qed.

Lemma LoadSkillsForContext_skips_unknown_witness :
  value (LoadSkillsForContext Demo.lib Demo.mixedSkillsWorld (fun c _ => c)
           (NewSkillsLoader Demo.lib "ws" "" "/home/u/skills") ["nowhere"; "bad-dir"]) = "".
Proof.
  apply (LoadSkillsForContext_skips_unknown Demo.lib Demo.mixedSkillsWorld (fun c _ => c)
           (NewSkillsLoader Demo.lib "ws" "" "/home/u/skills") ["nowhere"; "bad-dir"]).
  vm_compute. reflexivity.
Defined.

(** X20.  Skill metadata cannot alter the markup of the skills summary.
    With n listed skills the summary holds exactly 2 + 10 n bytes [<] and
    as many [>] -- those of the tags [BuildSkillsSummary] writes itself --
    whatever the names, descriptions and paths are; and the summary is
    empty exactly when no skill is listed. *)
Theorem BuildSkillsSummary_markup (lib : GoLib) (w : World) (sl : SkillsLoader) :
  let listed := value (ListSkills lib w sl) in
  let summary := value (BuildSkillsSummary lib w sl) in
  countByte "<" summary = match listed with [] => 0 | _ => 2 + 10 * length listed end%nat /\
  countByte ">" summary = match listed with [] => 0 | _ => 2 + 10 * length listed end%nat /\
  (summary = "" <-> listed = []).
Proof.
  intros listed summary. subst summary. rewrite BuildSkillsSummary_value. fold listed.
  assert (Hsrc : forall s, In s listed ->
            countByte "<" (Source s) = 0%nat /\ countByte ">" (Source s) = 0%nat).
  { intros s Hs. apply listed_source in Hs.
    destruct Hs as [E|[E|E]]; rewrite E; split; reflexivity. }
  assert (Hlt : countByte "<" (renderSkills listed) =
                match listed with [] => 0 | _ => 2 + 10 * length listed end%nat).
  { apply renderSkills_count; try reflexivity.
    apply Forall_forall. intros s Hs. apply skillLines_lt, Hsrc, list_elem_of_In, Hs. }
  split; [exact Hlt|]. split.
  - apply renderSkills_count; try reflexivity.
    apply Forall_forall. intros s Hs. apply skillLines_gt, Hsrc, list_elem_of_In, Hs.
  - split.
    + intros E. rewrite E in Hlt. destruct listed; [reflexivity | discriminate].
    + intros ->. reflexivity.
Qed.

(** X21.  [skillsListCmd] prints "No skills installed." exactly when no
    discovered skill is valid.  Otherwise it prints the header and, for
    every listed skill in order, two lines: the name with the source, and
    the description -- the description line is never left out, since a
    listed skill has a description. *)
Theorem skillsListCmd_output (lib : GoLib) (w : World) (loader : SkillsLoader) :
  let listed := value (ListSkills lib w loader) in
  value (skillsListCmd lib w loader) =
    match listed with
    | [] => "No skills installed." +:+ nl
    | _ => (nl +:+ "Installed Skills:" +:+ nl) +:+ ("------------------" +:+ nl) +:+
           String.concat "" (map skillEntry listed)
    end /\
  (listed = [] <-> forall s, In s (discovered lib w loader) -> validate s <> []).
Proof.
  intros listed. split.
  - unfold skillsListCmd. rewrite value_bind. fold listed.
    pose proof (listed_described lib w loader) as Hd. fold listed in Hd.
    destruct listed as [|s l]; [reflexivity|].
    cbn [length Nat.eqb value ret fst]. rewrite (printSkillsLoop_value _ _ Hd).
    rewrite !append_assoc. reflexivity.
  - subst listed. rewrite ListSkills_value. split.
    + intros E s Hs Hv. apply isValid_validate in Hv.
      destruct (firstByName_names (fun _ => false)
                  (List.filter isValid (discovered lib w loader)) s) as (s' & Hs' & _);
        [apply filter_In; split; assumption | reflexivity|].
      rewrite E in Hs'. contradiction.
    + intros H.
      destruct (firstByName (fun _ => false)
                  (List.filter isValid (discovered lib w loader))) as [|s l] eqn:E;
        [reflexivity|].
      assert (Hs : In s (firstByName (fun _ => false)
                           (List.filter isValid (discovered lib w loader))))
        by (rewrite E; left; reflexivity).
      apply firstByName_incl, filter_In in Hs. destruct Hs as [Hd Hv].
      apply isValid_validate in Hv. exfalso. exact (H s Hd Hv).
Qed.

(** X22.  [LoadBootstrapFiles] always tries the four files AGENTS.md,
    SOUL.md, USER.md and IDENTITY.md of the workspace, in this order and
    whether or not an earlier one could be read; its text is made of one
    block per readable file and is empty exactly when none can be read. *)
Theorem LoadBootstrapFiles_blocks (lib : GoLib) (w : World) (cb : ContextBuilder) :
  value (LoadBootstrapFiles lib w cb) =
    String.concat "" (map (bootstrapBlock lib w cb) bootstrapFiles) /\
  trace (LoadBootstrapFiles lib w cb) =
    map (fun f => EvReadFile (filepath_Join lib [workspace cb; f]))
        ["AGENTS.md"; "SOUL.md"; "USER.md"; "IDENTITY.md"] /\
  (value (LoadBootstrapFiles lib w cb) = "" <->
   forall f, In f bootstrapFiles ->
             os_ReadFile w (filepath_Join lib [workspace cb; f]) = None).
Proof.
  unfold LoadBootstrapFiles. rewrite bootstrapLoop_value, bootstrapLoop_trace.
  split; [reflexivity|]. split; [reflexivity|].
  change ("" +:+ ?x) with x. apply LoadBootstrapFiles_none.
Qed.

(** X23.  The static prompt always begins with the identity section, and
    consists of nothing else exactly when no bootstrap file can be read,
    no skill is listed and the memory context is empty. *)
Theorem BuildSystemPrompt_identity_first (lib : GoLib) (w : World) (cb : ContextBuilder) :
  let prompt := value (BuildSystemPrompt lib w cb) in
  String.prefix (getIdentity lib w cb) prompt = true /\
  (prompt = getIdentity lib w cb <->
   (forall f, In f bootstrapFiles ->
              os_ReadFile w (filepath_Join lib [workspace cb; f]) = None) /\
   value (ListSkills lib w (skillsLoader cb)) = [] /\
   memoryContext w = "").
Proof.
  intros prompt. subst prompt. rewrite BuildSystemPrompt_value.
  pose proof (LoadBootstrapFiles_none lib w cb) as Hb.
  pose proof (summary_nil lib w (skillsLoader cb)) as Hs.
  rewrite <- Hb, <- Hs. clear Hb Hs.
  unfold staticParts, optionalPart, strings_Join.
  set (b := String.concat "" _). set (s := value (BuildSkillsSummary _ _ _)).
  set (ident := getIdentity lib w cb).
  destruct (String.eqb_spec b "") as [Eb|Eb];
    destruct (String.eqb_spec s "") as [Es|Es];
    destruct (String.eqb_spec (memoryContext w) "") as [Em|Em]; cbn [app].
  1: { split; [cbn; rewrite <- (append_nil_r ident) at 2; apply prefix_append|].
       split; [intros _; tauto | reflexivity]. }
  all: split;
    [ match goal with
      | |- String.prefix ?i (String.concat ?sep (?i :: ?y :: ?l)) = true =>
          change (String.concat sep (i :: y :: l))
            with (i +:+ sep +:+ String.concat sep (y :: l)); apply prefix_append
      end
    | split;
      [ intros E;
        match goal with
        | E : String.concat ?sep (?i :: ?y :: ?l) = ?i |- _ =>
            pose proof (concat_length_cons sep i y l) as Hl; rewrite E in Hl;
            change (String.length sep) with 7%nat in Hl; lia
        end
      | intros (H1 & H2 & H3); congruence ] ].
Qed.

(** X24.  The names the pattern [^[a-zA-Z0-9]+(-[a-zA-Z0-9]+)*$] accepts
    are the non-empty texts of ASCII letters, digits and hyphens that
    neither begin nor end with a hyphen and have no two hyphens in a row;
    [MatchString] answers as a single scan from left to right does. *)
Theorem namePattern_accepts (s : string) :
  namePattern_MatchString s = nameShape false s /\
  (namePattern_MatchString s = true <->
   s <> "" /\
   allBytes (fun c => isAlnum c || Ascii.eqb "-" c) s = true /\
   strings_HasPrefix s "-" = false /\
   endsWith "-" s = false /\
   strings_Contains s "--" = false).
Proof.
  split; [apply namePattern_nameShape|].
  rewrite namePattern_nameShape, nameShape_conditions. unfold strings_HasPrefix.
  cbn [orb]. rewrite !andb_true_iff, !negb_true_iff. rewrite String.eqb_neq. tauto.
Qed.

(** X25.  [parseSimpleYAML] does not depend on the line-end convention:
    a frontmatter written with Unix line ends gives the same map when
    every line end is a Windows line end (CR LF) or a classic Mac line
    end (CR) instead. *)
Theorem parseSimpleYAML_line_endings (lib : GoLib) (content : string)
    (Hunix : countByte "013" content = 0%nat) :
  parseSimpleYAML lib (withLineEnding (cr +:+ nl) content) = parseSimpleYAML lib content /\
  parseSimpleYAML lib (withLineEnding cr content) = parseSimpleYAML lib content.
Proof.
  unfold parseSimpleYAML.
  rewrite (crlf_needs_cr content Hunix), (cr_absent content Hunix). split.
  - rewrite (normalize_crlf content Hunix), (cr_absent content Hunix). reflexivity.
  - rewrite (crlf_absent _ (withLineEnding_cr_no_lf content)).
    rewrite (normalize_cr content Hunix). reflexivity.
Qed.

Lemma parseSimpleYAML_line_endings_witness :
  parseSimpleYAML Demo.lib
    (withLineEnding (cr +:+ nl) ("name: demo" +:+ nl +:+ "description: demo skill")) =
  parseSimpleYAML Demo.lib ("name: demo" +:+ nl +:+ "description: demo skill") /\
  parseSimpleYAML Demo.lib
    (withLineEnding cr ("name: demo" +:+ nl +:+ "description: demo skill")) =
  parseSimpleYAML Demo.lib ("name: demo" +:+ nl +:+ "description: demo skill").
Proof.
  apply (parseSimpleYAML_line_endings Demo.lib
           ("name: demo" +:+ nl +:+ "description: demo skill")).
  reflexivity.
Defined.

(** X26.  A listed skill has a readable SKILL.md with a frontmatter
    block, and its name and description are taken from that block: from
    its JSON reading when the block parses as JSON, and otherwise from
    the keys [name] and [description] of its simple YAML reading.  So a
    SKILL.md without frontmatter is never listed. *)
Theorem ListSkills_metadata_origin (lib : GoLib) (w : World) (sl : SkillsLoader)
    (s : SkillInfo) (Hlisted : In s (value (ListSkills lib w sl))) :
  exists content,
    os_ReadFile w (Path s) = Some content /\
    extractFrontmatter lib content <> "" /\
    match json_Unmarshal lib (extractFrontmatter lib content) with
    | Some (n, d) => Name s = n /\ Description s = d
    | None =>
        parseSimpleYAML lib (extractFrontmatter lib content) !! "name" = Some (Name s) /\
        parseSimpleYAML lib (extractFrontmatter lib content) !! "description"
          = Some (Description s)
    end.
Proof.
  pose proof (listed_valid lib w sl s Hlisted) as [Hd Hv].
  destruct (discovered_inv lib w sl s Hd) as (_ & _ & d & Hp & Hc).
  apply isValid_true in Hv. destruct Hv as (Hn & _ & _ & Hdesc & _).
  apply String.eqb_neq in Hn, Hdesc.
  pose proof (f_equal Name Hc) as HcN. pose proof (f_equal Description Hc) as HcD.
  rewrite Hp. clear Hc Hp Hd Hlisted.
  unfold candidateInfo in HcN, HcD. rewrite getSkillMetadata_value in HcN, HcD.
  set (path := filepath_Join lib [sourceDir sl (Source s); de_Name d; "SKILL.md"]) in *.
  destruct (os_ReadFile w path) as [content|]; [|cbn in HcD; congruence].
  exists content. split; [reflexivity|]. cbv zeta in HcN, HcD.
  destruct (String.eqb_spec (extractFrontmatter lib content) "") as [E|E];
    [cbn in HcD; congruence|].
  split; [exact E|].
  destruct (json_Unmarshal lib (extractFrontmatter lib content)) as [[n0 d0]|].
  - split; [exact HcN | exact HcD].
  - cbn [Name Description md_Name md_Description] in HcN, HcD.
    split.
    + rewrite HcN. apply default_nonempty. rewrite <- HcN. exact Hn.
    + rewrite HcD. apply default_nonempty. rewrite <- HcD. exact Hdesc.
Qed.

Lemma ListSkills_metadata_origin_witness :
  exists content,
    os_ReadFile Demo.mixedSkillsWorld
      (Path (mkSkillInfo "good" "ws/skills/good/SKILL.md" "workspace" "A good skill"))
      = Some content /\
    extractFrontmatter Demo.lib content <> "" /\
    match json_Unmarshal Demo.lib (extractFrontmatter Demo.lib content) with
    | Some (n, d) => "good" = n /\ "A good skill" = d
    | None =>
        parseSimpleYAML Demo.lib (extractFrontmatter Demo.lib content) !! "name"
          = Some "good" /\
        parseSimpleYAML Demo.lib (extractFrontmatter Demo.lib content) !! "description"
          = Some "A good skill"
    end.
Proof.
  apply (ListSkills_metadata_origin Demo.lib Demo.mixedSkillsWorld
           (skillsLoader (NewContextBuilder Demo.lib Demo.mixedSkillsWorld "ws"))
           (mkSkillInfo "good" "ws/skills/good/SKILL.md" "workspace" "A good skill")).
  vm_compute. tauto.
Defined.
